(** * thread_mill: g-code for milling an internal thread with a single-pass tool

    A shallow embedding of [thread_mill.py] (the class-based program) and of
    [tmill_dict.py] (the dictionary-based program), followed by the facts
    proved about them.

    Python's [float] is kept abstract behind the interface [Arith]: the
    programs are functions of an arbitrary instance of it, and the general
    facts below are proved for every instance, so in particular for the
    arithmetic the programs run on.  The file gives two instances:
    - [Binary64.arith]: IEEE 754 binary64 on the kernel's primitive floats,
      with [round(x, n)] computed as CPython does (correctly rounded decimal,
      then the nearest double).  This is the arithmetic of the programs; the
      runs and the counterexamples are computed on it.
    - [Exact.arith]: rational numbers, with the decimal roundings performed
      on the exact value, half to even.  It is an idealisation and not the
      arithmetic of the programs (it differs from binary64 wherever binary64
      rounds); it comes with a reader and a printer of decimal text, and
      serves to run the general facts on concrete input lines down to the
      text written. *)

From Stdlib Require Import ZArith QArith Qround Lia Bool.
From Stdlib Require Import List String Ascii Floats Sorted.
Import ListNotations.

Set Implicit Arguments.

(** ** Exceptions and the error monad *)

Inductive exn : Type :=
| ValueError (msg : string)
| ZeroDivisionError
| OverflowError
| IndexError.

Inductive result (A : Type) : Type :=
| Ok (a : A)
| Raise (e : exn).

Arguments Ok {A} a.
Arguments Raise {A} e.

Definition bind {A B : Type} (c : result A) (k : A -> result B) : result B :=
  match c with
  | Ok a => k a
  | Raise e => Raise e
  end.

Notation "x <- c ;; k" := (bind c (fun x => k))
  (at level 61, c at next level, right associativity).

(** [for x in xs: ys.append(body(x))], stopping at the first exception. *)
Fixpoint for_each {A B : Type} (body : A -> result B) (xs : list A)
  : result (list B) :=
  match xs with
  | [] => Ok []
  | x :: rest =>
      y <- body x ;;
      ys <- for_each body rest ;;
      Ok (y :: ys)
  end.

(** ** Python's numbers *)

(** The operations the two programs use on [float]s. *)
Class Arith (F : Type) : Type := {
  lit : Z -> nat -> F;          (* the literal [m]e-[k]: [.65] is [lit 65 2] *)
  fadd : F -> F -> F;
  fsub : F -> F -> F;
  fmul : F -> F -> F;
  fdiv : F -> F -> F;           (* [x / y] for a divisor that is not zero *)
  fneg : F -> F;
  feqb : F -> F -> bool;
  fltb : F -> F -> bool;
  fleb : F -> F -> bool;
  fround : F -> nat -> F;       (* [round(x, ndigits)] *)
  fround_int : F -> result Z;   (* [round(x)]: an [int], or an exception
                                   on an infinity or a NaN *)
  of_int : Z -> F;              (* an [int] operand of a mixed product *)
  sin_45 : F                    (* [math.sin(math.radians(45))] *)
}.

(** The built-in conversions from text to numbers; [None] stands for the
    [ValueError] the built-in raises. *)
Class Parse (F : Type) : Type := {
  float_of_str : string -> option F;   (* [float(s)] for a [str] *)
  int_of_str : string -> option Z      (* [int(s)] for a [str] *)
}.

(** [str(x)] for a [float], which is also how [format] and [+] on [str]
    render it. *)
Class Print (F : Type) : Type := {
  str_of_float : F -> string
}.

Declare Scope py_scope.
Delimit Scope py_scope with py.
Notation "x + y" := (fadd x y) : py_scope.
Notation "x - y" := (fsub x y) : py_scope.
Notation "x * y" := (fmul x y) : py_scope.
Notation "x / y" := (fdiv x y) : py_scope.
Notation "- x" := (fneg x) : py_scope.
Notation "x == y" := (feqb x y) (at level 70, no associativity) : py_scope.
Notation "x <? y" := (fltb x y) : py_scope.
Notation "x <=? y" := (fleb x y) : py_scope.
Notation "x >? y" := (fltb y x) : py_scope.
Notation "x >=? y" := (fleb y x) : py_scope.

(** [str(n)] for an [int]. *)
Definition digit_char (d : Z) : ascii := ascii_of_nat (48 + Z.to_nat d).

Fixpoint str_of_pos_fuel (fuel : nat) (n : Z) (acc : string) : string :=
  match fuel with
  | O => acc
  | S fuel' =>
      let acc' := String (digit_char (n mod 10)) acc in
      if (n / 10 =? 0)%Z then acc' else str_of_pos_fuel fuel' (n / 10) acc'
  end.

Definition str_of_int (n : Z) : string :=
  let digits := str_of_pos_fuel (S (Z.to_nat (Z.log2 (Z.abs n)))) (Z.abs n) "" in
  if (n <? 0)%Z then String "-" digits else digits.

Definition nl : string := String (ascii_of_nat 10) EmptyString.

(** A value as [input()] or a constructor argument leaves it in an attribute. *)
Inductive pyval (F : Type) : Type :=
| PFloat (x : F)
| PStr (s : string).

Arguments PFloat {F} x.
Arguments PStr {F} s.

Section Conversions.
Context {F : Type} {A : Arith F} {P : Parse F}.
Local Open Scope string_scope.

(** [float(value)] *)
Definition py_float (value : pyval F) : result F :=
  match value with
  | PFloat x => Ok x
  | PStr s =>
      match float_of_str s with
      | Some x => Ok x
      | None => Raise (ValueError ("could not convert string to float: " ++ s))
      end
  end.

(** [int(s)] *)
Definition py_int (s : string) : result Z :=
  match int_of_str s with
  | Some n => Ok n
  | None =>
      Raise (ValueError ("invalid literal for int() with base 10: '" ++ s ++ "'"))
  end.

(** [x / y] in general: Python raises when the divisor is zero. *)
Definition py_div (x y : F) : result F :=
  if (y == lit 0 1)%py then Raise ZeroDivisionError else Ok (x / y)%py.

(** [xs[index]] *)
Definition py_index (xs : list F) (index : nat) : result F :=
  match nth_error xs index with
  | Some x => Ok x
  | None => Raise IndexError
  end.

(** [sum(xs)] *)
Definition py_sum (xs : list F) : F := fold_left fadd xs (of_int 0).
End Conversions.

(** ** thread_mill.py *)

Module ThreadMill.

(** *** class ScrewThread *)
Module ScrewThread.

(** The attributes, in the order [__init__] creates them (the order in
    which [vars(self)] lists them); [V] is the type of their values. *)
Record t (V : Type) : Type := mk {
  major_diameter : V;
  minor_diameter : V;
  depth : V;
  start_plane : V;
  tpi : V;
  pitch : V
}.

Definition map {V W : Type} (f : V -> W) (self : t V) : t W :=
  {| major_diameter := f (major_diameter self);
     minor_diameter := f (minor_diameter self);
     depth := f (depth self);
     start_plane := f (start_plane self);
     tpi := f (tpi self);
     pitch := f (pitch self) |}.

(** [for key, value in vars(self).items(): vars(self)[key] = body(key, value)] *)
Definition for_vars {V W : Type} (body : string -> V -> result W) (self : t V)
  : result (t W) :=
  major <- body "major_diameter"%string (major_diameter self) ;;
  minor <- body "minor_diameter"%string (minor_diameter self) ;;
  dep <- body "depth"%string (depth self) ;;
  start <- body "start_plane"%string (start_plane self) ;;
  tp <- body "tpi"%string (tpi self) ;;
  pit <- body "pitch"%string (pitch self) ;;
  Ok {| major_diameter := major; minor_diameter := minor; depth := dep;
        start_plane := start; tpi := tp; pitch := pit |}.

Section Methods.
Context {F : Type} {A : Arith F} {P : Parse F}.
Local Open Scope string_scope.

Definition init (major minor depth start pitch : pyval F) : t (pyval F) :=
  {| major_diameter := major; minor_diameter := minor; depth := depth;
     start_plane := start; tpi := PFloat (lit 0 1); pitch := pitch |}.

(** The body of the loop of [validate]. *)
Definition validate_attr (key : string) (value : pyval F) : result F :=
  x <- py_float value ;;
  if negb (key =? "start_plane") && (x <=? lit 0 1)%py
  then Raise (ValueError (key ++ " must be > 0.0"))
  else Ok x.

(** [validate] returns the object as the loop leaves it, every attribute
    a [float]. *)
Definition validate (self : t (pyval F)) : result (t F) :=
  self' <- for_vars validate_attr self ;;
  if (minor_diameter self' >=? major_diameter self')%py
  then Raise (ValueError "Minor diameter must be less than Major diameter")
  else Ok self'.

(** [input_thread_info], on the five lines [input()] reads. *)
Definition input_thread_info (major minor depth start tpi : string)
  : result (t F) :=
  tpi_value <- py_float (PStr tpi) ;;
  pitch <- py_div (lit 10 1) tpi_value ;;
  validate {| major_diameter := PStr major; minor_diameter := PStr minor;
              depth := PStr depth; start_plane := PStr start;
              tpi := PStr tpi; pitch := PFloat pitch |}.
End Methods.
End ScrewThread.

(** *** class CuttingTool *)
Module CuttingTool.

Record t (V : Type) : Type := mk {
  diameter : V;
  flutes : V;
  speed : V;
  feed : V;
  rpm : V
}.

Definition map {V W : Type} (f : V -> W) (self : t V) : t W :=
  {| diameter := f (diameter self); flutes := f (flutes self);
     speed := f (speed self); feed := f (feed self); rpm := f (rpm self) |}.

Definition for_vars {V W : Type} (body : string -> V -> result W) (self : t V)
  : result (t W) :=
  dia <- body "diameter"%string (diameter self) ;;
  flu <- body "flutes"%string (flutes self) ;;
  spe <- body "speed"%string (speed self) ;;
  fee <- body "feed"%string (feed self) ;;
  rp <- body "rpm"%string (rpm self) ;;
  Ok {| diameter := dia; flutes := flu; speed := spe; feed := fee; rpm := rp |}.

Section Methods.
Context {F : Type} {A : Arith F} {P : Parse F}.
Local Open Scope string_scope.

Definition init (diameter flutes speed feed : pyval F) : t (pyval F) :=
  {| diameter := diameter; flutes := flutes; speed := speed; feed := feed;
     rpm := PFloat (lit 0 1) |}.

Definition validate_attr (key : string) (value : pyval F) : result F :=
  x <- py_float value ;;
  if (x <=? lit 0 1)%py
  then Raise (ValueError (key ++ " must be > 0.0"))
  else Ok x.

Definition validate (self : t (pyval F)) : result (t F) :=
  for_vars validate_attr self.

(** [input_tool_info], on the four lines [input()] reads. *)
Definition input_tool_info (diameter flutes speed feed : string)
  : result (t F) :=
  speed_value <- py_float (PStr speed) ;;
  diameter_value <- py_float (PStr diameter) ;;
  rpm <- py_div (speed_value * lit 382 2)%py diameter_value ;;
  validate {| diameter := PStr diameter; flutes := PStr flutes;
              speed := PStr speed; feed := PStr feed; rpm := PFloat rpm |}.
End Methods.
End CuttingTool.

(** *** class BodyDetails *)
Module BodyDetails.

Record t (F : Type) : Type := mk {
  passes : list F;
  radii : list F;
  lead_arcs : list F;
  feed : list F;
  top_plane : F;
  lead_z : F;
  start_z : F
}.

Section Methods.
Context {F : Type} {A : Arith F} {P : Parse F}.
Local Open Scope string_scope.

(** [passes] is the [int] that [main] hands over, so [int(passes)] is
    [passes]. *)
Definition calc_pass_percentages (passes : Z) : result (list F) :=
  if negb ((0 <? passes)%Z && (passes <? 5)%Z)
  then Raise (ValueError (str_of_int passes
                          ++ " is not a valid option for number of passes."))
  else if (passes =? 1)%Z then Ok [lit 10 1]
  else if (passes =? 2)%Z then Ok [lit 65 2; lit 35 2]
  else if (passes =? 3)%Z then Ok [lit 50 2; lit 30 2; lit 20 2]
  else Ok [lit 40 2; lit 27 2; lit 20 2; lit 13 2].

(** The loop of [calc_toolpath_radii]; the list it returns is [radii]. *)
Fixpoint radii_loop (base_radius total_stock : F) (passes : list F)
    (previous_radius : F) : list F :=
  match passes with
  | [] => []
  | i :: rest =>
      let current_radius :=
        fround (base_radius + total_stock * i + previous_radius)%py 4 in
      current_radius
        :: radii_loop base_radius total_stock rest
             (current_radius - base_radius)%py
  end.

Definition total_stock_of (major minor : F) : F :=
  fround ((major - minor) / lit 20 1)%py 5.

Definition base_radius_of (minor tool_diameter : F) : F :=
  fround ((minor - tool_diameter) / lit 20 1)%py 5.

Definition calc_toolpath_radii (thread : ScrewThread.t F) (passes : list F)
    (tool_diameter : F) : list F :=
  let total_stock :=
    total_stock_of (ScrewThread.major_diameter thread)
                   (ScrewThread.minor_diameter thread) in
  let base_radius :=
    base_radius_of (ScrewThread.minor_diameter thread) tool_diameter in
  radii_loop base_radius total_stock passes (lit 0 1).

Definition calc_lead_arcs (radii : list F) : list F :=
  List.map (fun radius => fround (radius * sin_45)%py 4) radii.

(** [calc_adjusted_feed] reads [self.radii]; here it is an argument. *)
Definition calc_adjusted_feed (radii : list F) (tool : CuttingTool.t F)
  : result (list F) :=
  for_each
    (fun radius =>
       py_div (CuttingTool.feed tool * (radius * lit 20 1))%py
              (radius * lit 20 1 + CuttingTool.diameter tool)%py)
    radii.

Definition calc_feed_rate (radii : list F) (tool : CuttingTool.t F)
  : result (list F) :=
  feeds <- calc_adjusted_feed radii tool ;;
  Ok (List.map
        (fun feed_per_tooth =>
           (feed_per_tooth * CuttingTool.flutes tool
            * CuttingTool.rpm tool)%py)
        feeds).

(** [__init__]: the toolpath, together with [thread] and [tool] as their
    [validate] left them. *)
Definition init (thread : ScrewThread.t (pyval F))
    (tool : CuttingTool.t (pyval F)) (number_of_passes : Z)
  : result (t F) :=
  thread <- ScrewThread.validate thread ;;
  tool <- CuttingTool.validate tool ;;
  if (CuttingTool.diameter tool >? ScrewThread.minor_diameter thread)%py
  then Raise (ValueError "Tool diameter must be less than Minor diameter.")
  else
    passes <- calc_pass_percentages number_of_passes ;;
    let radii := calc_toolpath_radii thread passes (CuttingTool.diameter tool) in
    let lead_arcs := calc_lead_arcs radii in
    feed <- calc_feed_rate radii tool ;;
    let lead_z := fround (lit 125 3 * ScrewThread.pitch thread)%py 4 in
    Ok {| passes := passes; radii := radii; lead_arcs := lead_arcs;
          feed := feed; top_plane := ScrewThread.start_plane thread;
          lead_z := lead_z;
          start_z := (- (ScrewThread.depth thread + lead_z))%py |}.
End Methods.
End BodyDetails.

Section Posting.
Context {F : Type} {A : Arith F} {P : Parse F} {Sh : Print F}.
Local Open Scope string_scope.

Definition post_begin (rpm : F) : result string :=
  n <- fround_int rpm ;;
  Ok ("S" ++ str_of_int n ++ " M3" ++ nl ++ nl).

(** The text [post_body] assigns to [g_code] for one pass. *)
Definition motion_block (top_plane pitch : string) (rapid_feed : F)
    (start_z lead_z : F) (radius lead_arc feed : F) : string :=
  let feed := fround feed 4 in
  let start_x := fround (lead_arc * sin_45)%py 4 in
  let start_y := (- start_x)%py in
  "G90 G0 Z" ++ top_plane ++ nl
  ++ "G91 G01 Z" ++ str_of_float start_z
     ++ " F" ++ str_of_float rapid_feed ++ nl
  ++ "G01 X" ++ str_of_float start_x ++ " Y" ++ str_of_float start_y
     ++ " F" ++ str_of_float feed ++ nl
  ++ "G03 X" ++ str_of_float (fround (radius - start_x)%py 4)
     ++ " Y" ++ str_of_float (- start_y)%py
     ++ " Z" ++ str_of_float lead_z
     ++ " I0.0 J" ++ str_of_float (- start_y)%py
     ++ " F" ++ str_of_float feed ++ nl
  ++ "G03 X0.0 Y0.0 Z" ++ pitch
     ++ " I" ++ str_of_float (fround (- radius)%py 4)
     ++ " J0.0 F" ++ str_of_float feed ++ nl
  ++ "G03 X" ++ str_of_float (- start_x)%py
     ++ " Y" ++ str_of_float (- start_y)%py
     ++ " Z" ++ str_of_float lead_z
     ++ " I" ++ str_of_float (- start_x)%py
     ++ " J0.0 F" ++ str_of_float feed ++ nl
  ++ "G01 X" ++ str_of_float (- start_x)%py
     ++ " Y" ++ str_of_float start_y
     ++ " F" ++ str_of_float rapid_feed ++ nl ++ nl.

(** The [for] loop of [post_body] over [zip(radii, lead_arcs, feed)], on
    the two variables it updates. *)
Fixpoint post_body_loop (block : F -> F -> F -> string)
    (passes : list (F * (F * F))) (g_code_out g_code : string)
  : string * string :=
  match passes with
  | [] => (g_code_out, g_code)
  | (radius, (lead_arc, feed)) :: rest =>
      let g_code := block radius lead_arc feed in
      post_body_loop block rest (g_code_out ++ g_code) g_code
  end.

(** [for _ in range(count): g_code_out += g_code] *)
Fixpoint repeat_finish (count : nat) (g_code_out g_code : string) : string :=
  match count with
  | O => g_code_out
  | S count' => repeat_finish count' (g_code_out ++ g_code) g_code
  end.

Definition post_body (toolpath : BodyDetails.t F) (thread : ScrewThread.t F)
    (finish_passes : Z) (rapid_feed : F) : string :=
  let top_plane := str_of_float (BodyDetails.top_plane toolpath) in
  let rapid_feed := fround rapid_feed 4 in
  let pitch := str_of_float (fround (ScrewThread.pitch thread) 4) in
  let '(g_code_out, g_code) :=
    post_body_loop
      (motion_block top_plane pitch rapid_feed
         (BodyDetails.start_z toolpath) (BodyDetails.lead_z toolpath))
      (combine (BodyDetails.radii toolpath)
         (combine (BodyDetails.lead_arcs toolpath) (BodyDetails.feed toolpath)))
      "" "" in
  if (finish_passes >? 1)%Z
  then repeat_finish (Z.to_nat (finish_passes - 1)) g_code_out g_code
  else g_code_out.

Definition post_end : string := "M99" ++ nl ++ "%" ++ nl.

(** [main], from the lines it reads to the texts it writes, in order, to
    the g-code file (the configuration file is left out). *)
Definition main (major minor depth start tpi : string)
    (diameter flutes speed feed : string)
    (number_of_passes finish_passes : string) : result (list string) :=
  thread <- ScrewThread.input_thread_info major minor depth start tpi ;;
  tool <- CuttingTool.input_tool_info diameter flutes speed feed ;;
  passes <- py_int number_of_passes ;;
  toolpath <- BodyDetails.init (ScrewThread.map PFloat thread)
                (CuttingTool.map PFloat tool) passes ;;
  finish <- py_int finish_passes ;;
  if (finish <? 1)%Z
  then Raise (ValueError "Finish passes must be greater than 0")
  else
    begin_out <- post_begin (CuttingTool.rpm tool) ;;
    Ok [begin_out; post_body toolpath thread finish (lit 200 1); post_end].

(** The writes of [write_config_file], in order, for a thread and a tool
    whose attributes [validate] has converted to [float]s. *)
Definition write_config_file (file_name : string) (thread : ScrewThread.t F)
    (tool : CuttingTool.t F) (number_of_passes finish_passes : string)
  : list string :=
  [ file_name ++ nl;
    str_of_float (ScrewThread.major_diameter thread) ++ nl;
    str_of_float (ScrewThread.minor_diameter thread) ++ nl;
    str_of_float (ScrewThread.depth thread) ++ nl;
    str_of_float (ScrewThread.start_plane thread) ++ nl;
    str_of_float (ScrewThread.tpi thread) ++ nl;
    str_of_float (CuttingTool.diameter tool) ++ nl;
    str_of_float (CuttingTool.flutes tool) ++ nl;
    str_of_float (CuttingTool.speed tool) ++ nl;
    str_of_float (CuttingTool.feed tool) ++ nl;
    number_of_passes ++ nl;
    finish_passes ++ nl ].

(** [main] up to its call of [write_config_file], which comes before the
    g-code is written: the texts it writes, in order, to the configuration
    file.  The first line is the name given for the g-code file. *)
Definition main_config (g_code_name : string)
    (major minor depth start tpi : string)
    (diameter flutes speed feed : string)
    (number_of_passes finish_passes : string) : result (list string) :=
  thread <- ScrewThread.input_thread_info major minor depth start tpi ;;
  tool <- CuttingTool.input_tool_info diameter flutes speed feed ;;
  passes <- py_int number_of_passes ;;
  toolpath <- BodyDetails.init (ScrewThread.map PFloat thread)
                (CuttingTool.map PFloat tool) passes ;;
  finish <- py_int finish_passes ;;
  if (finish <? 1)%Z
  then Raise (ValueError "Finish passes must be greater than 0")
  else
    Ok (write_config_file g_code_name thread tool number_of_passes
          finish_passes).
End Posting.

End ThreadMill.

(** ** tmill_dict.py *)

Module TmillDict.

(** The dictionary [threads] of [get_thread_info]: its five keys, in the
    order of the literal that creates it. *)
Module Thread.
Record t (V : Type) : Type := mk {
  major_diameter : V;       (* "Major diameter" *)
  minor_diameter : V;       (* "Minor diameter" *)
  thread_depth : V;         (* "Thread depth" *)
  starting_plane : V;       (* "Starting plane" *)
  threads_per_inch : V      (* "Threads per inch" *)
}.

(** [for key, value in threads.items(): threads[key] = body(key, value)] *)
Definition for_items {V W : Type} (body : string -> V -> result W) (d : t V)
  : result (t W) :=
  major <- body "Major diameter"%string (major_diameter d) ;;
  minor <- body "Minor diameter"%string (minor_diameter d) ;;
  dep <- body "Thread depth"%string (thread_depth d) ;;
  start <- body "Starting plane"%string (starting_plane d) ;;
  tp <- body "Threads per inch"%string (threads_per_inch d) ;;
  Ok {| major_diameter := major; minor_diameter := minor; thread_depth := dep;
        starting_plane := start; threads_per_inch := tp |}.
End Thread.

(** The dictionary [tool] of [get_tool_info]. *)
Module Tool.
Record t (V : Type) : Type := mk {
  tool_diameter : V;        (* "Tool diameter" *)
  number_of_flutes : V;     (* "Number of flutes" *)
  speed : V;                (* "Speed" *)
  feed : V                  (* "Feed" *)
}.

Definition for_items {V W : Type} (body : string -> V -> result W) (d : t V)
  : result (t W) :=
  dia <- body "Tool diameter"%string (tool_diameter d) ;;
  flu <- body "Number of flutes"%string (number_of_flutes d) ;;
  spe <- body "Speed"%string (speed d) ;;
  fee <- body "Feed"%string (feed d) ;;
  Ok {| tool_diameter := dia; number_of_flutes := flu; speed := spe;
        feed := fee |}.
End Tool.

Section Functions.
Context {F : Type} {A : Arith F} {P : Parse F} {Sh : Print F}.
Local Open Scope string_scope.

(** The body of the loop of [get_thread_info]: the test, then the
    assignment. *)
Definition thread_item (key value : string) : result F :=
  too_small <-
    (if negb (key =? "Starting plane")
     then x <- py_float (PStr value) ;; Ok (x <=? lit 0 1)%py
     else Ok false) ;;
  if too_small
  then Raise (ValueError (key ++ " must be > 0.0"))
  else py_float (PStr value).

(** [get_thread_info], on the five lines [input()] reads. *)
Definition get_thread_info (threads : Thread.t string) : result (Thread.t F) :=
  threads <- Thread.for_items thread_item threads ;;
  if (Thread.minor_diameter threads >? Thread.major_diameter threads)%py
  then Raise (ValueError "Minor diameter must be less than Major diameter")
  else Ok threads.

Definition get_pass_percentages (passes : string) : result (list F) :=
  n <- py_int passes ;;
  if negb ((0 <? n)%Z && (n <? 5)%Z)
  then Raise (ValueError (passes ++ " is not a valid option for number of passes"))
  else if (n =? 1)%Z then Ok [lit 10 1]
  else if (n =? 2)%Z then Ok [lit 65 2; lit 35 2]
  else if (n =? 3)%Z then Ok [lit 50 2; lit 30 2; lit 20 2]
  else Ok [lit 40 2; lit 27 2; lit 20 2; lit 13 2].

Definition tool_item (key value : string) : result F :=
  x <- py_float (PStr value) ;;
  if (x <=? lit 0 1)%py
  then Raise (ValueError (key ++ " must be > 0.0"))
  else py_float (PStr value).

Definition get_tool_info (tool : Tool.t string) : result (Tool.t F) :=
  Tool.for_items tool_item tool.

Fixpoint radii_loop (base_radius total_stock : F) (passes : list F)
    (previous_radius : F) : list F :=
  match passes with
  | [] => []
  | i :: rest =>
      let current_radius :=
        fround (base_radius + total_stock * i + previous_radius)%py 4 in
      current_radius
        :: radii_loop base_radius total_stock rest
             (current_radius - base_radius)%py
  end.

Definition get_toolpath_radii (thread : Thread.t F) (passes : list F)
    (tool_diameter : F) : list F :=
  let total_stock :=
    fround ((Thread.major_diameter thread - Thread.minor_diameter thread)
            / lit 20 1)%py 5 in
  let base_radius :=
    fround ((Thread.minor_diameter thread - tool_diameter) / lit 20 1)%py 5 in
  radii_loop base_radius total_stock passes (lit 0 1).

Definition get_lead_radii (radii : list F) : list F :=
  List.map (fun lead => fround (lead * sin_45)%py 4) radii.

(** The [map] object of [get_feed_adjustment], as [list(...)] forces it. *)
Definition get_feed_adjustment (radii : list F) (tool_diameter : F)
  : result (list F) :=
  for_each
    (fun adjust => py_div (adjust * lit 20 1)%py
                          (adjust * lit 20 1 + tool_diameter)%py)
    radii.

(** The writes of [write_begin], in order. *)
Definition write_begin (speed : Z) : list string :=
  ["S" ++ str_of_int speed ++ " M3" ++ nl; nl].

(** The writes of [write_body], in order. *)
Definition write_body (lead_arc feed feed_adjust fast_feed top_plane start_z
    radius lead_z pitch : F) : list string :=
  let start_x := fround (lead_arc * sin_45)%py 4 in
  let start_y := (- start_x)%py in
  let adjusted_feed := fround (feed * feed_adjust)%py 2 in
  [ "G90 G0 Z" ++ str_of_float top_plane ++ nl;
    "G91 G01 Z" ++ str_of_float start_z
      ++ " F" ++ str_of_float fast_feed ++ nl;
    "G01 X" ++ str_of_float start_x
      ++ " Y" ++ str_of_float start_y
      ++ " F" ++ str_of_float adjusted_feed ++ nl;
    "G03 X" ++ str_of_float (fround (radius - start_x)%py 4)
      ++ " Y" ++ str_of_float (- start_y)%py
      ++ " Z" ++ str_of_float lead_z
      ++ " I0.0"
      ++ " J" ++ str_of_float (- start_y)%py
      ++ " F" ++ str_of_float adjusted_feed ++ nl;
    "G03 X0.0 Y0.0 Z" ++ str_of_float (fround pitch 4)
      ++ " I" ++ str_of_float (fround (- radius)%py 4)
      ++ " J0.0"
      ++ " F" ++ str_of_float adjusted_feed ++ nl;
    "G03 X" ++ str_of_float (- start_x)%py
      ++ " Y" ++ str_of_float (- start_y)%py
      ++ " Z" ++ str_of_float lead_z
      ++ " I" ++ str_of_float (- start_x)%py
      ++ " J0.0"
      ++ " F" ++ str_of_float adjusted_feed ++ nl;
    "G01 X" ++ str_of_float (- start_x)%py
      ++ " Y" ++ str_of_float start_y
      ++ " F" ++ str_of_float fast_feed ++ nl;
    nl ].

Definition write_end : list string := ["M99" ++ nl; "%" ++ nl].

(** [for count in range(extra): write_body(...)] on the file's writes. *)
Fixpoint finish_loop (extra : nat) (block : list string) (file : list string)
  : list string :=
  match extra with
  | O => file
  | S extra' => finish_loop extra' block (file ++ block)
  end.

(** The loop of [main] over [enumerate(toolpath_radii)]; [body] is
    [write_body] with the arguments that do not change. *)
Fixpoint body_loop (body : F -> F -> F -> list string)
    (lead_arcs feed_adjust : list F) (last_index : Z) (finish_passes : Z)
    (items : list (nat * F)) (file : list string) : result (list string) :=
  match items with
  | [] => Ok file
  | (index, radius) :: rest =>
      lead_arc <- py_index lead_arcs index ;;
      adjust <- py_index feed_adjust index ;;
      let file := (file ++ body lead_arc adjust radius)%list in
      if (Z.of_nat index =? last_index)%Z
      then
        body_loop body lead_arcs feed_adjust last_index finish_passes rest
          (finish_loop (Z.to_nat (finish_passes - 1))
             (body lead_arc adjust radius) file)
      else
        body_loop body lead_arcs feed_adjust last_index finish_passes rest file
  end.

Definition enumerate {X : Type} (xs : list X) : list (nat * X) :=
  combine (seq 0 (List.length xs)) xs.

(** [main], from the lines it reads to the texts it writes, in order, to
    the g-code file (the configuration file is left out). *)
Definition main (threads : Thread.t string) (tool : Tool.t string)
    (number_of_passes finish_passes : string) : result (list string) :=
  thread_info <- get_thread_info threads ;;
  tool_info <- get_tool_info tool ;;
  if (Tool.tool_diameter tool_info >? Thread.minor_diameter thread_info)%py
  then Raise (ValueError "Tool diameter must be less than Minor diameter.")
  else
    pass_percentages <- get_pass_percentages number_of_passes ;;
    finish <- py_int finish_passes ;;
    if (finish <? 1)%Z
    then Raise (ValueError "Finish passes must be greater than 0")
    else
      let toolpath_radii :=
        get_toolpath_radii thread_info pass_percentages
          (Tool.tool_diameter tool_info) in
      let lead_arcs := get_lead_radii toolpath_radii in
      feed_adjust <-
        get_feed_adjustment toolpath_radii (Tool.tool_diameter tool_info) ;;
      speed <- py_div (Tool.speed tool_info * lit 382 2)%py
                 (Tool.tool_diameter tool_info) ;;
      rpm <- fround_int speed ;;
      let feed :=
        (of_int rpm * Tool.feed tool_info
         * Tool.number_of_flutes tool_info)%py in
      let fast_feed := lit 150 1 in
      pitch <- py_div (lit 10 1) (Thread.threads_per_inch thread_info) ;;
      let lead_z := fround (lit 125 3 * pitch)%py 4 in
      let start_z := (- (Thread.thread_depth thread_info + lead_z))%py in
      let top_plane := Thread.starting_plane thread_info in
      file <-
        body_loop
          (fun lead_arc adjust radius =>
             write_body lead_arc feed adjust fast_feed top_plane start_z
               radius lead_z pitch)
          lead_arcs feed_adjust
          (Z.of_nat (List.length toolpath_radii) - 1) finish
          (enumerate toolpath_radii) (write_begin rpm) ;;
      Ok (file ++ write_end)%list.

(** The writes of [write_config_file], in order. *)
Definition write_config_file (file_name : string) (thread : Thread.t F)
    (tool : Tool.t F) (number_of_passes finish_passes : string)
  : list string :=
  [ file_name ++ nl;
    str_of_float (Thread.major_diameter thread) ++ nl;
    str_of_float (Thread.minor_diameter thread) ++ nl;
    str_of_float (Thread.thread_depth thread) ++ nl;
    str_of_float (Thread.starting_plane thread) ++ nl;
    str_of_float (Thread.threads_per_inch thread) ++ nl;
    str_of_float (Tool.tool_diameter tool) ++ nl;
    str_of_float (Tool.number_of_flutes tool) ++ nl;
    str_of_float (Tool.speed tool) ++ nl;
    str_of_float (Tool.feed tool) ++ nl;
    number_of_passes ++ nl;
    finish_passes ++ nl ].

(** [main] through its call of [write_config_file], which comes after the
    g-code is written and the g-code file closed: the texts it writes, in
    order, to the configuration file.  The first line is the name of the
    configuration file itself. *)
Definition main_config (config_name : string) (threads : Thread.t string)
    (tool : Tool.t string) (number_of_passes finish_passes : string)
  : result (list string) :=
  thread_info <- get_thread_info threads ;;
  tool_info <- get_tool_info tool ;;
  g_code <- main threads tool number_of_passes finish_passes ;;
  Ok (write_config_file config_name thread_info tool_info number_of_passes
        finish_passes).
End Functions.

End TmillDict.

(** ** Decimal text *)

(** The instances below read plain decimal notation: an optional sign,
    digits, an optional point, digits.  Python's [float] and [int] accept
    more spellings (exponents, blanks, underscores, [inf], [nan]); these
    are outside the instances, and no general fact below depends on the
    reader.  The printer of decimal text belongs to the exact instance
    only: no printer is given for binary64, and the facts about the text
    written hold for every printer. *)

Definition digit_of (c : ascii) : option Z :=
  let n := Z.of_nat (nat_of_ascii c) in
  if ((48 <=? n) && (n <=? 57))%Z then Some (n - 48)%Z else None.

Fixpoint digits_value (s : string) (acc : Z) : option Z :=
  match s with
  | EmptyString => Some acc
  | String c rest =>
      match digit_of c with
      | Some d => digits_value rest (10 * acc + d)%Z
      | None => None
      end
  end.

Definition split_sign (s : string) : bool * string :=
  match s with
  | String "-" rest => (true, rest)
  | String "+" rest => (false, rest)
  | _ => (false, s)
  end.

Fixpoint split_point (s : string) : string * option string :=
  match s with
  | EmptyString => (EmptyString, None)
  | String c rest =>
      if (c =? ".")%char then (EmptyString, Some rest)
      else let (whole, frac) := split_point rest in (String c whole, frac)
  end.

Definition parse_int (s : string) : option Z :=
  let (negative, body) := split_sign s in
  match body with
  | EmptyString => None
  | _ =>
      match digits_value body 0 with
      | Some n => Some (if negative then (- n)%Z else n)
      | None => None
      end
  end.

Definition parse_decimal (s : string) : option Q :=
  let (negative, body) := split_sign s in
  let (whole, point) := split_point body in
  let frac := match point with Some f => f | None => EmptyString end in
  match (String.length whole + String.length frac)%nat with
  | O => None
  | _ =>
      match digits_value (whole ++ frac) 0 with
      | Some n =>
          Some ((if negative then (- n)%Z else n)
                # Z.to_pos (10 ^ Z.of_nat (String.length frac)))
      | None => None
      end
  end.

Fixpoint frac_digits (fuel : nat) (num den : Z) : string :=
  match fuel with
  | O => EmptyString
  | S fuel' =>
      String (digit_char (10 * num / den))
        (if (10 * num mod den =? 0)%Z then EmptyString
         else frac_digits fuel' (10 * num mod den) den)
  end.

(** The decimal expansion of a rational, cut after 17 fractional digits. *)
Definition str_of_Q (x : Q) : string :=
  let n := Z.abs (Qnum x) in
  let d := Z.pos (Qden x) in
  ((if (Qnum x <? 0)%Z then "-" else "")
   ++ str_of_int (n / d) ++ "." ++ frac_digits 17 (n mod d) d)%string.

(** ** Exact arithmetic *)

(** An idealisation of the programs' numbers: rationals, every operation
    exact and every rounding made on the exact value.  It is not what the
    programs compute: it differs from binary64 wherever binary64 rounds
    (see [exact_rounding_is_not_binary64]).  The general facts are not
    stated over it; it serves to run them on concrete input lines, where a
    reader and a printer are needed. *)

Module Exact.

(** The integer nearest to [x], a tie going to the even one. *)
Definition round_half_even (x : Q) : Z :=
  let f := Qfloor x in
  match (x - inject_Z f ?= 1 # 2)%Q with
  | Lt => f
  | Gt => (f + 1)%Z
  | Eq => if Z.even f then f else (f + 1)%Z
  end.

Definition pow10 (n : nat) : Z := (10 ^ Z.of_nat n)%Z.

Definition round_to (x : Q) (n : nat) : Q :=
  round_half_even (x * inject_Z (pow10 n)) # Z.to_pos (pow10 n).

#[global] Instance arith : Arith Q := {|
  lit m k := m # Z.to_pos (pow10 k);
  fadd := Qplus;
  fsub := Qminus;
  fmul := Qmult;
  fdiv := Qdiv;
  fneg := Qopp;
  feqb := Qeq_bool;
  fltb x y := negb (Qle_bool y x);
  fleb := Qle_bool;
  fround := round_to;
  fround_int x := Ok (round_half_even x);
  of_int := inject_Z;
  (* 0x1.6a09e667f3bccp-1 = 0.7071067811865475... *)
  sin_45 := 6369051672525772 # 9007199254740992
|}.

#[global] Instance parse : Parse Q := {|
  float_of_str := parse_decimal;
  int_of_str := parse_int
|}.

#[global] Instance print : Print Q := {|
  str_of_float := str_of_Q
|}.

End Exact.

(** ** IEEE 754 binary64 *)

Module Binary64.

Definition Z2SF (z : Z) : spec_float :=
  match z with
  | Z0 => S754_zero false
  | Zpos p => S754_finite false p 0
  | Zneg p => S754_finite true p 0
  end.

(** The double nearest to [n / d], for [d > 0]. *)
Definition nearest (n d : Z) : float :=
  SF2Prim (SFdiv prec emax (Z2SF n) (Z2SF d)).

(** The integer nearest to [a / b], for [b > 0], a tie going to the even
    one. *)
Definition half_even_div (a b : Z) : Z :=
  match (2 * (a mod b) ?= b)%Z with
  | Lt => (a / b)%Z
  | Gt => (a / b + 1)%Z
  | Eq => if Z.even (a / b) then (a / b)%Z else (a / b + 1)%Z
  end.

(** The integer nearest to [m * 2^e * 10^n]. *)
Definition scaled_half_even (m : positive) (e : Z) (n : nat) : Z :=
  if (0 <=? e)%Z
  then (Z.pos m * 2 ^ e * 10 ^ Z.of_nat n)%Z
  else half_even_div (Z.pos m * 10 ^ Z.of_nat n) (2 ^ (- e)).

(** [float.__round__] with [ndigits]: the decimal with [n] fractional
    digits nearest to the exact value of [x], then the double nearest to
    that decimal; zeros, infinities and NaN round to themselves. *)
Definition round_to (x : float) (n : nat) : float :=
  match Prim2SF x with
  | S754_finite s m e =>
      let q := scaled_half_even m e n in
      if (q =? 0)%Z then (if s then neg_zero else zero)
      else nearest (if s then (- q)%Z else q) (10 ^ Z.of_nat n)
  | _ => x
  end.

Definition round_int (x : float) : result Z :=
  match Prim2SF x with
  | S754_finite s m e =>
      let q := scaled_half_even m e 0 in
      Ok (if s then (- q)%Z else q)
  | S754_zero _ => Ok 0%Z
  | S754_infinity _ => Raise OverflowError
  | S754_nan => Raise (ValueError "cannot convert float NaN to integer")
  end.

#[global] Instance arith : Arith float := {|
  lit m k := nearest m (10 ^ Z.of_nat k);
  fadd := PrimFloat.add;
  fsub := PrimFloat.sub;
  fmul := PrimFloat.mul;
  fdiv := PrimFloat.div;
  fneg := PrimFloat.opp;
  feqb := PrimFloat.eqb;
  fltb := PrimFloat.ltb;
  fleb := PrimFloat.leb;
  fround := round_to;
  fround_int := round_int;
  of_int z := nearest z 1;
  sin_45 := 0x1.6a09e667f3bccp-1%float
|}.

#[global] Instance parse : Parse float := {|
  float_of_str s :=
    match parse_decimal s with
    | Some q => Some (nearest (Qnum q) (Z.pos (Qden q)))
    | None => None
    end;
  int_of_str := parse_int
|}.

End Binary64.

(** ** Notions used in the statements *)

(** [''.join(blocks)] *)
Definition join (blocks : list string) : string :=
  fold_right String.append EmptyString blocks.

(** [abs(x - target) <= tolerance], by comparisons. *)
Definition within {F : Type} {A : Arith F} (x target tolerance : F) : bool :=
  ((target - tolerance <=? x) && (x <=? target + tolerance))%py.

(** The fractions of a pass list sum to 1.0 within 1e-9. *)
Definition sums_to_one {F : Type} {A : Arith F} (passes : result (list F))
  : bool :=
  match passes with
  | Ok fractions => within (py_sum fractions) (lit 10 1) (lit 1 9)
  | Raise _ => false
  end.

(** The number of occurrences of the character [c] in [s]. *)
Fixpoint count_char (c : ascii) (s : string) : nat :=
  match s with
  | EmptyString => O
  | String x rest =>
      ((if Ascii.eqb x c then 1 else 0) + count_char c rest)%nat
  end.

(** A printer of numbers that never writes the letter G, as [str] on a
    [float] never does (it writes digits, a sign, a point, [e], [inf] or
    [nan]). *)
Definition prints_no_G (F : Type) {Sh : Print F} : Prop :=
  forall x : F, count_char "G" (str_of_float x) = O.

Arguments prints_no_G F {Sh}.

(** The motion blocks of the planned passes, one per pass, as [post_body]
    renders them. *)
Definition planned_blocks {F : Type} {A : Arith F} {Sh : Print F}
    (toolpath : ThreadMill.BodyDetails.t F) (thread : ThreadMill.ScrewThread.t F)
    (rapid_feed : F) : list string :=
  List.map
    (fun pass : F * (F * F) =>
       ThreadMill.motion_block
         (str_of_float (ThreadMill.BodyDetails.top_plane toolpath))
         (str_of_float (fround (ThreadMill.ScrewThread.pitch thread) 4))
         (fround rapid_feed 4)
         (ThreadMill.BodyDetails.start_z toolpath)
         (ThreadMill.BodyDetails.lead_z toolpath)
         (fst pass) (fst (snd pass)) (snd (snd pass)))
    (combine (ThreadMill.BodyDetails.radii toolpath)
       (combine (ThreadMill.BodyDetails.lead_arcs toolpath)
          (ThreadMill.BodyDetails.feed toolpath))).

(** The planned blocks followed by the finishing repetitions of the last
    one. *)
Definition with_finish {X : Type} (planned : list X) (default : X)
    (finish_passes : Z) : list X :=
  planned ++ repeat (last planned default) (Z.to_nat (finish_passes - 1)).

(** The last [count] elements of a list. *)
Definition last_n {X : Type} (count : nat) (xs : list X) : list X :=
  skipn (List.length xs - count) xs.

(** The blocks the loop of [TmillDict.main] writes for the passes [rs],
    whose lead arcs are [la] and whose feed adjustments are [fa]; [body] is
    [write_body] with the arguments that do not change. *)
Definition loop_blocks {F : Type} (body : F -> F -> F -> list string)
    (rs la fa : list F) : list (list string) :=
  List.map (fun pass : F * (F * F) =>
              body (fst (snd pass)) (snd (snd pass)) (fst pass))
    (combine rs (combine la fa)).

(** The blocks of writes that the loop of [TmillDict.main] makes for the
    planned passes, one block of writes per pass, from the values [main]
    has computed when it enters the loop. *)
Definition dictionary_blocks {F : Type} {A : Arith F} {Sh : Print F}
    (thread_info : TmillDict.Thread.t F) (tool_info : TmillDict.Tool.t F)
    (passes feed_adjust : list F) (rpm : Z) (pitch : F)
  : list (list string) :=
  let radii :=
    TmillDict.get_toolpath_radii thread_info passes
      (TmillDict.Tool.tool_diameter tool_info) in
  let lead_z := fround (lit 125 3 * pitch)%py 4 in
  loop_blocks
    (fun lead_arc adjust radius =>
       TmillDict.write_body lead_arc
         (of_int rpm * TmillDict.Tool.feed tool_info
          * TmillDict.Tool.number_of_flutes tool_info)%py
         adjust (lit 150 1) (TmillDict.Thread.starting_plane thread_info)
         (- (TmillDict.Thread.thread_depth thread_info + lead_z))%py
         radius lead_z pitch)
    radii (TmillDict.get_lead_radii radii) feed_adjust.

(** ** Runs on concrete input *)

(** The planning steps of [ThreadMill.main]: the lines read and validated,
    then the toolpath. *)
Definition plan_from_input {F : Type} {A : Arith F} {P : Parse F}
    (major minor depth start tpi diameter flutes speed feed : string)
    (number_of_passes : Z) : result (ThreadMill.BodyDetails.t F) :=
  thread <- ThreadMill.ScrewThread.input_thread_info major minor depth start tpi ;;
  tool <- ThreadMill.CuttingTool.input_tool_info diameter flutes speed feed ;;
  ThreadMill.BodyDetails.init (ThreadMill.ScrewThread.map PFloat thread)
    (ThreadMill.CuttingTool.map PFloat tool) number_of_passes.

Definition radii_of {F : Type} (plan : result (ThreadMill.BodyDetails.t F))
  : result (list F) :=
  toolpath <- plan ;; Ok (ThreadMill.BodyDetails.radii toolpath).

(** A thread and a tool as the constructors take them: major and minor
    diameter in units of 1e-5, the rest fixed (depth 0.05, start plane
    0.25, 20 threads per inch; 4 flutes, 100 SFM, 0.001 per tooth, 1528
    rpm). *)
Definition thread_of {F : Type} {A : Arith F} (major minor : Z)
  : ThreadMill.ScrewThread.t (pyval F) :=
  ThreadMill.ScrewThread.mk (PFloat (lit major 5)) (PFloat (lit minor 5))
    (PFloat (lit 5 2)) (PFloat (lit 25 2)) (PFloat (lit 20 0))
    (PFloat (lit 5 2)).

Definition tool_of {F : Type} {A : Arith F} (diameter : Z)
  : ThreadMill.CuttingTool.t (pyval F) :=
  ThreadMill.CuttingTool.mk (PFloat (lit diameter 5)) (PFloat (lit 4 0))
    (PFloat (lit 100 0)) (PFloat (lit 1 3)) (PFloat (lit 1528 0)).

(** A tool as [input_tool_info] builds it, from its diameter and its feed
    per tooth: 4 flutes, 100 SFM, and the [rpm] derived from them. *)
Definition tool_with {F : Type} {A : Arith F} (diameter feed : F)
  : ThreadMill.CuttingTool.t (pyval F) :=
  ThreadMill.CuttingTool.mk (PFloat diameter) (PFloat (lit 4 0))
    (PFloat (lit 100 0)) (PFloat feed)
    (PFloat (lit 100 0 * lit 382 2 / diameter)%py).

(** The text of 1e308 in plain decimal notation: a 1 followed by 308
    zeros. *)
Definition large_speed : string :=
  String "1" (string_of_list_ascii (repeat "0"%char 308)).

(** The text of 1e309, which [float] reads as an infinity. *)
Definition beyond_range : string := (large_speed ++ "0")%string.

(** What is below is below or equal: the law of order that relates the
    tests [minor > major] and [minor >= major] of the two programs. *)
Definition lt_le_law (F : Type) {A : Arith F} : Prop :=
  forall x y : F, (x <? y)%py = true -> (x <=? y)%py = true.

Arguments lt_le_law F {A}.

(** The attributes as numbers, for an object whose attributes are all
    [float]s. *)
Definition thread_values {F : Type} {A : Arith F}
    (thread : ThreadMill.ScrewThread.t (pyval F)) : ThreadMill.ScrewThread.t F :=
  ThreadMill.ScrewThread.map
    (fun value => match value with PFloat x => x | PStr _ => lit 0 1 end)
    thread.

Definition tool_values {F : Type} {A : Arith F}
    (tool : ThreadMill.CuttingTool.t (pyval F)) : ThreadMill.CuttingTool.t F :=
  ThreadMill.CuttingTool.map
    (fun value => match value with PFloat x => x | PStr _ => lit 0 1 end)
    tool.

(** The toolpath of a run that returns one (the empty toolpath stands for
    a run that raises). *)
Definition toolpath_of {F : Type} {A : Arith F}
    (plan : result (ThreadMill.BodyDetails.t F)) : ThreadMill.BodyDetails.t F :=
  match plan with
  | Ok toolpath => toolpath
  | Raise _ =>
      ThreadMill.BodyDetails.mk [] [] [] [] (lit 0 1) (lit 0 1) (lit 0 1)
  end.

(** * Facts that hold for every arithmetic *)

Section ControlFlow.
Context {F : Type} {A : Arith F} {P : Parse F}.
Local Open Scope string_scope.

Lemma bind_ok_inv {X Y : Type} (c : result X) (k : X -> result Y) (y : Y) :
  bind c k = Ok y -> exists x, c = Ok x /\ k x = Ok y.
Proof.
  destruct c as [x | e]; cbn [bind]; intros H; [| discriminate].
  exists x. split; [reflexivity | exact H].
Qed.

Lemma py_float_raises_value_error (value : pyval F) (e : exn) :
  py_float value = Raise e -> exists msg, e = ValueError msg.
Proof.
  destruct value as [x | s]; cbn [py_float]; [discriminate |].
  destruct (float_of_str s); [discriminate |].
  intros H. injection H as <-. eexists; reflexivity.
Qed.

Lemma thread_attr_raises_value_error (key : string) (value : pyval F) (e : exn) :
  ThreadMill.ScrewThread.validate_attr key value = Raise e ->
  exists msg, e = ValueError msg.
Proof.
  unfold ThreadMill.ScrewThread.validate_attr.
  destruct (py_float value) as [x | e'] eqn:Hf; cbn [bind].
  - destruct (negb (key =? "start_plane") && (x <=? lit 0 1)%py);
      [| discriminate].
    intros H. injection H as <-. eexists; reflexivity.
  - intros H. injection H as <-. exact (py_float_raises_value_error _ Hf).
Qed.

Lemma thread_attr_ok (key : string) (value : pyval F) (x : F) :
  ThreadMill.ScrewThread.validate_attr key value = Ok x ->
  py_float value = Ok x
  /\ (key <> "start_plane" -> (x <=? lit 0 1)%py = false).
Proof.
  unfold ThreadMill.ScrewThread.validate_attr.
  destruct (py_float value) as [y | e'] eqn:Hf; cbn [bind]; [| discriminate].
  destruct (String.eqb_spec key "start_plane") as [-> | Hk]; cbn [negb andb].
  - intros H. injection H as <-. split; [reflexivity | congruence].
  - destruct (y <=? lit 0 1)%py eqn:Hy; [discriminate |].
    intros H. injection H as <-. split; [reflexivity | intros _; exact Hy].
Qed.

Lemma tool_attr_raises_value_error (key : string) (value : pyval F) (e : exn) :
  ThreadMill.CuttingTool.validate_attr key value = Raise e ->
  exists msg, e = ValueError msg.
Proof.
  unfold ThreadMill.CuttingTool.validate_attr.
  destruct (py_float value) as [x | e'] eqn:Hf; cbn [bind].
  - destruct (x <=? lit 0 1)%py; [| discriminate].
    intros H. injection H as <-. eexists; reflexivity.
  - intros H. injection H as <-. exact (py_float_raises_value_error _ Hf).
Qed.

Lemma tool_attr_ok (key : string) (value : pyval F) (x : F) :
  ThreadMill.CuttingTool.validate_attr key value = Ok x ->
  py_float value = Ok x /\ (x <=? lit 0 1)%py = false.
Proof.
  unfold ThreadMill.CuttingTool.validate_attr.
  destruct (py_float value) as [y | e'] eqn:Hf; cbn [bind]; [| discriminate].
  destruct (y <=? lit 0 1)%py eqn:Hy; [discriminate |].
  intros H. injection H as <-. split; [reflexivity | exact Hy].
Qed.

(** What [ScrewThread.validate] has checked when it returns. *)
Lemma thread_validate_ok (self : ThreadMill.ScrewThread.t (pyval F))
    (self' : ThreadMill.ScrewThread.t F) :
  ThreadMill.ScrewThread.validate self = Ok self' ->
  ThreadMill.ScrewThread.map py_float self
  = ThreadMill.ScrewThread.map Ok self'
  /\ (ThreadMill.ScrewThread.major_diameter self' <=? lit 0 1)%py = false
  /\ (ThreadMill.ScrewThread.minor_diameter self' <=? lit 0 1)%py = false
  /\ (ThreadMill.ScrewThread.depth self' <=? lit 0 1)%py = false
  /\ (ThreadMill.ScrewThread.tpi self' <=? lit 0 1)%py = false
  /\ (ThreadMill.ScrewThread.pitch self' <=? lit 0 1)%py = false
  /\ (ThreadMill.ScrewThread.minor_diameter self'
      >=? ThreadMill.ScrewThread.major_diameter self')%py = false.
Proof.
  unfold ThreadMill.ScrewThread.validate. intros H.
  apply bind_ok_inv in H. destruct H as (checked & Hloop & H).
  destruct (ThreadMill.ScrewThread.minor_diameter checked
            >=? ThreadMill.ScrewThread.major_diameter checked)%py eqn:Hcmp;
    [discriminate |].
  injection H as <-.
  unfold ThreadMill.ScrewThread.for_vars in Hloop.
  repeat (apply bind_ok_inv in Hloop; destruct Hloop as (? & ? & Hloop)).
  injection Hloop as <-.
  repeat match goal with
         | Hv : ThreadMill.ScrewThread.validate_attr _ _ = Ok _ |- _ =>
             apply thread_attr_ok in Hv; destruct Hv as [? ?]
         end.
  destruct self; unfold ThreadMill.ScrewThread.map;
    cbn [ThreadMill.ScrewThread.major_diameter ThreadMill.ScrewThread.minor_diameter
         ThreadMill.ScrewThread.depth ThreadMill.ScrewThread.tpi
         ThreadMill.ScrewThread.pitch ThreadMill.ScrewThread.start_plane] in *.
  repeat split; try congruence;
    match goal with Hx : _ -> ?G |- ?G => apply Hx; discriminate end.
Qed.

(** What [CuttingTool.validate] has checked when it returns. *)
Lemma tool_validate_ok (self : ThreadMill.CuttingTool.t (pyval F))
    (self' : ThreadMill.CuttingTool.t F) :
  ThreadMill.CuttingTool.validate self = Ok self' ->
  ThreadMill.CuttingTool.map py_float self = ThreadMill.CuttingTool.map Ok self'
  /\ (ThreadMill.CuttingTool.diameter self' <=? lit 0 1)%py = false
  /\ (ThreadMill.CuttingTool.flutes self' <=? lit 0 1)%py = false
  /\ (ThreadMill.CuttingTool.speed self' <=? lit 0 1)%py = false
  /\ (ThreadMill.CuttingTool.feed self' <=? lit 0 1)%py = false
  /\ (ThreadMill.CuttingTool.rpm self' <=? lit 0 1)%py = false.
Proof.
  unfold ThreadMill.CuttingTool.validate, ThreadMill.CuttingTool.for_vars.
  intros Hloop.
  repeat (apply bind_ok_inv in Hloop; destruct Hloop as (? & ? & Hloop)).
  injection Hloop as <-.
  repeat match goal with
         | Hv : ThreadMill.CuttingTool.validate_attr _ _ = Ok _ |- _ =>
             apply tool_attr_ok in Hv; destruct Hv as [? ?]
         end.
  destruct self; unfold ThreadMill.CuttingTool.map;
    cbn [ThreadMill.CuttingTool.diameter ThreadMill.CuttingTool.flutes
         ThreadMill.CuttingTool.speed ThreadMill.CuttingTool.feed
         ThreadMill.CuttingTool.rpm] in *.
  repeat split; congruence.
Qed.

Lemma Ok_inj {X : Type} (x y : X) : Ok x = Ok y -> x = y.
Proof. intros H. injection H as ->. reflexivity. Qed.

Lemma bind_raise_inv {X Y : Type} (c : result X) (k : X -> result Y) (e : exn) :
  bind c k = Raise e -> c = Raise e \/ exists x, c = Ok x /\ k x = Raise e.
Proof.
  destruct c as [x | e']; cbn [bind]; intros H.
  - right. exists x. split; [reflexivity | exact H].
  - left. injection H as ->. reflexivity.
Qed.

Lemma thread_validate_raises_value_error
    (self : ThreadMill.ScrewThread.t (pyval F)) (e : exn) :
  ThreadMill.ScrewThread.validate self = Raise e ->
  exists msg, e = ValueError msg.
Proof.
  unfold ThreadMill.ScrewThread.validate. intros H.
  apply bind_raise_inv in H. destruct H as [H | (checked & _ & H)].
  - unfold ThreadMill.ScrewThread.for_vars in H.
    repeat (apply bind_raise_inv in H;
            destruct H as [H | (? & _ & H)];
            [exact (thread_attr_raises_value_error _ _ H) |]).
    discriminate.
  - destruct (ThreadMill.ScrewThread.minor_diameter checked
              >=? ThreadMill.ScrewThread.major_diameter checked)%py;
      [| discriminate].
    injection H as <-. eexists; reflexivity.
Qed.

Lemma tool_validate_raises_value_error
    (self : ThreadMill.CuttingTool.t (pyval F)) (e : exn) :
  ThreadMill.CuttingTool.validate self = Raise e ->
  exists msg, e = ValueError msg.
Proof.
  unfold ThreadMill.CuttingTool.validate, ThreadMill.CuttingTool.for_vars.
  intros H.
  repeat (apply bind_raise_inv in H;
          destruct H as [H | (? & _ & H)];
          [exact (tool_attr_raises_value_error _ _ H) |]).
  discriminate.
Qed.

(** [ScrewThread.validate] refuses a minor diameter that is not below the
    major diameter. *)
Lemma thread_validate_rejects_minor_ge_major
    (self : ThreadMill.ScrewThread.t (pyval F)) (major minor : F) :
  py_float (ThreadMill.ScrewThread.major_diameter self) = Ok major ->
  py_float (ThreadMill.ScrewThread.minor_diameter self) = Ok minor ->
  (minor >=? major)%py = true ->
  exists msg, ThreadMill.ScrewThread.validate self = Raise (ValueError msg).
Proof.
  intros Hmajor Hminor Hge.
  destruct (ThreadMill.ScrewThread.validate self) as [self' | e] eqn:Hv.
  - apply thread_validate_ok in Hv.
    destruct Hv as (Hmap & _ & _ & _ & _ & _ & Hlt).
    destruct self, self'; unfold ThreadMill.ScrewThread.map in Hmap;
      cbn [ThreadMill.ScrewThread.major_diameter
           ThreadMill.ScrewThread.minor_diameter
           ThreadMill.ScrewThread.depth ThreadMill.ScrewThread.tpi
           ThreadMill.ScrewThread.pitch ThreadMill.ScrewThread.start_plane] in *.
    injection Hmap as H1 H2 _ _ _ _.
    rewrite Hmajor in H1. rewrite Hminor in H2.
    injection H1 as <-. injection H2 as <-. congruence.
  - destruct (thread_validate_raises_value_error _ Hv) as [msg ->].
    exists msg. reflexivity.
Qed.


(** C7: the pass-fraction lookup of either program returns a list, one
    fraction per pass, for 1, 2, 3 and 4 passes, and raises [ValueError] for
    every other count (0 and 5 among them). *)
Theorem pass_count_outside_one_to_four_raises (n : Z) (s : string) :
  int_of_str s = Some n ->
  ((1 <= n <= 4)%Z ->
   exists fractions : list F,
     ThreadMill.BodyDetails.calc_pass_percentages n = Ok fractions
     /\ TmillDict.get_pass_percentages s = Ok fractions
     /\ List.length fractions = Z.to_nat n)
  /\ (~ (1 <= n <= 4)%Z ->
      ThreadMill.BodyDetails.calc_pass_percentages (F := F) n
      = Raise (ValueError (str_of_int n
                           ++ " is not a valid option for number of passes."))
      /\ TmillDict.get_pass_percentages (F := F) s
         = Raise (ValueError (s ++ " is not a valid option for number of passes"))).
Proof.
  intros Hs.
  unfold TmillDict.get_pass_percentages, py_int,
    ThreadMill.BodyDetails.calc_pass_percentages.
  rewrite Hs. cbn [bind].
  split; intros Hn.
  - assert (C : n = 1%Z \/ n = 2%Z \/ n = 3%Z \/ n = 4%Z) by lia.
    destruct C as [-> | [-> | [-> | ->]]]; cbn; eexists; repeat split.
  - assert (G : ((0 <? n)%Z && (n <? 5)%Z) = false).
    { destruct (Z.ltb_spec 0 n), (Z.ltb_spec n 5); cbn; try reflexivity. lia. }
    rewrite G. cbn. split; reflexivity.
Qed.

(** What [BodyDetails.__init__] has computed when it returns. *)
Lemma body_details_init_ok (thread : ThreadMill.ScrewThread.t (pyval F))
    (tool : ThreadMill.CuttingTool.t (pyval F)) (n : Z)
    (bd : ThreadMill.BodyDetails.t F) :
  ThreadMill.BodyDetails.init thread tool n = Ok bd ->
  exists thread' tool',
    ThreadMill.ScrewThread.validate thread = Ok thread'
    /\ ThreadMill.CuttingTool.validate tool = Ok tool'
    /\ (ThreadMill.CuttingTool.diameter tool'
        >? ThreadMill.ScrewThread.minor_diameter thread')%py = false
    /\ ThreadMill.BodyDetails.calc_pass_percentages n
       = Ok (ThreadMill.BodyDetails.passes bd)
    /\ ThreadMill.BodyDetails.radii bd
       = ThreadMill.BodyDetails.calc_toolpath_radii thread'
           (ThreadMill.BodyDetails.passes bd)
           (ThreadMill.CuttingTool.diameter tool')
    /\ ThreadMill.BodyDetails.lead_arcs bd
       = ThreadMill.BodyDetails.calc_lead_arcs (ThreadMill.BodyDetails.radii bd)
    /\ ThreadMill.BodyDetails.calc_feed_rate (ThreadMill.BodyDetails.radii bd)
         tool'
       = Ok (ThreadMill.BodyDetails.feed bd).
Proof.
  unfold ThreadMill.BodyDetails.init. intros H.
  apply bind_ok_inv in H. destruct H as (thread' & Hthread & H).
  apply bind_ok_inv in H. destruct H as (tool' & Htool & H).
  destruct (ThreadMill.CuttingTool.diameter tool'
            >? ThreadMill.ScrewThread.minor_diameter thread')%py eqn:Hfit;
    [discriminate |].
  apply bind_ok_inv in H. destruct H as (passes & Hpasses & H).
  apply bind_ok_inv in H. destruct H as (feed & Hfeed & H).
  injection H as <-. cbn.
  exists thread', tool'. repeat split; assumption.
Qed.

Lemma calc_pass_percentages_length (n : Z) (passes : list F) :
  ThreadMill.BodyDetails.calc_pass_percentages n = Ok passes ->
  List.length passes = Z.to_nat n.
Proof.
  unfold ThreadMill.BodyDetails.calc_pass_percentages.
  destruct (Z.ltb_spec 0 n), (Z.ltb_spec n 5); cbn [andb negb];
    try discriminate.
  assert (C : n = 1%Z \/ n = 2%Z \/ n = 3%Z \/ n = 4%Z) by lia.
  destruct C as [-> | [-> | [-> | ->]]]; cbn; intros [= <-]; reflexivity.
Qed.

Lemma radii_loop_length (base_radius total_stock : F) (passes : list F) :
  forall previous_radius,
    List.length (ThreadMill.BodyDetails.radii_loop base_radius total_stock
                   passes previous_radius)
    = List.length passes.
Proof.
  induction passes as [| i rest IH]; intros previous_radius; cbn;
    [reflexivity | rewrite IH; reflexivity].
Qed.

Lemma for_each_length {X Y : Type} (body : X -> result Y) (xs : list X) :
  forall ys, for_each body xs = Ok ys -> List.length ys = List.length xs.
Proof.
  induction xs as [| x rest IH]; intros ys; cbn [for_each].
  - intros [= <-]. reflexivity.
  - intros H. apply bind_ok_inv in H. destruct H as (y & _ & H).
    apply bind_ok_inv in H. destruct H as (ys' & Hrest & H).
    injection H as <-. cbn. rewrite (IH _ Hrest). reflexivity.
Qed.

(** A planned toolpath has one radius, one lead arc and one feed rate per
    requested pass. *)
Lemma body_details_lengths (thread : ThreadMill.ScrewThread.t (pyval F))
    (tool : ThreadMill.CuttingTool.t (pyval F)) (n : Z)
    (bd : ThreadMill.BodyDetails.t F) :
  ThreadMill.BodyDetails.init thread tool n = Ok bd ->
  List.length (ThreadMill.BodyDetails.passes bd) = Z.to_nat n
  /\ List.length (ThreadMill.BodyDetails.radii bd) = Z.to_nat n
  /\ List.length (ThreadMill.BodyDetails.lead_arcs bd) = Z.to_nat n
  /\ List.length (ThreadMill.BodyDetails.feed bd) = Z.to_nat n.
Proof.
  intros H. apply body_details_init_ok in H.
  destruct H as (thread' & tool' & _ & _ & _ & Hp & Hr & Hl & Hf).
  apply calc_pass_percentages_length in Hp.
  assert (Lr : List.length (ThreadMill.BodyDetails.radii bd) = Z.to_nat n).
  { rewrite Hr. unfold ThreadMill.BodyDetails.calc_toolpath_radii.
    rewrite radii_loop_length. exact Hp. }
  repeat split; try assumption.
  - rewrite Hl. unfold ThreadMill.BodyDetails.calc_lead_arcs.
    rewrite length_map. exact Lr.
  - unfold ThreadMill.BodyDetails.calc_feed_rate in Hf.
    apply bind_ok_inv in Hf. destruct Hf as (feeds & Hfeeds & Hf).
    injection Hf as Hf. rewrite <- Hf, length_map.
    unfold ThreadMill.BodyDetails.calc_adjusted_feed in Hfeeds.
    rewrite (for_each_length _ _ Hfeeds). exact Lr.
Qed.

(** C9: in every toolpath [BodyDetails] plans, and in the list
    [get_lead_radii] returns, the lead arc of a pass is the radius of that
    pass times sin(45 degrees), rounded to 4 decimals. *)
Theorem lead_arc_of_each_pass :
  (forall (thread : ThreadMill.ScrewThread.t (pyval F))
          (tool : ThreadMill.CuttingTool.t (pyval F)) (n : Z)
          (bd : ThreadMill.BodyDetails.t F) (i : nat) (radius : F),
      ThreadMill.BodyDetails.init thread tool n = Ok bd ->
      nth_error (ThreadMill.BodyDetails.radii bd) i = Some radius ->
      nth_error (ThreadMill.BodyDetails.lead_arcs bd) i
      = Some (fround (radius * sin_45)%py 4))
  /\ (forall (radii : list F) (i : nat) (radius : F),
        nth_error radii i = Some radius ->
        nth_error (TmillDict.get_lead_radii radii) i
        = Some (fround (radius * sin_45)%py 4)).
Proof.
  split.
  - intros thread tool n bd i radius Hinit Hradius.
    apply body_details_init_ok in Hinit.
    destruct Hinit as (_ & _ & _ & _ & _ & _ & _ & Hl & _).
    rewrite Hl. unfold ThreadMill.BodyDetails.calc_lead_arcs.
    rewrite nth_error_map, Hradius. reflexivity.
  - intros radii i radius Hradius. unfold TmillDict.get_lead_radii.
    rewrite nth_error_map, Hradius. reflexivity.
Qed.

End ControlFlow.

(** * The emitted program *)

Section Emission.
Context {F : Type} {A : Arith F} {P : Parse F} {Sh : Print F}.
Local Open Scope string_scope.

Lemma append_assoc (a b c : string) : (a ++ b) ++ c = a ++ (b ++ c).
Proof. induction a as [| ch a IH]; cbn; [reflexivity | rewrite IH; reflexivity]. Qed.

Lemma append_empty_r (a : string) : a ++ "" = a.
Proof. induction a as [| ch a IH]; cbn; [reflexivity | rewrite IH; reflexivity]. Qed.

Lemma join_app (xs ys : list string) : join (xs ++ ys) = join xs ++ join ys.
Proof.
  unfold join.
  induction xs as [| x xs IH]; cbn [app fold_right String.append];
    [reflexivity |].
  rewrite IH, append_assoc. reflexivity.
Qed.

Lemma last_nonempty {X : Type} (xs : list X) (d d' : X) :
  xs <> [] -> last xs d = last xs d'.
Proof.
  induction xs as [| x rest IH]; intros Hne; [congruence |].
  destruct rest as [| y rest']; [reflexivity |].
  cbn [last] in *. apply IH. discriminate.
Qed.

Lemma post_body_loop_spec (block : F -> F -> F -> string)
    (passes : list (F * (F * F))) :
  forall g_code_out g_code,
    ThreadMill.post_body_loop block passes g_code_out g_code
    = (g_code_out
       ++ join (List.map (fun pass => block (fst pass) (fst (snd pass))
                                        (snd (snd pass))) passes),
       last (List.map (fun pass => block (fst pass) (fst (snd pass))
                                     (snd (snd pass))) passes) g_code).
Proof.
  induction passes as [| [radius [lead_arc feed]] rest IH];
    intros g_code_out g_code; cbn [ThreadMill.post_body_loop List.map join fold_right].
  - rewrite append_empty_r. reflexivity.
  - rewrite IH, append_assoc. cbn [fst snd]. f_equal.
    destruct rest as [| p rest']; [reflexivity |].
    match goal with
    | |- last ?l _ = _ =>
        transitivity (last l g_code);
        [apply last_nonempty; discriminate | reflexivity]
    end.
Qed.

Lemma repeat_finish_spec (count : nat) (g_code : string) :
  forall g_code_out,
    ThreadMill.repeat_finish count g_code_out g_code
    = g_code_out ++ join (repeat g_code count).
Proof.
  induction count as [| count IH]; intros g_code_out;
    cbn [ThreadMill.repeat_finish repeat join fold_right].
  - rewrite append_empty_r. reflexivity.
  - rewrite IH, append_assoc. reflexivity.
Qed.

(** [post_body] returns the planned blocks, then the finishing repetitions
    of the last one, joined. *)
Lemma post_body_blocks (toolpath : ThreadMill.BodyDetails.t F)
    (thread : ThreadMill.ScrewThread.t F) (finish_passes : Z) (rapid_feed : F) :
  ThreadMill.post_body toolpath thread finish_passes rapid_feed
  = join (with_finish (planned_blocks toolpath thread rapid_feed) ""
            finish_passes).
Proof.
  unfold ThreadMill.post_body, with_finish. rewrite post_body_loop_spec.
  fold (planned_blocks toolpath thread rapid_feed).
  cbn [String.append]. rewrite Z.gtb_ltb.
  destruct (Z.ltb_spec 1 finish_passes) as [Hgt | Hle].
  - rewrite repeat_finish_spec, join_app. reflexivity.
  - replace (Z.to_nat (finish_passes - 1)) with O by lia.
    cbn [repeat]. rewrite app_nil_r. reflexivity.
Qed.

Lemma with_finish_length {X : Type} (planned : list X) (default : X) (N : Z) :
  List.length (with_finish planned default N)
  = (List.length planned + Z.to_nat (N - 1))%nat.
Proof. unfold with_finish. rewrite length_app, repeat_length. reflexivity. Qed.

(** The last [N] blocks are [N] copies of the block of the last pass. *)
Lemma with_finish_last_n {X : Type} (planned : list X) (default : X) (N : Z) :
  planned <> [] ->
  (1 <= N)%Z ->
  last_n (Z.to_nat N) (with_finish planned default N)
  = repeat (last planned default) (Z.to_nat N).
Proof.
  intros Hne HN. unfold last_n. rewrite with_finish_length. unfold with_finish.
  destruct (exists_last Hne) as (front & final & ->).
  rewrite last_last, length_app. cbn [List.length].
  replace (List.length front + 1 + Z.to_nat (N - 1) - Z.to_nat N)%nat
    with (List.length front + 0)%nat by lia.
  rewrite <- app_assoc, skipn_app, Nat.add_0_r, skipn_all, Nat.sub_diag.
  cbn [skipn app].
  replace (Z.to_nat N) with (S (Z.to_nat (N - 1))) by lia.
  reflexivity.
Qed.

Lemma finish_loop_spec (extra : nat) (block : list string) :
  forall file,
    TmillDict.finish_loop extra block file
    = (file ++ List.concat (repeat block extra))%list.
Proof.
  induction extra as [| extra IH]; intros file;
    cbn [TmillDict.finish_loop repeat List.concat].
  - rewrite app_nil_r. reflexivity.
  - rewrite IH, <- app_assoc. reflexivity.
Qed.

Lemma body_loop_spec (body : F -> F -> F -> list string) (N : Z) (rs : list F) :
  forall (la fa before_la before_fa : list F) (file : list string)
         (k : nat) (last_index : Z),
    List.length before_la = k ->
    List.length before_fa = k ->
    List.length la = List.length rs ->
    List.length fa = List.length rs ->
    last_index = (Z.of_nat (k + List.length rs) - 1)%Z ->
    TmillDict.body_loop body (before_la ++ la) (before_fa ++ fa) last_index N
      (combine (seq k (List.length rs)) rs) file
    = Ok (file ++ List.concat (loop_blocks body rs la fa)
          ++ match rs with
             | [] => []
             | _ => List.concat (repeat (last (loop_blocks body rs la fa) [])
                              (Z.to_nat (N - 1)))
             end)%list.
Proof.
  induction rs as [| r rest IH];
    intros la fa before_la before_fa file k last_index Hbl Hbf Hla Hfa Hlast.
  - cbn. rewrite app_nil_r. reflexivity.
  - destruct la as [| l la']; [discriminate |].
    destruct fa as [| a fa']; [discriminate |].
    cbn [List.length seq combine TmillDict.body_loop].
    unfold py_index.
    rewrite !nth_error_app2 by lia.
    rewrite Hbl, Hbf, Nat.sub_diag. cbn [nth_error bind].
    cbn [List.length] in Hla, Hfa, Hlast.
    destruct rest as [| r' rest'].
    + destruct la' as [| ? ?]; [| discriminate].
      destruct fa' as [| ? ?]; [| discriminate].
      replace (Z.of_nat k =? last_index)%Z with true
        by (symmetry; apply Z.eqb_eq; cbn [List.length] in Hlast; lia).
      cbn [List.length seq combine TmillDict.body_loop].
      rewrite finish_loop_spec.
      unfold loop_blocks. cbn [combine List.map fst snd List.concat last].
      rewrite app_nil_r, <- app_assoc. reflexivity.
    + replace (Z.of_nat k =? last_index)%Z with false
        by (symmetry; apply Z.eqb_neq; cbn [List.length] in Hlast; lia).
      replace (before_la ++ l :: la')%list with ((before_la ++ [l]) ++ la')%list
        by (rewrite <- app_assoc; reflexivity).
      replace (before_fa ++ a :: fa')%list with ((before_fa ++ [a]) ++ fa')%list
        by (rewrite <- app_assoc; reflexivity).
      rewrite (IH la' fa' (before_la ++ [l])%list (before_fa ++ [a])%list
                 (file ++ body l a r)%list (S k) last_index).
      * unfold loop_blocks.
        cbn [combine List.map fst snd List.concat].
        rewrite <- !app_assoc. do 3 f_equal.
        destruct la' as [| l' la'']; [discriminate |].
        destruct fa' as [| a' fa'']; [discriminate |].
        reflexivity.
      * rewrite length_app. cbn [List.length]. lia.
      * rewrite length_app. cbn [List.length]. lia.
      * lia.
      * lia.
      * rewrite Hlast. lia.
Qed.

Lemma body_loop_enumerate (body : F -> F -> F -> list string) (N : Z)
    (rs la fa : list F) (file : list string) :
  List.length la = List.length rs ->
  List.length fa = List.length rs ->
  TmillDict.body_loop body la fa (Z.of_nat (List.length rs) - 1) N
    (TmillDict.enumerate rs) file
  = Ok (file ++ List.concat (loop_blocks body rs la fa)
        ++ match rs with
           | [] => []
           | _ => List.concat (repeat (last (loop_blocks body rs la fa) [])
                                 (Z.to_nat (N - 1)))
           end)%list.
Proof.
  intros Hla Hfa.
  exact (body_loop_spec body N rs la fa [] [] file (k := 0) eq_refl eq_refl
           Hla Hfa eq_refl).
Qed.

Lemma calc_pass_percentages_range (n : Z) (passes : list F) :
  ThreadMill.BodyDetails.calc_pass_percentages n = Ok passes ->
  (1 <= n <= 4)%Z.
Proof.
  unfold ThreadMill.BodyDetails.calc_pass_percentages.
  destruct (Z.ltb_spec 0 n), (Z.ltb_spec n 5); cbn [andb negb];
    try discriminate.
  intros _. lia.
Qed.

Lemma get_pass_percentages_ok (s : string) (passes : list F) :
  TmillDict.get_pass_percentages s = Ok passes ->
  exists n, py_int s = Ok n /\ (1 <= n <= 4)%Z
            /\ List.length passes = Z.to_nat n.
Proof.
  unfold TmillDict.get_pass_percentages. intros H.
  apply bind_ok_inv in H. destruct H as (n & Hn & H).
  exists n. split; [exact Hn |].
  destruct (Z.ltb_spec 0 n), (Z.ltb_spec n 5); cbn [andb negb] in H;
    try discriminate.
  split; [lia |].
  assert (C : n = 1%Z \/ n = 2%Z \/ n = 3%Z \/ n = 4%Z) by lia.
  destruct C as [-> | [-> | [-> | ->]]]; cbn in H; injection H as <-;
    reflexivity.
Qed.

(** The two programs run the same radius recursion. *)
Lemma radii_loop_same (base_radius total_stock : F) (passes : list F)
    (previous_radius : F) :
  TmillDict.radii_loop base_radius total_stock passes previous_radius
  = ThreadMill.BodyDetails.radii_loop base_radius total_stock passes
      previous_radius.
Proof. reflexivity. Qed.

(** What the dictionary-based program has written when [main] returns,
    with the values it computed on the way. *)
Lemma tmill_main_blocks (threads : TmillDict.Thread.t string)
    (tool : TmillDict.Tool.t string) (number_of_passes finish_passes : string)
    (file : list string) :
  TmillDict.main threads tool number_of_passes finish_passes = Ok file ->
  exists (thread_info : TmillDict.Thread.t F) (tool_info : TmillDict.Tool.t F)
         (passes feed_adjust : list F) (speed : F) (rpm : Z) (pitch : F)
         (n N : Z),
    TmillDict.get_thread_info threads = Ok thread_info
    /\ TmillDict.get_tool_info tool = Ok tool_info
    /\ TmillDict.get_pass_percentages number_of_passes = Ok passes
    /\ py_int number_of_passes = Ok n
    /\ (1 <= n <= 4)%Z
    /\ py_int finish_passes = Ok N
    /\ (1 <= N)%Z
    /\ TmillDict.get_feed_adjustment
         (TmillDict.get_toolpath_radii thread_info passes
            (TmillDict.Tool.tool_diameter tool_info))
         (TmillDict.Tool.tool_diameter tool_info)
       = Ok feed_adjust
    /\ py_div (TmillDict.Tool.speed tool_info * lit 382 2)%py
         (TmillDict.Tool.tool_diameter tool_info)
       = Ok speed
    /\ fround_int speed = Ok rpm
    /\ py_div (lit 10 1) (TmillDict.Thread.threads_per_inch thread_info)
       = Ok pitch
    /\ List.length
         (dictionary_blocks thread_info tool_info passes feed_adjust rpm pitch)
       = Z.to_nat n
    /\ file
       = (TmillDict.write_begin rpm
          ++ List.concat
               (with_finish
                  (dictionary_blocks thread_info tool_info passes feed_adjust
                     rpm pitch) [] N)
          ++ TmillDict.write_end)%list.
Proof.
  unfold TmillDict.main. intros H.
  apply bind_ok_inv in H. destruct H as (thread_info & Hthread & H).
  apply bind_ok_inv in H. destruct H as (tool_info & Htool & H).
  match type of H with
  | (if ?c then _ else _) = _ => destruct c; [discriminate |]
  end.
  apply bind_ok_inv in H. destruct H as (passes & Hpasses & H).
  apply bind_ok_inv in H. destruct H as (N & HN & H).
  destruct (Z.ltb_spec N 1) as [| HN1]; [discriminate |].
  apply bind_ok_inv in H. destruct H as (feed_adjust & Hadjust & H).
  apply bind_ok_inv in H. destruct H as (speed & Hspeed & H).
  apply bind_ok_inv in H. destruct H as (rpm & Hrpm & H).
  apply bind_ok_inv in H. destruct H as (pitch & Hpitch & H).
  apply bind_ok_inv in H. destruct H as (written & Hloop & H).
  injection H as <-.
  destruct (get_pass_percentages_ok _ Hpasses) as (n & Hn & Hrange & Hlen).
  set (radii := TmillDict.get_toolpath_radii thread_info passes
                  (TmillDict.Tool.tool_diameter tool_info)) in *.
  assert (Lr : List.length radii = Z.to_nat n).
  { unfold radii, TmillDict.get_toolpath_radii.
    rewrite radii_loop_same, radii_loop_length. exact Hlen. }
  assert (Ll : List.length (TmillDict.get_lead_radii radii) = Z.to_nat n).
  { unfold TmillDict.get_lead_radii. rewrite length_map. exact Lr. }
  assert (La : List.length feed_adjust = Z.to_nat n).
  { unfold TmillDict.get_feed_adjustment in Hadjust.
    rewrite (for_each_length _ _ Hadjust). exact Lr. }
  rewrite body_loop_enumerate in Hloop by lia.
  apply Ok_inj in Hloop. subst written.
  exists thread_info, tool_info, passes, feed_adjust, speed, rpm, pitch, n, N.
  repeat (split; [assumption |]).
  unfold dictionary_blocks. fold radii. split.
  - unfold loop_blocks. rewrite length_map, !length_combine, Lr, Ll, La. lia.
  - unfold with_finish. rewrite concat_app, <- !app_assoc.
    destruct radii as [| r radii']; [cbn in Lr; lia | reflexivity].
Qed.

(** What the class-based program has written when [main] returns, with
    the spindle line spelled out. *)
Lemma thread_mill_main_writes (major minor depth start tpi : string)
    (diameter flutes speed feed : string)
    (number_of_passes finish_passes : string) (writes : list string) :
  ThreadMill.main major minor depth start tpi diameter flutes speed feed
    number_of_passes finish_passes = Ok writes ->
  exists (thread : ThreadMill.ScrewThread.t F) (tool : ThreadMill.CuttingTool.t F)
         (toolpath : ThreadMill.BodyDetails.t F) (n N rpm : Z),
    py_int number_of_passes = Ok n
    /\ py_int finish_passes = Ok N
    /\ (1 <= N)%Z
    /\ ThreadMill.BodyDetails.init (ThreadMill.ScrewThread.map PFloat thread)
         (ThreadMill.CuttingTool.map PFloat tool) n = Ok toolpath
    /\ fround_int (ThreadMill.CuttingTool.rpm tool) = Ok rpm
    /\ writes = ["S" ++ str_of_int rpm ++ " M3" ++ nl ++ nl;
                 ThreadMill.post_body toolpath thread N (lit 200 1);
                 ThreadMill.post_end].
Proof.
  unfold ThreadMill.main. intros H.
  apply bind_ok_inv in H. destruct H as (thread & _ & H).
  apply bind_ok_inv in H. destruct H as (tool & _ & H).
  apply bind_ok_inv in H. destruct H as (n & Hn & H).
  apply bind_ok_inv in H. destruct H as (toolpath & Hinit & H).
  apply bind_ok_inv in H. destruct H as (N & HN & H).
  destruct (Z.ltb_spec N 1) as [| HN1]; [discriminate |].
  apply bind_ok_inv in H. destruct H as (begin_out & Hbegin & H).
  apply Ok_inj in H. subst writes.
  unfold ThreadMill.post_begin in Hbegin.
  apply bind_ok_inv in Hbegin. destruct Hbegin as (rpm & Hrpm & Hbegin).
  apply Ok_inj in Hbegin. subst begin_out.
  exists thread, tool, toolpath, n, N, rpm.
  repeat split; assumption.
Qed.

(** ** Counting in the text *)

Lemma count_char_app (c : ascii) (a b : string) :
  count_char c (a ++ b) = (count_char c a + count_char c b)%nat.
Proof.
  induction a as [| x a IH]; [reflexivity |].
  cbn [String.append count_char]. rewrite IH. lia.
Qed.

Lemma count_char_join (c : ascii) (k : nat) (blocks : list string) :
  Forall (fun block => count_char c block = k) blocks ->
  count_char c (join blocks) = (k * List.length blocks)%nat.
Proof.
  intros H. induction H as [| block rest Hblock Hrest IH]; [cbn; lia |].
  cbn [join fold_right List.length]. rewrite count_char_app.
  unfold join in IH. rewrite IH, Hblock. lia.
Qed.

Lemma join_concat (blocks : list (list string)) :
  join (List.concat blocks) = join (List.map join blocks).
Proof.
  induction blocks as [| block rest IH]; [reflexivity |].
  cbn [List.concat List.map]. rewrite join_app, IH. reflexivity.
Qed.

Lemma length_concat_const {X : Type} (k : nat) (blocks : list (list X)) :
  Forall (fun block => List.length block = k) blocks ->
  List.length (List.concat blocks) = (k * List.length blocks)%nat.
Proof.
  intros H. induction H as [| block rest Hblock Hrest IH]; [cbn; lia |].
  cbn [List.concat List.length]. rewrite length_app, IH, Hblock. lia.
Qed.

Lemma Forall_last {X : Type} (Q0 : X -> Prop) (xs : list X) (d : X) :
  Forall Q0 xs -> xs <> [] -> Q0 (last xs d).
Proof.
  intros H. induction H as [| x rest Hx Hrest IH]; [congruence |].
  intros _. destruct rest as [| y rest']; [exact Hx |].
  apply IH. discriminate.
Qed.

Lemma Forall_with_finish {X : Type} (Q0 : X -> Prop) (planned : list X)
    (d : X) (N : Z) :
  Forall Q0 planned -> planned <> [] -> Forall Q0 (with_finish planned d N).
Proof.
  intros H Hne. unfold with_finish. apply Forall_app. split; [exact H |].
  apply Forall_forall. intros x Hx. apply repeat_spec in Hx. subst x.
  apply Forall_last; assumption.
Qed.

Lemma digit_char_not_G (d : Z) :
  (0 <= d < 10)%Z -> Ascii.eqb (digit_char d) "G" = false.
Proof.
  intros H.
  assert (C : (d = 0 \/ d = 1 \/ d = 2 \/ d = 3 \/ d = 4 \/ d = 5 \/ d = 6
               \/ d = 7 \/ d = 8 \/ d = 9)%Z) by lia.
  destruct C as [-> | [-> | [-> | [-> | [-> | [-> | [-> | [-> | [-> | ->]]]]]]]]];
    reflexivity.
Qed.

Lemma str_of_pos_fuel_no_G (fuel : nat) :
  forall (n : Z) (acc : string),
    count_char "G" acc = 0%nat ->
    count_char "G" (str_of_pos_fuel fuel n acc) = 0%nat.
Proof.
  induction fuel as [| fuel IH]; intros n acc Hacc; [exact Hacc |].
  cbn [str_of_pos_fuel].
  assert (Hacc' : count_char "G" (String (digit_char (n mod 10)) acc) = 0%nat).
  { cbn [count_char]. rewrite digit_char_not_G, Hacc; [reflexivity |].
    apply Z.mod_pos_bound. lia. }
  destruct (n / 10 =? 0)%Z; [exact Hacc' | apply IH; exact Hacc'].
Qed.

Lemma str_of_int_no_G (n : Z) : count_char "G" (str_of_int n) = 0%nat.
Proof.
  unfold str_of_int.
  pose proof (str_of_pos_fuel_no_G (S (Z.to_nat (Z.log2 (Z.abs n))))
                (Z.abs n) "" eq_refl) as H.
  destruct (n <? 0)%Z; [| exact H].
  cbn [count_char]. rewrite H. reflexivity.
Qed.

(** A motion block holds nine G words: G90, G0, G91, G01, G01 and G03
    three times, G01. *)
Lemma motion_block_G_words (top_plane pitch : string)
    (rapid_feed start_z lead_z radius lead_arc feed : F) :
  prints_no_G F ->
  count_char "G" top_plane = 0%nat ->
  count_char "G" pitch = 0%nat ->
  count_char "G"
    (ThreadMill.motion_block top_plane pitch rapid_feed start_z lead_z radius
       lead_arc feed)
  = 9%nat.
Proof.
  intros Hprint Htop Hpitch. unfold ThreadMill.motion_block.
  repeat rewrite count_char_app. repeat rewrite Hprint.
  rewrite Htop, Hpitch. reflexivity.
Qed.

Lemma write_body_G_words (lead_arc feed feed_adjust fast_feed top_plane
    start_z radius lead_z pitch : F) :
  prints_no_G F ->
  count_char "G"
    (join (TmillDict.write_body lead_arc feed feed_adjust fast_feed top_plane
             start_z radius lead_z pitch))
  = 9%nat.
Proof.
  intros Hprint. unfold TmillDict.write_body. cbn [join fold_right].
  repeat rewrite count_char_app. repeat rewrite Hprint. reflexivity.
Qed.

Lemma planned_blocks_G_words (toolpath : ThreadMill.BodyDetails.t F)
    (thread : ThreadMill.ScrewThread.t F) (rapid_feed : F) :
  prints_no_G F ->
  Forall (fun block => count_char "G" block = 9%nat)
    (planned_blocks toolpath thread rapid_feed).
Proof.
  intros Hprint. unfold planned_blocks. apply Forall_map.
  apply Forall_forall. intros pass _.
  apply motion_block_G_words; [exact Hprint | apply Hprint | apply Hprint].
Qed.

Lemma dictionary_blocks_writes (thread_info : TmillDict.Thread.t F)
    (tool_info : TmillDict.Tool.t F) (passes feed_adjust : list F) (rpm : Z)
    (pitch : F) :
  Forall (fun block => List.length block = 8%nat)
    (dictionary_blocks thread_info tool_info passes feed_adjust rpm pitch).
Proof.
  unfold dictionary_blocks, loop_blocks. apply Forall_map.
  apply Forall_forall. intros pass _. reflexivity.
Qed.

Lemma dictionary_blocks_G_words (thread_info : TmillDict.Thread.t F)
    (tool_info : TmillDict.Tool.t F) (passes feed_adjust : list F) (rpm : Z)
    (pitch : F) :
  prints_no_G F ->
  Forall (fun block => count_char "G" (join block) = 9%nat)
    (dictionary_blocks thread_info tool_info passes feed_adjust rpm pitch).
Proof.
  intros Hprint. unfold dictionary_blocks, loop_blocks. apply Forall_map.
  apply Forall_forall. intros pass _. apply write_body_G_words. exact Hprint.
Qed.

Lemma nonempty_of_length {X : Type} (xs : list X) (n : Z) :
  List.length xs = Z.to_nat n -> (1 <= n)%Z -> xs <> [].
Proof.
  intros H Hn E. rewrite E in H. cbn in H. lia.
Qed.


End Emission.

(** * The radius recursion and the feed computations *)

Section Radii.
Context {F : Type} {A : Arith F} {P : Parse F}.
Local Open Scope string_scope.

(** The dictionary program computes the radii of the class-based one. *)
Lemma get_toolpath_radii_same (thread : TmillDict.Thread.t F)
    (passes : list F) (d : F) :
  TmillDict.get_toolpath_radii thread passes d
  = ThreadMill.BodyDetails.calc_toolpath_radii
      (ThreadMill.ScrewThread.mk
         (TmillDict.Thread.major_diameter thread)
         (TmillDict.Thread.minor_diameter thread)
         (TmillDict.Thread.thread_depth thread)
         (TmillDict.Thread.starting_plane thread)
         (TmillDict.Thread.threads_per_inch thread)
         (lit 10 1 / TmillDict.Thread.threads_per_inch thread)%py)
      passes d.
Proof. reflexivity. Qed.

(** The loop of [calc_toolpath_radii], pass by pass: the radius of pass
    [k] is the rounding of [base_radius + total_stock * i +
    previous_radius], where [previous_radius] is what the loop was entered
    with for the first pass, and the radius before minus [base_radius] for
    the others. *)
Lemma radii_loop_nth (base_radius total_stock : F) (passes : list F) :
  forall (previous_radius : F) (k : nat) (fraction : F),
    nth_error passes k = Some fraction ->
    nth_error
      (ThreadMill.BodyDetails.radii_loop base_radius total_stock passes
         previous_radius) k
    = Some
        (fround
           (base_radius + total_stock * fraction
            + match k with
              | O => previous_radius
              | S j =>
                  nth j
                    (ThreadMill.BodyDetails.radii_loop base_radius
                       total_stock passes previous_radius) (lit 0 1)
                  - base_radius
              end)%py 4).
Proof.
  induction passes as [| i rest IH]; intros previous_radius k fraction Hf.
  - destruct k; discriminate.
  - cbn [ThreadMill.BodyDetails.radii_loop]. destruct k as [| j].
    + cbn [nth_error] in Hf |- *. injection Hf as <-. reflexivity.
    + cbn [nth_error] in Hf |- *. rewrite (IH _ _ _ Hf).
      destruct j as [| j']; reflexivity.
Qed.

(** The two loops over the radii that divide: [for_each] on a division
    returns the quotients when no divisor compares equal to zero, and
    raises [ZeroDivisionError] otherwise. *)
Lemma for_each_div_runs {X : Type} (num den : X -> F) (xs : list X) :
  Forall (fun x => (den x == lit 0 1)%py = false) xs ->
  for_each (fun x => py_div (num x) (den x)) xs
  = Ok (List.map (fun x => (num x / den x)%py) xs).
Proof.
  intros H. induction H as [| x rest Hx Hrest IH]; [reflexivity |].
  cbn [for_each List.map]. unfold py_div at 1. rewrite Hx. cbn [bind].
  rewrite IH. reflexivity.
Qed.

Lemma for_each_div_raises {X : Type} (num den : X -> F) (xs : list X) :
  Exists (fun x => (den x == lit 0 1)%py = true) xs ->
  for_each (fun x => py_div (num x) (den x)) xs = Raise ZeroDivisionError.
Proof.
  induction xs as [| x rest IH]; intros H; [inversion H |].
  cbn [for_each]. unfold py_div at 1.
  destruct (den x == lit 0 1)%py eqn:Hx; [reflexivity |].
  cbn [bind]. rewrite IH; [reflexivity |].
  inversion H as [? ? Hhere | ? ? Hthere]; subst; [congruence | exact Hthere].
Qed.

Lemma for_each_div_cases {X : Type} (den : X -> F) (xs : list X) :
  Forall (fun x => (den x == lit 0 1)%py = false) xs
  \/ Exists (fun x => (den x == lit 0 1)%py = true) xs.
Proof.
  induction xs as [| x rest IH]; [left; constructor |].
  destruct (den x == lit 0 1)%py eqn:Hx.
  - right. constructor. exact Hx.
  - destruct IH as [IH | IH]; [left | right]; constructor; assumption.
Qed.

Lemma for_each_div_ok_inv {X : Type} (num den : X -> F) (xs : list X)
    (ys : list F) :
  for_each (fun x => py_div (num x) (den x)) xs = Ok ys ->
  Forall (fun x => (den x == lit 0 1)%py = false) xs
  /\ ys = List.map (fun x => (num x / den x)%py) xs.
Proof.
  intros H. destruct (for_each_div_cases den xs) as [Hall | Hsome].
  - split; [exact Hall |].
    rewrite (for_each_div_runs num den Hall) in H. injection H as <-.
    reflexivity.
  - rewrite (for_each_div_raises num den Hsome) in H. discriminate.
Qed.

Lemma for_each_div_raise_inv {X : Type} (num den : X -> F) (xs : list X)
    (e : exn) :
  for_each (fun x => py_div (num x) (den x)) xs = Raise e ->
  e = ZeroDivisionError.
Proof.
  intros H. destruct (for_each_div_cases den xs) as [Hall | Hsome].
  - rewrite (for_each_div_runs num den Hall) in H. discriminate.
  - rewrite (for_each_div_raises num den Hsome) in H. injection H as <-.
    reflexivity.
Qed.

Lemma calc_feed_rate_runs (radii : list F) (tool : ThreadMill.CuttingTool.t F) :
  Forall
    (fun radius =>
       (radius * lit 20 1 + ThreadMill.CuttingTool.diameter tool
        == lit 0 1)%py = false)
    radii ->
  ThreadMill.BodyDetails.calc_feed_rate radii tool
  = Ok (List.map
          (fun radius =>
             (ThreadMill.CuttingTool.feed tool * (radius * lit 20 1)
              / (radius * lit 20 1 + ThreadMill.CuttingTool.diameter tool)
              * ThreadMill.CuttingTool.flutes tool
              * ThreadMill.CuttingTool.rpm tool)%py)
          radii).
Proof.
  intros H.
  unfold ThreadMill.BodyDetails.calc_feed_rate,
    ThreadMill.BodyDetails.calc_adjusted_feed.
  rewrite (for_each_div_runs
             (fun radius =>
                (ThreadMill.CuttingTool.feed tool * (radius * lit 20 1))%py)
             (fun radius =>
                (radius * lit 20 1 + ThreadMill.CuttingTool.diameter tool)%py)
             H).
  cbn [bind]. rewrite map_map. reflexivity.
Qed.

Lemma calc_feed_rate_raises (radii : list F)
    (tool : ThreadMill.CuttingTool.t F) :
  Exists
    (fun radius =>
       (radius * lit 20 1 + ThreadMill.CuttingTool.diameter tool
        == lit 0 1)%py = true)
    radii ->
  ThreadMill.BodyDetails.calc_feed_rate radii tool = Raise ZeroDivisionError.
Proof.
  intros H.
  unfold ThreadMill.BodyDetails.calc_feed_rate,
    ThreadMill.BodyDetails.calc_adjusted_feed.
  rewrite (for_each_div_raises
             (fun radius =>
                (ThreadMill.CuttingTool.feed tool * (radius * lit 20 1))%py)
             (fun radius =>
                (radius * lit 20 1 + ThreadMill.CuttingTool.diameter tool)%py)
             H).
  reflexivity.
Qed.

Lemma calc_feed_rate_ok_inv (radii : list F)
    (tool : ThreadMill.CuttingTool.t F) (rates : list F) :
  ThreadMill.BodyDetails.calc_feed_rate radii tool = Ok rates ->
  Forall
    (fun radius =>
       (radius * lit 20 1 + ThreadMill.CuttingTool.diameter tool
        == lit 0 1)%py = false)
    radii.
Proof.
  intros H.
  destruct (for_each_div_cases
              (fun radius =>
                 (radius * lit 20 1
                  + ThreadMill.CuttingTool.diameter tool)%py) radii)
    as [Hall | Hsome]; [exact Hall |].
  rewrite (calc_feed_rate_raises tool Hsome) in H. discriminate.
Qed.

Lemma calc_feed_rate_raise_inv (radii : list F)
    (tool : ThreadMill.CuttingTool.t F) (e : exn) :
  ThreadMill.BodyDetails.calc_feed_rate radii tool = Raise e ->
  e = ZeroDivisionError.
Proof.
  intros H.
  destruct (for_each_div_cases
              (fun radius =>
                 (radius * lit 20 1
                  + ThreadMill.CuttingTool.diameter tool)%py) radii)
    as [Hall | Hsome].
  - rewrite (calc_feed_rate_runs tool Hall) in H. discriminate.
  - rewrite (calc_feed_rate_raises tool Hsome) in H. injection H as <-.
    reflexivity.
Qed.




End Radii.

(** * The table, and runs on concrete input *)

Section Runs.
Local Open Scope Q_scope.
Local Open Scope string_scope.

(** [round] in binary64 works on the exact value of the double: 2.675 is
    stored just below the tie and rounds to 2.67, while the ties 0.125 and
    0.375, stored exactly, go to the even neighbour; a small negative
    number rounds to [-0.0]. *)
Example binary64_round_samples :
  fround (F := float) (lit 2675 3) 2 = lit 267 2
  /\ fround (F := float) (lit 125 3) 2 = lit 12 2
  /\ fround (F := float) (lit 375 3) 2 = lit 38 2
  /\ fround (F := float) (lit (-1) 5) 4 = neg_zero
  /\ Exact.round_to (125 # 1000) 2 = lit 12 2
  /\ Exact.round_to (375 # 1000) 2 = lit 38 2.
Proof. repeat split; vm_compute; reflexivity. Qed.

(** C6: the pass-fraction table.  Both lookups return [1.0] for 1 pass,
    [.65, .35] for 2, [.50, .30, .20] for 3 and [.40, .27, .20, .13] for 4,
    in every arithmetic; each list sums to 1.0 within 1e-9, in exact
    arithmetic (where the sum is 1) and in binary64. *)
Theorem pass_percentages_table :
  (forall (F : Type) (A : Arith F),
      ThreadMill.BodyDetails.calc_pass_percentages 1 = Ok [lit 10 1]
      /\ ThreadMill.BodyDetails.calc_pass_percentages 2
         = Ok [lit 65 2; lit 35 2]
      /\ ThreadMill.BodyDetails.calc_pass_percentages 3
         = Ok [lit 50 2; lit 30 2; lit 20 2]
      /\ ThreadMill.BodyDetails.calc_pass_percentages 4
         = Ok [lit 40 2; lit 27 2; lit 20 2; lit 13 2])
  /\ (forall (F : Type) (A : Arith F) (P : Parse F) (s : string) (n : Z),
        int_of_str s = Some n ->
        (1 <= n <= 4)%Z ->
        TmillDict.get_pass_percentages s
        = ThreadMill.BodyDetails.calc_pass_percentages n)
  /\ Forall
       (fun n =>
          sums_to_one (ThreadMill.BodyDetails.calc_pass_percentages (F := Q) n)
          = true)
       [1%Z; 2%Z; 3%Z; 4%Z]
  /\ Forall
       (fun n =>
          sums_to_one
            (ThreadMill.BodyDetails.calc_pass_percentages (F := float) n)
          = true)
       [1%Z; 2%Z; 3%Z; 4%Z].
Proof.
  split; [| split; [| split]].
  - intros F A. repeat split.
  - intros F A P s n Hs Hn.
    unfold TmillDict.get_pass_percentages, py_int,
      ThreadMill.BodyDetails.calc_pass_percentages.
    rewrite Hs. cbn [bind].
    assert (C : n = 1%Z \/ n = 2%Z \/ n = 3%Z \/ n = 4%Z) by lia.
    destruct C as [-> | [-> | [-> | ->]]]; reflexivity.
  - repeat constructor.
  - repeat constructor.
Qed.

(** The two instances round differently: [round(.125 * 0.05, 4)] is 0.0063
    in binary64, where the product lies above the tie, and 0.0062 on the
    exact value, a tie; [round(0.00005, 4)] is 0.0001 in binary64 and 0 on
    the exact value. *)
Example exact_rounding_is_not_binary64 :
  fround (F := float) (lit 125 3 * lit 5 2)%py 4 = lit 63 4
  /\ fround (F := Q) (lit 125 3 * lit 5 2)%py 4 = lit 62 4
  /\ fround (F := float) (lit 5 5) 4 = lit 1 4
  /\ fround (F := Q) (lit 5 5) 4 = lit 0 4.
Proof. repeat split; vm_compute; reflexivity. Qed.





(** C2, where the code departs from it: a tool exactly as wide as the minor
    diameter (both 0.25) passes the test [tool.diameter >
    thread.minor_diameter] of either program.  [BodyDetails] plans a
    toolpath for it, with [base_radius = 0], and the dictionary program
    writes a program. *)
Theorem tool_as_wide_as_minor_diameter_is_planned :
  fltb (F := Q) (lit 25000 5) (lit 25000 5) = false
  /\ fltb (F := float) (lit 25000 5) (lit 25000 5) = false
  /\ ThreadMill.BodyDetails.base_radius_of (F := Q) (lit 25000 5) (lit 25000 5)
     = lit 0 5
  /\ radii_of (ThreadMill.BodyDetails.init (F := Q)
                 (thread_of 50000 25000) (tool_of 25000) 1)
     = Ok [lit 1250 4]
  /\ radii_of (ThreadMill.BodyDetails.init (F := float)
                 (thread_of 50000 25000) (tool_of 25000) 1)
     = Ok [lit 1250 4]
  /\ radii_of (plan_from_input (F := Q) "0.5" "0.25" "0.05" "0.25" "20"
                 "0.25" "4" "100" "0.001" 1)
     = Ok [lit 1250 4]
  /\ (exists file,
        TmillDict.main (F := Q)
          (TmillDict.Thread.mk "0.5" "0.25" "0.05" "0.25" "20")
          (TmillDict.Tool.mk "0.25" "4" "100" "0.001") "1" "1"
        = Ok file).
Proof.
  repeat split; try (vm_compute; reflexivity).
  eexists. vm_compute. reflexivity.
Qed.

(** C3, where the code departs from it: [get_thread_info] tests
    [minor > major], so it accepts a minor diameter equal to the major
    diameter (both 0.5), which [ScrewThread.validate], testing
    [minor >= major], refuses. *)
Theorem equal_diameters_pass_get_thread_info :
  TmillDict.get_thread_info (F := Q)
    (TmillDict.Thread.mk "0.5" "0.5" "0.05" "0.25" "20")
  = Ok (TmillDict.Thread.mk (lit 5 1) (lit 5 1) (lit 5 2) (lit 25 2) (lit 20 0))
  /\ TmillDict.get_thread_info (F := float)
       (TmillDict.Thread.mk "0.5" "0.5" "0.05" "0.25" "20")
     = Ok (TmillDict.Thread.mk (lit 5 1) (lit 5 1) (lit 5 2) (lit 25 2)
             (lit 20 0))
  /\ ThreadMill.ScrewThread.input_thread_info (F := Q)
       "0.5" "0.5" "0.05" "0.25" "20"
     = Raise (ValueError "Minor diameter must be less than Major diameter")
  /\ ThreadMill.ScrewThread.input_thread_info (F := float)
       "0.5" "0.5" "0.05" "0.25" "20"
     = Raise (ValueError "Minor diameter must be less than Major diameter")
  /\ (exists file,
        TmillDict.main (F := Q)
          (TmillDict.Thread.mk "0.5" "0.5" "0.05" "0.25" "20")
          (TmillDict.Tool.mk "0.25" "4" "100" "0.001") "2" "1"
        = Ok file).
Proof.
  repeat split; try (vm_compute; reflexivity).
  eexists. vm_compute. reflexivity.
Qed.

Lemma frac_digits_no_G (fuel : nat) :
  forall num den : Z,
    (0 <= num < den)%Z ->
    count_char "G" (frac_digits fuel num den) = 0%nat.
Proof.
  induction fuel as [| fuel IH]; intros num den H; [reflexivity |].
  cbn [frac_digits count_char].
  rewrite digit_char_not_G.
  - destruct (10 * num mod den =? 0)%Z; cbn [count_char Nat.add];
      [reflexivity |].
    apply IH. apply Z.mod_pos_bound. lia.
  - split; [apply Z.div_pos; lia | apply Z.div_lt_upper_bound; lia].
Qed.

(** The printer of decimal text writes no G. *)
Lemma exact_prints_no_G : prints_no_G Q.
Proof.
  intros x. cbn [str_of_float Exact.print]. unfold str_of_Q.
  repeat rewrite count_char_app. rewrite str_of_int_no_G.
  rewrite frac_digits_no_G by (apply Z.mod_pos_bound; lia).
  destruct (Qnum x <? 0)%Z; reflexivity.
Qed.





(** C6: the dictionary program reads the line 3 and returns the three
    fractions. *)
Lemma pass_percentages_table_witness :
  TmillDict.get_pass_percentages (F := Q) "3"
  = ThreadMill.BodyDetails.calc_pass_percentages 3.
Proof.
  refine (proj1 (proj2 pass_percentages_table) Q _ _ "3" 3%Z _ _);
    [reflexivity | lia].
Defined.

(** C7: five passes are refused by both lookups. *)
Lemma pass_count_outside_one_to_four_raises_witness :
  ThreadMill.BodyDetails.calc_pass_percentages (F := Q) 5
  = Raise (ValueError "5 is not a valid option for number of passes.")
  /\ TmillDict.get_pass_percentages (F := Q) "5"
     = Raise (ValueError "5 is not a valid option for number of passes").
Proof.
  refine (proj2 (@pass_count_outside_one_to_four_raises Q _ _ 5%Z "5" _) _);
    [reflexivity | lia].
Defined.

(** C9 on the single pass of radius 0.125. *)
Lemma lead_arc_of_each_pass_witness :
  nth_error
    (ThreadMill.BodyDetails.lead_arcs
       (toolpath_of (ThreadMill.BodyDetails.init (F := Q)
                       (thread_of 50000 25000) (tool_of 25000) 1)))
    0
  = Some (fround (lit 1250 4 * sin_45)%py 4).
Proof.
  refine (proj1 (@lead_arc_of_each_pass Q _ _)
            (thread_of 50000 25000) (tool_of 25000) 1%Z _ 0%nat (lit 1250 4)
            _ _);
    vm_compute; reflexivity.
Defined.


(** A thread whose two diameters are 0.5 is refused by
    [ScrewThread.validate]. *)
Lemma thread_validate_rejects_minor_ge_major_witness :
  exists msg,
    ThreadMill.ScrewThread.validate (F := Q) (thread_of 50000 50000)
    = Raise (ValueError msg).
Proof.
  exact (@thread_validate_rejects_minor_ge_major Q _ _
           (thread_of 50000 50000) (lit 50000 5) (lit 50000 5)
           eq_refl eq_refl eq_refl).
Defined.

(** The worked example of the specification: thread 0.500 / 0.438, depth
    0.050, start plane 0.25, 20 threads per inch; tool 0.250, 4 flutes, 100
    SFM, 0.001 per tooth; one pass, one finishing pass.  The spindle speed
    is 1528, [base_radius] 0.094, [total_stock] 0.031, the radius 0.125 and
    the lead arc 0.0884, in exact arithmetic and in binary64; the program
    is the preamble, one motion block and the postamble. *)
Theorem worked_example :
  (r <- py_div (lit 100 0 * lit 382 2)%py (lit 250 3) ;; fround_int (F := Q) r)
  = Ok 1528%Z
  /\ (r <- py_div (lit 100 0 * lit 382 2)%py (lit 250 3) ;;
      fround_int (F := float) r)
     = Ok 1528%Z
  /\ ThreadMill.BodyDetails.base_radius_of (F := Q) (lit 438 3) (lit 250 3)
     = lit 9400 5
  /\ ThreadMill.BodyDetails.base_radius_of (F := float) (lit 438 3) (lit 250 3)
     = lit 9400 5
  /\ ThreadMill.BodyDetails.total_stock_of (F := Q) (lit 500 3) (lit 438 3)
     = lit 3100 5
  /\ ThreadMill.BodyDetails.total_stock_of (F := float) (lit 500 3) (lit 438 3)
     = lit 3100 5
  /\ radii_of (plan_from_input (F := Q) "0.500" "0.438" "0.050" "0.25" "20"
                 "0.250" "4" "100" "0.001" 1)
     = Ok [lit 1250 4]
  /\ radii_of (plan_from_input (F := float) "0.500" "0.438" "0.050" "0.25" "20"
                 "0.250" "4" "100" "0.001" 1)
     = Ok [lit 1250 4]
  /\ ThreadMill.BodyDetails.calc_lead_arcs (F := Q) [lit 1250 4] = [lit 884 4]
  /\ ThreadMill.BodyDetails.calc_lead_arcs (F := float) [lit 1250 4]
     = [lit 884 4]
  /\ (exists block,
        ThreadMill.main (F := Q) "0.500" "0.438" "0.050" "0.25" "20"
          "0.250" "4" "100" "0.001" "1" "1"
        = Ok ["S1528 M3" ++ nl ++ nl; block; "M99" ++ nl ++ "%" ++ nl]
        /\ planned_blocks
             (toolpath_of (plan_from_input (F := Q) "0.500" "0.438" "0.050"
                             "0.25" "20" "0.250" "4" "100" "0.001" 1))
             (thread_values (thread_of 50000 43800)) (lit 200 1)
           = [block]).
Proof.
  repeat split; try (vm_compute; reflexivity).
  eexists. split; vm_compute; reflexivity.
Qed.

End Runs.

(** * More on validation *)

Section Validation.
Context {F : Type} {A : Arith F} {P : Parse F}.
Local Open Scope string_scope.

(** [ScrewThread.validate] accepts every object whose attributes convert
    to numbers that pass its tests. *)
Lemma thread_validate_complete (self : ThreadMill.ScrewThread.t (pyval F))
    (self' : ThreadMill.ScrewThread.t F) :
  ThreadMill.ScrewThread.map py_float self
  = ThreadMill.ScrewThread.map Ok self' ->
  (ThreadMill.ScrewThread.major_diameter self' <=? lit 0 1)%py = false ->
  (ThreadMill.ScrewThread.minor_diameter self' <=? lit 0 1)%py = false ->
  (ThreadMill.ScrewThread.depth self' <=? lit 0 1)%py = false ->
  (ThreadMill.ScrewThread.tpi self' <=? lit 0 1)%py = false ->
  (ThreadMill.ScrewThread.pitch self' <=? lit 0 1)%py = false ->
  (ThreadMill.ScrewThread.minor_diameter self'
   >=? ThreadMill.ScrewThread.major_diameter self')%py = false ->
  ThreadMill.ScrewThread.validate self = Ok self'.
Proof.
  destruct self as [a b c d e f], self' as [a' b' c' d' e' f'].
  unfold ThreadMill.ScrewThread.map.
  cbn [ThreadMill.ScrewThread.major_diameter
       ThreadMill.ScrewThread.minor_diameter ThreadMill.ScrewThread.depth
       ThreadMill.ScrewThread.start_plane ThreadMill.ScrewThread.tpi
       ThreadMill.ScrewThread.pitch].
  intros Hmap Ha Hb Hc He Hf Hcmp.
  injection Hmap as Ea Eb Ec Ed Ee Ef.
  unfold ThreadMill.ScrewThread.validate, ThreadMill.ScrewThread.for_vars,
    ThreadMill.ScrewThread.validate_attr.
  cbn [ThreadMill.ScrewThread.major_diameter
       ThreadMill.ScrewThread.minor_diameter ThreadMill.ScrewThread.depth
       ThreadMill.ScrewThread.start_plane ThreadMill.ScrewThread.tpi
       ThreadMill.ScrewThread.pitch].
  rewrite Ea, Eb, Ec, Ed, Ee, Ef. cbn.
  rewrite Ha. cbn. rewrite Hb. cbn. rewrite Hc. cbn. rewrite He. cbn.
  rewrite Hf. cbn. rewrite Hcmp. reflexivity.
Qed.

Lemma tool_validate_complete (self : ThreadMill.CuttingTool.t (pyval F))
    (self' : ThreadMill.CuttingTool.t F) :
  ThreadMill.CuttingTool.map py_float self
  = ThreadMill.CuttingTool.map Ok self' ->
  (ThreadMill.CuttingTool.diameter self' <=? lit 0 1)%py = false ->
  (ThreadMill.CuttingTool.flutes self' <=? lit 0 1)%py = false ->
  (ThreadMill.CuttingTool.speed self' <=? lit 0 1)%py = false ->
  (ThreadMill.CuttingTool.feed self' <=? lit 0 1)%py = false ->
  (ThreadMill.CuttingTool.rpm self' <=? lit 0 1)%py = false ->
  ThreadMill.CuttingTool.validate self = Ok self'.
Proof.
  destruct self as [a b c d e], self' as [a' b' c' d' e'].
  unfold ThreadMill.CuttingTool.map.
  cbn [ThreadMill.CuttingTool.diameter ThreadMill.CuttingTool.flutes
       ThreadMill.CuttingTool.speed ThreadMill.CuttingTool.feed
       ThreadMill.CuttingTool.rpm].
  intros Hmap Ha Hb Hc Hd He.
  injection Hmap as Ea Eb Ec Ed Ee.
  unfold ThreadMill.CuttingTool.validate, ThreadMill.CuttingTool.for_vars,
    ThreadMill.CuttingTool.validate_attr.
  cbn [ThreadMill.CuttingTool.diameter ThreadMill.CuttingTool.flutes
       ThreadMill.CuttingTool.speed ThreadMill.CuttingTool.feed
       ThreadMill.CuttingTool.rpm].
  rewrite Ea, Eb, Ec, Ed, Ee. cbn.
  rewrite Ha. cbn. rewrite Hb. cbn. rewrite Hc. cbn. rewrite Hd. cbn.
  rewrite He. reflexivity.
Qed.

(** [ScrewThread.validate] returns exactly when every attribute converts
    to a [float], every one but [start_plane] is above zero (the test
    [value <= 0.0] fails), and the minor diameter is below the major one
    (the test [minor >= major] fails); what it returns is the object with
    the converted attributes. *)
Theorem thread_validate_accepts_iff
    (self : ThreadMill.ScrewThread.t (pyval F))
    (self' : ThreadMill.ScrewThread.t F) :
  ThreadMill.ScrewThread.validate self = Ok self'
  <-> (ThreadMill.ScrewThread.map py_float self
       = ThreadMill.ScrewThread.map Ok self'
       /\ (ThreadMill.ScrewThread.major_diameter self' <=? lit 0 1)%py = false
       /\ (ThreadMill.ScrewThread.minor_diameter self' <=? lit 0 1)%py = false
       /\ (ThreadMill.ScrewThread.depth self' <=? lit 0 1)%py = false
       /\ (ThreadMill.ScrewThread.tpi self' <=? lit 0 1)%py = false
       /\ (ThreadMill.ScrewThread.pitch self' <=? lit 0 1)%py = false
       /\ (ThreadMill.ScrewThread.minor_diameter self'
           >=? ThreadMill.ScrewThread.major_diameter self')%py = false).
Proof.
  split.
  - apply thread_validate_ok.
  - intros (Hmap & Ha & Hb & Hc & He & Hf & Hcmp).
    apply thread_validate_complete; assumption.
Qed.

(** [CuttingTool.validate] returns exactly when each of the five attributes,
    [rpm] included, converts to a [float] above zero. *)
Theorem tool_validate_accepts_iff
    (self : ThreadMill.CuttingTool.t (pyval F))
    (self' : ThreadMill.CuttingTool.t F) :
  ThreadMill.CuttingTool.validate self = Ok self'
  <-> (ThreadMill.CuttingTool.map py_float self
       = ThreadMill.CuttingTool.map Ok self'
       /\ (ThreadMill.CuttingTool.diameter self' <=? lit 0 1)%py = false
       /\ (ThreadMill.CuttingTool.flutes self' <=? lit 0 1)%py = false
       /\ (ThreadMill.CuttingTool.speed self' <=? lit 0 1)%py = false
       /\ (ThreadMill.CuttingTool.feed self' <=? lit 0 1)%py = false
       /\ (ThreadMill.CuttingTool.rpm self' <=? lit 0 1)%py = false).
Proof.
  split.
  - apply tool_validate_ok.
  - intros (Hmap & Ha & Hb & Hc & Hd & He).
    apply tool_validate_complete; assumption.
Qed.

Lemma thread_revalidate (self : ThreadMill.ScrewThread.t (pyval F))
    (self' : ThreadMill.ScrewThread.t F) :
  ThreadMill.ScrewThread.validate self = Ok self' ->
  ThreadMill.ScrewThread.validate (ThreadMill.ScrewThread.map PFloat self')
  = Ok self'.
Proof.
  intros H. apply thread_validate_ok in H.
  destruct H as (_ & Ha & Hb & Hc & He & Hf & Hcmp).
  apply thread_validate_complete; try assumption.
  destruct self'; reflexivity.
Qed.

Lemma tool_revalidate (self : ThreadMill.CuttingTool.t (pyval F))
    (self' : ThreadMill.CuttingTool.t F) :
  ThreadMill.CuttingTool.validate self = Ok self' ->
  ThreadMill.CuttingTool.validate (ThreadMill.CuttingTool.map PFloat self')
  = Ok self'.
Proof.
  intros H. apply tool_validate_ok in H.
  destruct H as (_ & Ha & Hb & Hc & Hd & He).
  apply tool_validate_complete; try assumption.
  destruct self'; reflexivity.
Qed.

(** Validating again what [validate] left behind, as [BodyDetails] does
    with the objects [main] has already validated, returns the same
    object: the second pass finds nothing to convert and nothing to
    refuse. *)
Theorem validating_again_changes_nothing :
  (forall (self : ThreadMill.ScrewThread.t (pyval F))
          (self' : ThreadMill.ScrewThread.t F),
      ThreadMill.ScrewThread.validate self = Ok self' ->
      ThreadMill.ScrewThread.validate (ThreadMill.ScrewThread.map PFloat self')
      = Ok self')
  /\ (forall (self : ThreadMill.CuttingTool.t (pyval F))
            (self' : ThreadMill.CuttingTool.t F),
        ThreadMill.CuttingTool.validate self = Ok self' ->
        ThreadMill.CuttingTool.validate
          (ThreadMill.CuttingTool.map PFloat self')
        = Ok self').
Proof. split; [exact thread_revalidate | exact tool_revalidate]. Qed.

End Validation.

Section DictionaryValidation.
Context {F : Type} {A : Arith F} {P : Parse F}.
Local Open Scope string_scope.

Lemma py_float_str (value : string) (x : F) :
  py_float (PStr value) = Ok x <-> float_of_str value = Some x.
Proof.
  cbn [py_float]. destruct (float_of_str value) as [y |]; split; intros H;
    try discriminate; injection H as <-; reflexivity.
Qed.

Lemma thread_item_iff (key value : string) (x : F) :
  TmillDict.thread_item key value = Ok x
  <-> (float_of_str value = Some x
       /\ (key <> "Starting plane" -> (x <=? lit 0 1)%py = false)).
Proof.
  unfold TmillDict.thread_item. cbn [py_float].
  destruct (String.eqb_spec key "Starting plane") as [-> | Hk]; cbn [negb bind].
  - destruct (float_of_str value) as [y |]; split.
    + intros H. injection H as <-. split; [reflexivity | congruence].
    + intros [H _]. injection H as <-. reflexivity.
    + discriminate.
    + intros [H _]. discriminate.
  - destruct (float_of_str value) as [y |]; cbn [bind]; split.
    + destruct (y <=? lit 0 1)%py eqn:Hy; [discriminate |].
      intros H. injection H as <-. split; [reflexivity | intros _; exact Hy].
    + intros [H Hpos]. injection H as <-. rewrite (Hpos Hk). reflexivity.
    + discriminate.
    + intros [H _]. discriminate.
Qed.

Lemma tool_item_iff (key value : string) (x : F) :
  TmillDict.tool_item key value = Ok x
  <-> (float_of_str value = Some x /\ (x <=? lit 0 1)%py = false).
Proof.
  unfold TmillDict.tool_item. cbn [py_float].
  destruct (float_of_str value) as [y |]; cbn [bind]; split.
  - destruct (y <=? lit 0 1)%py eqn:Hy; [discriminate |].
    intros H. injection H as <-. split; [reflexivity | exact Hy].
  - intros [H Hpos]. injection H as <-. rewrite Hpos. reflexivity.
  - discriminate.
  - intros [H _]. discriminate.
Qed.

Lemma get_thread_info_sound (threads : TmillDict.Thread.t string)
    (info : TmillDict.Thread.t F) :
  TmillDict.get_thread_info threads = Ok info ->
  float_of_str (TmillDict.Thread.major_diameter threads)
  = Some (TmillDict.Thread.major_diameter info)
  /\ float_of_str (TmillDict.Thread.minor_diameter threads)
     = Some (TmillDict.Thread.minor_diameter info)
  /\ float_of_str (TmillDict.Thread.thread_depth threads)
     = Some (TmillDict.Thread.thread_depth info)
  /\ float_of_str (TmillDict.Thread.starting_plane threads)
     = Some (TmillDict.Thread.starting_plane info)
  /\ float_of_str (TmillDict.Thread.threads_per_inch threads)
     = Some (TmillDict.Thread.threads_per_inch info)
  /\ (TmillDict.Thread.major_diameter info <=? lit 0 1)%py = false
  /\ (TmillDict.Thread.minor_diameter info <=? lit 0 1)%py = false
  /\ (TmillDict.Thread.thread_depth info <=? lit 0 1)%py = false
  /\ (TmillDict.Thread.threads_per_inch info <=? lit 0 1)%py = false
  /\ (TmillDict.Thread.minor_diameter info
      >? TmillDict.Thread.major_diameter info)%py = false.
Proof.
  destruct threads as [a b c d e], info as [a' b' c' d' e'].
  cbn [TmillDict.Thread.major_diameter TmillDict.Thread.minor_diameter
       TmillDict.Thread.thread_depth TmillDict.Thread.starting_plane
       TmillDict.Thread.threads_per_inch].
  unfold TmillDict.get_thread_info, TmillDict.Thread.for_items.
  cbn [TmillDict.Thread.major_diameter TmillDict.Thread.minor_diameter
       TmillDict.Thread.thread_depth TmillDict.Thread.starting_plane
       TmillDict.Thread.threads_per_inch].
  intros H.
  apply bind_ok_inv in H. destruct H as (checked & Hloop & H).
  repeat (apply bind_ok_inv in Hloop; destruct Hloop as (? & ? & Hloop)).
  apply Ok_inj in Hloop. subst checked.
  cbn [TmillDict.Thread.major_diameter TmillDict.Thread.minor_diameter] in H.
  match type of H with
  | (if ?c then _ else _) = _ => destruct c eqn:Hcmp; [discriminate |]
  end.
  injection H as <- <- <- <- <-.
  repeat match goal with
         | Hi : TmillDict.thread_item _ _ = Ok _ |- _ =>
             apply thread_item_iff in Hi; destruct Hi as [? ?]
         end.
  repeat split; try assumption;
    match goal with Hx : _ -> ?G |- ?G => apply Hx; discriminate end.
Qed.

Lemma get_thread_info_complete (threads : TmillDict.Thread.t string)
    (info : TmillDict.Thread.t F) :
  float_of_str (TmillDict.Thread.major_diameter threads)
  = Some (TmillDict.Thread.major_diameter info) ->
  float_of_str (TmillDict.Thread.minor_diameter threads)
  = Some (TmillDict.Thread.minor_diameter info) ->
  float_of_str (TmillDict.Thread.thread_depth threads)
  = Some (TmillDict.Thread.thread_depth info) ->
  float_of_str (TmillDict.Thread.starting_plane threads)
  = Some (TmillDict.Thread.starting_plane info) ->
  float_of_str (TmillDict.Thread.threads_per_inch threads)
  = Some (TmillDict.Thread.threads_per_inch info) ->
  (TmillDict.Thread.major_diameter info <=? lit 0 1)%py = false ->
  (TmillDict.Thread.minor_diameter info <=? lit 0 1)%py = false ->
  (TmillDict.Thread.thread_depth info <=? lit 0 1)%py = false ->
  (TmillDict.Thread.threads_per_inch info <=? lit 0 1)%py = false ->
  (TmillDict.Thread.minor_diameter info
   >? TmillDict.Thread.major_diameter info)%py = false ->
  TmillDict.get_thread_info threads = Ok info.
Proof.
  destruct threads as [a b c d e], info as [a' b' c' d' e'].
  cbn [TmillDict.Thread.major_diameter TmillDict.Thread.minor_diameter
       TmillDict.Thread.thread_depth TmillDict.Thread.starting_plane
       TmillDict.Thread.threads_per_inch].
  unfold TmillDict.get_thread_info, TmillDict.Thread.for_items.
  cbn [TmillDict.Thread.major_diameter TmillDict.Thread.minor_diameter
       TmillDict.Thread.thread_depth TmillDict.Thread.starting_plane
       TmillDict.Thread.threads_per_inch].
  intros Ea Eb Ec Ed Ee Ha Hb Hc He Hcmp.
  assert (Ia : TmillDict.thread_item "Major diameter" a = Ok a')
    by (apply thread_item_iff; split; [exact Ea | intros _; exact Ha]).
  assert (Ib : TmillDict.thread_item "Minor diameter" b = Ok b')
    by (apply thread_item_iff; split; [exact Eb | intros _; exact Hb]).
  assert (Ic : TmillDict.thread_item "Thread depth" c = Ok c')
    by (apply thread_item_iff; split; [exact Ec | intros _; exact Hc]).
  assert (Id : TmillDict.thread_item "Starting plane" d = Ok d')
    by (apply thread_item_iff; split; [exact Ed | congruence]).
  assert (Ie : TmillDict.thread_item "Threads per inch" e = Ok e')
    by (apply thread_item_iff; split; [exact Ee | intros _; exact He]).
  rewrite Ia, Ib, Ic, Id, Ie. cbn [bind].
  cbn [TmillDict.Thread.major_diameter TmillDict.Thread.minor_diameter].
  rewrite Hcmp. reflexivity.
Qed.


Lemma get_tool_info_sound (tool : TmillDict.Tool.t string)
    (info : TmillDict.Tool.t F) :
  TmillDict.get_tool_info tool = Ok info ->
  float_of_str (TmillDict.Tool.tool_diameter tool)
  = Some (TmillDict.Tool.tool_diameter info)
  /\ float_of_str (TmillDict.Tool.number_of_flutes tool)
     = Some (TmillDict.Tool.number_of_flutes info)
  /\ float_of_str (TmillDict.Tool.speed tool)
     = Some (TmillDict.Tool.speed info)
  /\ float_of_str (TmillDict.Tool.feed tool)
     = Some (TmillDict.Tool.feed info)
  /\ (TmillDict.Tool.tool_diameter info <=? lit 0 1)%py = false
  /\ (TmillDict.Tool.number_of_flutes info <=? lit 0 1)%py = false
  /\ (TmillDict.Tool.speed info <=? lit 0 1)%py = false
  /\ (TmillDict.Tool.feed info <=? lit 0 1)%py = false.
Proof.
  destruct tool as [a b c d], info as [a' b' c' d'].
  cbn [TmillDict.Tool.tool_diameter TmillDict.Tool.number_of_flutes
       TmillDict.Tool.speed TmillDict.Tool.feed].
  unfold TmillDict.get_tool_info, TmillDict.Tool.for_items.
  cbn [TmillDict.Tool.tool_diameter TmillDict.Tool.number_of_flutes
       TmillDict.Tool.speed TmillDict.Tool.feed].
  intros Hloop.
  repeat (apply bind_ok_inv in Hloop; destruct Hloop as (? & ? & Hloop)).
  injection Hloop as <- <- <- <-.
  repeat match goal with
         | Hi : TmillDict.tool_item _ _ = Ok _ |- _ =>
             apply tool_item_iff in Hi; destruct Hi as [? ?]
         end.
  repeat split; assumption.
Qed.

Lemma get_tool_info_complete (tool : TmillDict.Tool.t string)
    (info : TmillDict.Tool.t F) :
  float_of_str (TmillDict.Tool.tool_diameter tool)
  = Some (TmillDict.Tool.tool_diameter info) ->
  float_of_str (TmillDict.Tool.number_of_flutes tool)
  = Some (TmillDict.Tool.number_of_flutes info) ->
  float_of_str (TmillDict.Tool.speed tool)
  = Some (TmillDict.Tool.speed info) ->
  float_of_str (TmillDict.Tool.feed tool)
  = Some (TmillDict.Tool.feed info) ->
  (TmillDict.Tool.tool_diameter info <=? lit 0 1)%py = false ->
  (TmillDict.Tool.number_of_flutes info <=? lit 0 1)%py = false ->
  (TmillDict.Tool.speed info <=? lit 0 1)%py = false ->
  (TmillDict.Tool.feed info <=? lit 0 1)%py = false ->
  TmillDict.get_tool_info tool = Ok info.
Proof.
  destruct tool as [a b c d], info as [a' b' c' d'].
  cbn [TmillDict.Tool.tool_diameter TmillDict.Tool.number_of_flutes
       TmillDict.Tool.speed TmillDict.Tool.feed].
  unfold TmillDict.get_tool_info, TmillDict.Tool.for_items.
  cbn [TmillDict.Tool.tool_diameter TmillDict.Tool.number_of_flutes
       TmillDict.Tool.speed TmillDict.Tool.feed].
  intros Ea Eb Ec Ed Ha Hb Hc Hd.
  assert (Ia : TmillDict.tool_item "Tool diameter" a = Ok a')
    by (apply tool_item_iff; split; assumption).
  assert (Ib : TmillDict.tool_item "Number of flutes" b = Ok b')
    by (apply tool_item_iff; split; assumption).
  assert (Ic : TmillDict.tool_item "Speed" c = Ok c')
    by (apply tool_item_iff; split; assumption).
  assert (Id : TmillDict.tool_item "Feed" d = Ok d')
    by (apply tool_item_iff; split; assumption).
  rewrite Ia, Ib, Ic, Id. reflexivity.
Qed.


End DictionaryValidation.

(** * The divisions made before validation *)

Section DivisionBeforeValidation.
Context {F : Type} {A : Arith F} {P : Parse F} {Sh : Print F}.
Local Open Scope string_scope.

Lemma input_thread_info_zero (major minor depth start tpi : string) (z : F) :
  float_of_str tpi = Some z ->
  (z == lit 0 1)%py = true ->
  ThreadMill.ScrewThread.input_thread_info major minor depth start tpi
  = Raise ZeroDivisionError.
Proof.
  intros Hz Hzero. unfold ThreadMill.ScrewThread.input_thread_info.
  cbn [py_float]. rewrite Hz. cbn [bind]. unfold py_div. rewrite Hzero.
  reflexivity.
Qed.

Lemma input_tool_info_zero (diameter flutes speed feed : string) (s d : F) :
  float_of_str speed = Some s ->
  float_of_str diameter = Some d ->
  (d == lit 0 1)%py = true ->
  ThreadMill.CuttingTool.input_tool_info diameter flutes speed feed
  = Raise ZeroDivisionError.
Proof.
  intros Hs Hd Hzero. unfold ThreadMill.CuttingTool.input_tool_info.
  cbn [py_float]. rewrite Hs, Hd. cbn [bind]. unfold py_div. rewrite Hzero.
  reflexivity.
Qed.

(** [input_thread_info] divides by [float(self.tpi)] before it calls
    [validate]: it raises [ZeroDivisionError] exactly when the line for the
    threads per inch converts to a zero, whatever the other four lines are;
    [validate]'s message for a [tpi] that is not above zero is never reached
    for a zero.  [main] passes the exception on: its [except] clause names
    [ValueError] and [FileNotFoundError] only. *)
Theorem zero_threads_per_inch_raises_zero_division :
  (forall major minor depth start tpi : string,
      ThreadMill.ScrewThread.input_thread_info (F := F) major minor depth start
        tpi
      = Raise ZeroDivisionError
      <-> exists z : F, float_of_str tpi = Some z /\ (z == lit 0 1)%py = true)
  /\ (forall (major minor depth start tpi : string)
             (diameter flutes speed feed number_of_passes finish_passes : string)
             (z : F),
        float_of_str tpi = Some z ->
        (z == lit 0 1)%py = true ->
        ThreadMill.main major minor depth start tpi diameter flutes speed feed
          number_of_passes finish_passes
        = Raise ZeroDivisionError).
Proof.
  split.
  - intros major minor depth start tpi. split.
    + unfold ThreadMill.ScrewThread.input_thread_info. cbn [py_float].
      destruct (float_of_str tpi) as [z |]; cbn [bind]; [| discriminate].
      unfold py_div. destruct (z == lit 0 1)%py eqn:Hzero; cbn [bind].
      * intros _. exists z. split; [reflexivity | exact Hzero].
      * intros H. apply thread_validate_raises_value_error in H.
        destruct H as [msg H]. discriminate.
    + intros (z & Hz & Hzero).
      exact (input_thread_info_zero major minor depth start tpi Hz Hzero).
  - intros major minor depth start tpi diameter flutes speed feed
      number_of_passes finish_passes z Hz Hzero.
    unfold ThreadMill.main.
    rewrite (input_thread_info_zero major minor depth start tpi Hz Hzero).
    reflexivity.
Qed.

(** [input_tool_info] computes the rpm, dividing by [float(self.diameter)],
    before it calls [validate]: it raises [ZeroDivisionError] exactly when
    the lines for the speed and the diameter convert and the diameter is a
    zero; and [main] passes the exception on when the thread was accepted. *)
Theorem zero_tool_diameter_raises_zero_division :
  (forall diameter flutes speed feed : string,
      ThreadMill.CuttingTool.input_tool_info (F := F) diameter flutes speed feed
      = Raise ZeroDivisionError
      <-> exists s d : F,
            float_of_str speed = Some s
            /\ float_of_str diameter = Some d
            /\ (d == lit 0 1)%py = true)
  /\ (forall (major minor depth start tpi : string)
             (diameter flutes speed feed number_of_passes finish_passes : string)
             (thread : ThreadMill.ScrewThread.t F) (s d : F),
        ThreadMill.ScrewThread.input_thread_info major minor depth start tpi
        = Ok thread ->
        float_of_str speed = Some s ->
        float_of_str diameter = Some d ->
        (d == lit 0 1)%py = true ->
        ThreadMill.main major minor depth start tpi diameter flutes speed feed
          number_of_passes finish_passes
        = Raise ZeroDivisionError).
Proof.
  split.
  - intros diameter flutes speed feed. split.
    + unfold ThreadMill.CuttingTool.input_tool_info. cbn [py_float].
      destruct (float_of_str speed) as [s |]; cbn [bind]; [| discriminate].
      destruct (float_of_str diameter) as [d |]; cbn [bind]; [| discriminate].
      unfold py_div. destruct (d == lit 0 1)%py eqn:Hzero; cbn [bind].
      * intros _. exists s, d. repeat split; try reflexivity. exact Hzero.
      * intros H. apply tool_validate_raises_value_error in H.
        destruct H as [msg H]. discriminate.
    + intros (s & d & Hs & Hd & Hzero).
      exact (input_tool_info_zero diameter flutes speed feed Hs Hd Hzero).
  - intros major minor depth start tpi diameter flutes speed feed
      number_of_passes finish_passes thread s d Hthread Hs Hd Hzero.
    unfold ThreadMill.main. rewrite Hthread. cbn [bind].
    rewrite (input_tool_info_zero diameter flutes speed feed Hs Hd Hzero).
    reflexivity.
Qed.

End DivisionBeforeValidation.

(** * What the constructor of the toolpath leaves *)

Section Planning.

Lemma calc_pass_percentages_raises {F : Type} {A : Arith F} (n : Z) (e : exn) :
  ThreadMill.BodyDetails.calc_pass_percentages (F := F) n = Raise e ->
  exists msg, e = ValueError msg.
Proof.
  unfold ThreadMill.BodyDetails.calc_pass_percentages.
  destruct (negb ((0 <? n)%Z && (n <? 5)%Z)).
  - intros H. injection H as <-. eexists. reflexivity.
  - destruct (n =? 1)%Z; [discriminate |].
    destruct (n =? 2)%Z; [discriminate |].
    destruct (n =? 3)%Z; discriminate.
Qed.

(** What [BodyDetails.__init__] leaves in the object, from the validated
    thread and tool. *)
Lemma body_details_init_eq {F : Type} {A : Arith F} {P : Parse F}
    (thread : ThreadMill.ScrewThread.t (pyval F))
    (tool : ThreadMill.CuttingTool.t (pyval F)) (n : Z)
    (bd : ThreadMill.BodyDetails.t F)
    (thread' : ThreadMill.ScrewThread.t F) (tool' : ThreadMill.CuttingTool.t F) :
  ThreadMill.BodyDetails.init thread tool n = Ok bd ->
  ThreadMill.ScrewThread.validate thread = Ok thread' ->
  ThreadMill.CuttingTool.validate tool = Ok tool' ->
  exists passes rates : list F,
    (ThreadMill.CuttingTool.diameter tool'
     >? ThreadMill.ScrewThread.minor_diameter thread')%py = false
    /\ ThreadMill.BodyDetails.calc_pass_percentages n = Ok passes
    /\ ThreadMill.BodyDetails.calc_feed_rate
         (ThreadMill.BodyDetails.calc_toolpath_radii thread' passes
            (ThreadMill.CuttingTool.diameter tool'))
         tool'
       = Ok rates
    /\ bd
       = ThreadMill.BodyDetails.mk passes
           (ThreadMill.BodyDetails.calc_toolpath_radii thread' passes
              (ThreadMill.CuttingTool.diameter tool'))
           (ThreadMill.BodyDetails.calc_lead_arcs
              (ThreadMill.BodyDetails.calc_toolpath_radii thread' passes
                 (ThreadMill.CuttingTool.diameter tool')))
           rates
           (ThreadMill.ScrewThread.start_plane thread')
           (fround (lit 125 3 * ThreadMill.ScrewThread.pitch thread')%py 4)
           (- (ThreadMill.ScrewThread.depth thread'
               + fround (lit 125 3 * ThreadMill.ScrewThread.pitch thread')%py
                   4))%py.
Proof.
  intros H Hthread Htool. unfold ThreadMill.BodyDetails.init in H.
  rewrite Hthread, Htool in H. cbn [bind] in H.
  destruct (ThreadMill.CuttingTool.diameter tool'
            >? ThreadMill.ScrewThread.minor_diameter thread')%py eqn:Hfit;
    [discriminate |].
  apply bind_ok_inv in H. destruct H as (passes & Hpasses & H).
  apply bind_ok_inv in H. destruct H as (rates & Hrates & H).
  apply Ok_inj in H. subst bd.
  exists passes, rates. repeat split; assumption.
Qed.

End Planning.

(** * The outcome of planning *)

Section PlanningOutcome.
Context {F : Type} {A : Arith F} {P : Parse F}.
Local Open Scope string_scope.

(** The toolpath that [BodyDetails.__init__] leaves when no division is by
    zero. *)
Lemma body_details_init_runs (thread : ThreadMill.ScrewThread.t (pyval F))
    (tool : ThreadMill.CuttingTool.t (pyval F)) (n : Z)
    (thread' : ThreadMill.ScrewThread.t F) (tool' : ThreadMill.CuttingTool.t F)
    (passes : list F) :
  ThreadMill.ScrewThread.validate thread = Ok thread' ->
  ThreadMill.CuttingTool.validate tool = Ok tool' ->
  (ThreadMill.CuttingTool.diameter tool'
   >? ThreadMill.ScrewThread.minor_diameter thread')%py = false ->
  ThreadMill.BodyDetails.calc_pass_percentages n = Ok passes ->
  Forall
    (fun radius =>
       (radius * lit 20 1 + ThreadMill.CuttingTool.diameter tool'
        == lit 0 1)%py = false)
    (ThreadMill.BodyDetails.calc_toolpath_radii thread' passes
       (ThreadMill.CuttingTool.diameter tool')) ->
  ThreadMill.BodyDetails.init thread tool n
  = Ok (ThreadMill.BodyDetails.mk passes
          (ThreadMill.BodyDetails.calc_toolpath_radii thread' passes
             (ThreadMill.CuttingTool.diameter tool'))
          (ThreadMill.BodyDetails.calc_lead_arcs
             (ThreadMill.BodyDetails.calc_toolpath_radii thread' passes
                (ThreadMill.CuttingTool.diameter tool')))
          (List.map
             (fun radius =>
                (ThreadMill.CuttingTool.feed tool' * (radius * lit 20 1)
                 / (radius * lit 20 1 + ThreadMill.CuttingTool.diameter tool')
                 * ThreadMill.CuttingTool.flutes tool'
                 * ThreadMill.CuttingTool.rpm tool')%py)
             (ThreadMill.BodyDetails.calc_toolpath_radii thread' passes
                (ThreadMill.CuttingTool.diameter tool')))
          (ThreadMill.ScrewThread.start_plane thread')
          (fround (lit 125 3 * ThreadMill.ScrewThread.pitch thread')%py 4)
          (- (ThreadMill.ScrewThread.depth thread'
              + fround (lit 125 3 * ThreadMill.ScrewThread.pitch thread')%py
                  4))%py).
Proof.
  intros Hthread Htool Hfit Hpasses Hdiv.
  unfold ThreadMill.BodyDetails.init.
  rewrite Hthread, Htool. cbn [bind]. rewrite Hfit, Hpasses. cbn [bind].
  rewrite (calc_feed_rate_runs tool' Hdiv). reflexivity.
Qed.

Lemma body_details_init_zero (thread : ThreadMill.ScrewThread.t (pyval F))
    (tool : ThreadMill.CuttingTool.t (pyval F)) (n : Z)
    (thread' : ThreadMill.ScrewThread.t F) (tool' : ThreadMill.CuttingTool.t F)
    (passes : list F) :
  ThreadMill.ScrewThread.validate thread = Ok thread' ->
  ThreadMill.CuttingTool.validate tool = Ok tool' ->
  (ThreadMill.CuttingTool.diameter tool'
   >? ThreadMill.ScrewThread.minor_diameter thread')%py = false ->
  ThreadMill.BodyDetails.calc_pass_percentages n = Ok passes ->
  Exists
    (fun radius =>
       (radius * lit 20 1 + ThreadMill.CuttingTool.diameter tool'
        == lit 0 1)%py = true)
    (ThreadMill.BodyDetails.calc_toolpath_radii thread' passes
       (ThreadMill.CuttingTool.diameter tool')) ->
  ThreadMill.BodyDetails.init thread tool n = Raise ZeroDivisionError.
Proof.
  intros Hthread Htool Hfit Hpasses Hdiv.
  unfold ThreadMill.BodyDetails.init.
  rewrite Hthread, Htool. cbn [bind]. rewrite Hfit, Hpasses. cbn [bind].
  rewrite (calc_feed_rate_raises tool' Hdiv). reflexivity.
Qed.

(** The steps that ran when [BodyDetails.__init__] raises. *)
Lemma body_details_init_raise_inv (thread : ThreadMill.ScrewThread.t (pyval F))
    (tool : ThreadMill.CuttingTool.t (pyval F)) (n : Z) (e : exn) :
  ThreadMill.BodyDetails.init thread tool n = Raise e ->
  (exists msg, e = ValueError msg)
  \/ (e = ZeroDivisionError
      /\ exists thread' tool' passes,
           ThreadMill.ScrewThread.validate thread = Ok thread'
           /\ ThreadMill.CuttingTool.validate tool = Ok tool'
           /\ (ThreadMill.CuttingTool.diameter tool'
               >? ThreadMill.ScrewThread.minor_diameter thread')%py = false
           /\ ThreadMill.BodyDetails.calc_pass_percentages n = Ok passes
           /\ Exists
                (fun radius =>
                   (radius * lit 20 1 + ThreadMill.CuttingTool.diameter tool'
                    == lit 0 1)%py = true)
                (ThreadMill.BodyDetails.calc_toolpath_radii thread' passes
                   (ThreadMill.CuttingTool.diameter tool'))).
Proof.
  unfold ThreadMill.BodyDetails.init. intros H.
  apply bind_raise_inv in H. destruct H as [H | (thread' & Hthread & H)].
  { left. apply thread_validate_raises_value_error in H. exact H. }
  apply bind_raise_inv in H. destruct H as [H | (tool' & Htool & H)].
  { left. apply tool_validate_raises_value_error in H. exact H. }
  destruct (ThreadMill.CuttingTool.diameter tool'
            >? ThreadMill.ScrewThread.minor_diameter thread')%py eqn:Hfit.
  { left. injection H as <-. eexists. reflexivity. }
  apply bind_raise_inv in H. destruct H as [H | (passes & Hpasses & H)].
  { left. apply calc_pass_percentages_raises in H. exact H. }
  apply bind_raise_inv in H. destruct H as [H | (rates & _ & H)];
    [| discriminate].
  right.
  destruct (for_each_div_cases
              (fun radius =>
                 (radius * lit 20 1
                  + ThreadMill.CuttingTool.diameter tool')%py)
              (ThreadMill.BodyDetails.calc_toolpath_radii thread' passes
                 (ThreadMill.CuttingTool.diameter tool')))
    as [Hall | Hsome].
  - rewrite (calc_feed_rate_runs tool' Hall) in H. discriminate.
  - split; [apply calc_feed_rate_raise_inv in H; exact H |].
    exists thread', tool', passes. repeat split; assumption.
Qed.

Lemma body_details_init_raises (thread : ThreadMill.ScrewThread.t (pyval F))
    (tool : ThreadMill.CuttingTool.t (pyval F)) (n : Z) (e : exn) :
  ThreadMill.BodyDetails.init thread tool n = Raise e ->
  e = ZeroDivisionError \/ exists msg, e = ValueError msg.
Proof.
  intros H. apply body_details_init_raise_inv in H.
  destruct H as [H | [H _]]; [right | left]; exact H.
Qed.

(** For every arithmetic, what [BodyDetails.__init__] does.  It returns a
    toolpath exactly when the thread and the tool pass [validate], the test
    [tool.diameter > thread.minor_diameter] fails, the number of passes is
    in the table, and no divisor [radius * 2.0 + tool.diameter] of
    [calc_adjusted_feed] compares equal to zero; the toolpath is then the
    one spelled out.  It raises [ZeroDivisionError] exactly when all of
    that holds but for a divisor that compares equal to zero.  Every other
    exception is a [ValueError]. *)
Theorem planning_outcome (thread : ThreadMill.ScrewThread.t (pyval F))
    (tool : ThreadMill.CuttingTool.t (pyval F)) (n : Z) :
  (forall toolpath : ThreadMill.BodyDetails.t F,
      ThreadMill.BodyDetails.init thread tool n = Ok toolpath
      <-> exists thread' tool' passes,
            ThreadMill.ScrewThread.validate thread = Ok thread'
            /\ ThreadMill.CuttingTool.validate tool = Ok tool'
            /\ (ThreadMill.CuttingTool.diameter tool'
                >? ThreadMill.ScrewThread.minor_diameter thread')%py = false
            /\ ThreadMill.BodyDetails.calc_pass_percentages n = Ok passes
            /\ Forall
                 (fun radius =>
                    (radius * lit 20 1 + ThreadMill.CuttingTool.diameter tool'
                     == lit 0 1)%py = false)
                 (ThreadMill.BodyDetails.calc_toolpath_radii thread' passes
                    (ThreadMill.CuttingTool.diameter tool'))
            /\ toolpath
               = ThreadMill.BodyDetails.mk passes
                   (ThreadMill.BodyDetails.calc_toolpath_radii thread' passes
                      (ThreadMill.CuttingTool.diameter tool'))
                   (ThreadMill.BodyDetails.calc_lead_arcs
                      (ThreadMill.BodyDetails.calc_toolpath_radii thread'
                         passes (ThreadMill.CuttingTool.diameter tool')))
                   (List.map
                      (fun radius =>
                         (ThreadMill.CuttingTool.feed tool'
                          * (radius * lit 20 1)
                          / (radius * lit 20 1
                             + ThreadMill.CuttingTool.diameter tool')
                          * ThreadMill.CuttingTool.flutes tool'
                          * ThreadMill.CuttingTool.rpm tool')%py)
                      (ThreadMill.BodyDetails.calc_toolpath_radii thread'
                         passes (ThreadMill.CuttingTool.diameter tool')))
                   (ThreadMill.ScrewThread.start_plane thread')
                   (fround
                      (lit 125 3 * ThreadMill.ScrewThread.pitch thread')%py 4)
                   (- (ThreadMill.ScrewThread.depth thread'
                       + fround
                           (lit 125 3
                            * ThreadMill.ScrewThread.pitch thread')%py 4))%py)
  /\ (ThreadMill.BodyDetails.init thread tool n = Raise ZeroDivisionError
      <-> exists thread' tool' passes,
            ThreadMill.ScrewThread.validate thread = Ok thread'
            /\ ThreadMill.CuttingTool.validate tool = Ok tool'
            /\ (ThreadMill.CuttingTool.diameter tool'
                >? ThreadMill.ScrewThread.minor_diameter thread')%py = false
            /\ ThreadMill.BodyDetails.calc_pass_percentages n = Ok passes
            /\ Exists
                 (fun radius =>
                    (radius * lit 20 1 + ThreadMill.CuttingTool.diameter tool'
                     == lit 0 1)%py = true)
                 (ThreadMill.BodyDetails.calc_toolpath_radii thread' passes
                    (ThreadMill.CuttingTool.diameter tool')))
  /\ (forall e,
        ThreadMill.BodyDetails.init thread tool n = Raise e ->
        e = ZeroDivisionError \/ exists msg, e = ValueError msg).
Proof.
  split; [| split].
  - intros toolpath. split.
    + intros H.
      pose proof H as H'. apply body_details_init_ok in H'.
      destruct H' as (thread' & tool' & Hthread & Htool & _).
      destruct (body_details_init_eq _ _ _ H Hthread Htool)
        as (passes & rates & Hfit & Hpasses & Hrates & ->).
      pose proof (calc_feed_rate_ok_inv _ _ Hrates) as Hdiv.
      rewrite (calc_feed_rate_runs tool' Hdiv) in Hrates.
      apply Ok_inj in Hrates. subst rates.
      exists thread', tool', passes. repeat split; assumption.
    + intros (thread' & tool' & passes & Hthread & Htool & Hfit & Hpasses
              & Hdiv & ->).
      apply body_details_init_runs; assumption.
  - split.
    + intros H. apply body_details_init_raise_inv in H.
      destruct H as [[msg H] | [_ H]]; [discriminate | exact H].
    + intros (thread' & tool' & passes & Hthread & Htool & Hfit & Hpasses
              & Hdiv).
      exact (body_details_init_zero _ _ _ Hthread Htool Hfit Hpasses Hdiv).
  - intros e H. apply body_details_init_raises in H. exact H.
Qed.

End PlanningOutcome.


(** * The exceptions of the steps of a run *)

Section RunsRaise.
Context {F : Type} {A : Arith F} {P : Parse F} {Sh : Print F}.
Local Open Scope string_scope.

Lemma py_int_raises (s : string) (e : exn) :
  py_int s = Raise e -> exists msg, e = ValueError msg.
Proof.
  unfold py_int. destruct (int_of_str s); [discriminate |].
  intros H. injection H as <-. eexists. reflexivity.
Qed.

Lemma py_int_some (s : string) (n : Z) : py_int s = Ok n <-> int_of_str s = Some n.
Proof.
  unfold py_int. destruct (int_of_str s); split; intros H;
    try discriminate; injection H as <-; reflexivity.
Qed.

Lemma thread_item_raises (key value : string) (e : exn) :
  TmillDict.thread_item (F := F) key value = Raise e ->
  exists msg, e = ValueError msg.
Proof.
  unfold TmillDict.thread_item. cbn [py_float].
  destruct (negb (key =? "Starting plane"));
    destruct (float_of_str value) as [x |]; cbn [bind];
    try destruct (x <=? lit 0 1)%py;
    intros H; try discriminate; injection H as <-; eexists; reflexivity.
Qed.

Lemma tool_item_raises (key value : string) (e : exn) :
  TmillDict.tool_item (F := F) key value = Raise e ->
  exists msg, e = ValueError msg.
Proof.
  unfold TmillDict.tool_item. cbn [py_float].
  destruct (float_of_str value) as [x |]; cbn [bind];
    try destruct (x <=? lit 0 1)%py;
    intros H; try discriminate; injection H as <-; eexists; reflexivity.
Qed.

Lemma get_thread_info_raises (threads : TmillDict.Thread.t string) (e : exn) :
  TmillDict.get_thread_info (F := F) threads = Raise e ->
  exists msg, e = ValueError msg.
Proof.
  unfold TmillDict.get_thread_info, TmillDict.Thread.for_items. intros H.
  apply bind_raise_inv in H. destruct H as [H | (checked & _ & H)].
  - repeat (apply bind_raise_inv in H;
            destruct H as [H | (? & _ & H)];
            [apply thread_item_raises in H; exact H |]).
    discriminate.
  - destruct (TmillDict.Thread.minor_diameter checked
              >? TmillDict.Thread.major_diameter checked)%py;
      [| discriminate].
    injection H as <-. eexists. reflexivity.
Qed.

Lemma get_tool_info_raises (tool : TmillDict.Tool.t string) (e : exn) :
  TmillDict.get_tool_info (F := F) tool = Raise e ->
  exists msg, e = ValueError msg.
Proof.
  unfold TmillDict.get_tool_info, TmillDict.Tool.for_items. intros H.
  repeat (apply bind_raise_inv in H;
          destruct H as [H | (? & _ & H)];
          [apply tool_item_raises in H; exact H |]).
  discriminate.
Qed.

Lemma get_pass_percentages_raises (s : string) (e : exn) :
  TmillDict.get_pass_percentages (F := F) s = Raise e ->
  exists msg, e = ValueError msg.
Proof.
  unfold TmillDict.get_pass_percentages. intros H.
  apply bind_raise_inv in H. destruct H as [H | (n & _ & H)].
  - apply py_int_raises in H. exact H.
  - destruct (negb ((0 <? n)%Z && (n <? 5)%Z)).
    + injection H as <-. eexists. reflexivity.
    + destruct (n =? 1)%Z; [discriminate |].
      destruct (n =? 2)%Z; [discriminate |].
      destruct (n =? 3)%Z; discriminate.
Qed.

Lemma get_pass_percentages_eq (s : string) (n : Z) :
  int_of_str s = Some n ->
  (1 <= n <= 4)%Z ->
  TmillDict.get_pass_percentages (F := F) s
  = ThreadMill.BodyDetails.calc_pass_percentages n.
Proof.
  intros Hs Hn.
  unfold TmillDict.get_pass_percentages,
    ThreadMill.BodyDetails.calc_pass_percentages, py_int.
  rewrite Hs. cbn [bind].
  assert (C : n = 1%Z \/ n = 2%Z \/ n = 3%Z \/ n = 4%Z) by lia.
  destruct C as [-> | [-> | [-> | ->]]]; reflexivity.
Qed.

Lemma input_thread_info_raises (major minor depth start tpi : string)
    (e : exn) :
  ThreadMill.ScrewThread.input_thread_info (F := F) major minor depth start tpi
  = Raise e ->
  e = ZeroDivisionError \/ exists msg, e = ValueError msg.
Proof.
  unfold ThreadMill.ScrewThread.input_thread_info. intros H.
  apply bind_raise_inv in H. destruct H as [H | (z & _ & H)].
  { right. apply py_float_raises_value_error in H. exact H. }
  apply bind_raise_inv in H. destruct H as [H | (pitch & _ & H)].
  { left. unfold py_div in H. destruct (z == lit 0 1)%py; [| discriminate].
    injection H as <-. reflexivity. }
  right. apply thread_validate_raises_value_error in H. exact H.
Qed.

Lemma input_tool_info_raises (diameter flutes speed feed : string) (e : exn) :
  ThreadMill.CuttingTool.input_tool_info (F := F) diameter flutes speed feed
  = Raise e ->
  e = ZeroDivisionError \/ exists msg, e = ValueError msg.
Proof.
  unfold ThreadMill.CuttingTool.input_tool_info. intros H.
  apply bind_raise_inv in H. destruct H as [H | (s & _ & H)].
  { right. apply py_float_raises_value_error in H. exact H. }
  apply bind_raise_inv in H. destruct H as [H | (d & _ & H)].
  { right. apply py_float_raises_value_error in H. exact H. }
  apply bind_raise_inv in H. destruct H as [H | (rpm & _ & H)].
  { left. unfold py_div in H. destruct (d == lit 0 1)%py; [| discriminate].
    injection H as <-. reflexivity. }
  right. apply tool_validate_raises_value_error in H. exact H.
Qed.

(** What [input_thread_info] returns went through [validate]. *)
Lemma input_thread_info_validated (major minor depth start tpi : string)
    (thread : ThreadMill.ScrewThread.t F) :
  ThreadMill.ScrewThread.input_thread_info major minor depth start tpi
  = Ok thread ->
  exists self, ThreadMill.ScrewThread.validate self = Ok thread.
Proof.
  unfold ThreadMill.ScrewThread.input_thread_info. intros H.
  apply bind_ok_inv in H. destruct H as (z & _ & H).
  apply bind_ok_inv in H. destruct H as (pitch & _ & H).
  eexists. exact H.
Qed.

Lemma input_tool_info_validated (diameter flutes speed feed : string)
    (tool : ThreadMill.CuttingTool.t F) :
  ThreadMill.CuttingTool.input_tool_info diameter flutes speed feed = Ok tool ->
  exists self, ThreadMill.CuttingTool.validate self = Ok tool.
Proof.
  unfold ThreadMill.CuttingTool.input_tool_info. intros H.
  apply bind_ok_inv in H. destruct H as (s & _ & H).
  apply bind_ok_inv in H. destruct H as (d & _ & H).
  apply bind_ok_inv in H. destruct H as (rpm & _ & H).
  eexists. exact H.
Qed.

End RunsRaise.

(** * The outcome of a whole run *)

Section Outcomes.
Context {F : Type} {A : Arith F} {P : Parse F} {Sh : Print F}.
Local Open Scope string_scope.

Lemma py_div_ok_inv (x y z : F) :
  py_div x y = Ok z -> (y == lit 0 1)%py = false /\ z = (x / y)%py.
Proof.
  unfold py_div. destruct (y == lit 0 1)%py; [discriminate |].
  intros H. apply Ok_inj in H. split; [reflexivity | symmetry; exact H].
Qed.

Lemma py_div_raise_inv (x y : F) (e : exn) :
  py_div x y = Raise e -> e = ZeroDivisionError.
Proof.
  unfold py_div. destruct (y == lit 0 1)%py; [| discriminate].
  intros H. injection H as <-. reflexivity.
Qed.

Lemma py_div_runs (x y : F) :
  (y == lit 0 1)%py = false -> py_div x y = Ok (x / y)%py.
Proof. intros H. unfold py_div. rewrite H. reflexivity. Qed.

(** An exception of the class-based program is a [ValueError], a
    [ZeroDivisionError], or what [round] raises on the spindle speed. *)
Lemma thread_mill_main_raises (major minor depth start tpi : string)
    (diameter flutes speed feed : string)
    (number_of_passes finish_passes : string) (e : exn) :
  ThreadMill.main major minor depth start tpi diameter flutes speed feed
    number_of_passes finish_passes = Raise e ->
  e = ZeroDivisionError
  \/ (exists msg, e = ValueError msg)
  \/ exists x : F, fround_int x = Raise e.
Proof.
  unfold ThreadMill.main. intros H.
  apply bind_raise_inv in H. destruct H as [H | (thread & _ & H)].
  { apply input_thread_info_raises in H.
    destruct H as [H | H]; [left | right; left]; exact H. }
  apply bind_raise_inv in H. destruct H as [H | (tool & _ & H)].
  { apply input_tool_info_raises in H.
    destruct H as [H | H]; [left | right; left]; exact H. }
  apply bind_raise_inv in H. destruct H as [H | (n & _ & H)].
  { right. left. apply py_int_raises in H. exact H. }
  apply bind_raise_inv in H. destruct H as [H | (toolpath & _ & H)].
  { apply body_details_init_raises in H.
    destruct H as [H | H]; [left | right; left]; exact H. }
  apply bind_raise_inv in H. destruct H as [H | (N & _ & H)].
  { right. left. apply py_int_raises in H. exact H. }
  destruct (N <? 1)%Z.
  { right. left. injection H as <-. eexists. reflexivity. }
  apply bind_raise_inv in H. destruct H as [H | (begin_out & _ & H)];
    [| discriminate].
  unfold ThreadMill.post_begin in H.
  apply bind_raise_inv in H. destruct H as [H | (r & _ & H)];
    [| discriminate].
  right. right. eexists. exact H.
Qed.

(** An exception of the dictionary-based program is a [ValueError], a
    [ZeroDivisionError], or what [round] raises on the spindle speed; no
    index of its loop is out of range. *)
Lemma tmill_main_raises (threads : TmillDict.Thread.t string)
    (tool : TmillDict.Tool.t string) (number_of_passes finish_passes : string)
    (e : exn) :
  TmillDict.main threads tool number_of_passes finish_passes = Raise e ->
  e = ZeroDivisionError
  \/ (exists msg, e = ValueError msg)
  \/ exists x : F, fround_int x = Raise e.
Proof.
  unfold TmillDict.main. intros H.
  apply bind_raise_inv in H. destruct H as [H | (thread_info & _ & H)].
  { right. left. apply get_thread_info_raises in H. exact H. }
  apply bind_raise_inv in H. destruct H as [H | (tool_info & _ & H)].
  { right. left. apply get_tool_info_raises in H. exact H. }
  destruct (TmillDict.Tool.tool_diameter tool_info
            >? TmillDict.Thread.minor_diameter thread_info)%py.
  { right. left. injection H as <-. eexists. reflexivity. }
  apply bind_raise_inv in H. destruct H as [H | (passes & _ & H)].
  { right. left. apply get_pass_percentages_raises in H. exact H. }
  apply bind_raise_inv in H. destruct H as [H | (N & _ & H)].
  { right. left. apply py_int_raises in H. exact H. }
  destruct (N <? 1)%Z.
  { right. left. injection H as <-. eexists. reflexivity. }
  apply bind_raise_inv in H. destruct H as [H | (feed_adjust & Hadjust & H)].
  { left. unfold TmillDict.get_feed_adjustment in H.
    apply (for_each_div_raise_inv
             (fun adjust => (adjust * lit 20 1)%py)
             (fun adjust =>
                (adjust * lit 20 1
                 + TmillDict.Tool.tool_diameter tool_info)%py)) in H.
    exact H. }
  apply bind_raise_inv in H. destruct H as [H | (speed & _ & H)].
  { left. apply py_div_raise_inv in H. exact H. }
  apply bind_raise_inv in H. destruct H as [H | (rpm & _ & H)].
  { right. right. eexists. exact H. }
  apply bind_raise_inv in H. destruct H as [H | (pitch & _ & H)].
  { left. apply py_div_raise_inv in H. exact H. }
  apply bind_raise_inv in H. destruct H as [H | (written & _ & H)];
    [| discriminate].
  rewrite body_loop_enumerate in H; [discriminate | |].
  - unfold TmillDict.get_lead_radii. apply length_map.
  - unfold TmillDict.get_feed_adjustment in Hadjust.
    apply for_each_length in Hadjust. exact Hadjust.
Qed.

(** The steps of the class-based [main] that ran when it returns, and the
    converse. *)
Lemma thread_mill_main_steps (major minor depth start tpi : string)
    (diameter flutes speed feed : string)
    (number_of_passes finish_passes : string) (writes : list string) :
  ThreadMill.main major minor depth start tpi diameter flutes speed feed
    number_of_passes finish_passes = Ok writes ->
  exists (thread : ThreadMill.ScrewThread.t F) (tool : ThreadMill.CuttingTool.t F)
         (toolpath : ThreadMill.BodyDetails.t F) (n N rpm : Z),
    ThreadMill.ScrewThread.input_thread_info major minor depth start tpi
    = Ok thread
    /\ ThreadMill.CuttingTool.input_tool_info diameter flutes speed feed
       = Ok tool
    /\ int_of_str number_of_passes = Some n
    /\ ThreadMill.BodyDetails.init (ThreadMill.ScrewThread.map PFloat thread)
         (ThreadMill.CuttingTool.map PFloat tool) n = Ok toolpath
    /\ int_of_str finish_passes = Some N
    /\ (1 <= N)%Z
    /\ fround_int (ThreadMill.CuttingTool.rpm tool) = Ok rpm.
Proof.
  unfold ThreadMill.main. intros H.
  apply bind_ok_inv in H. destruct H as (thread & Hthread & H).
  apply bind_ok_inv in H. destruct H as (tool & Htool & H).
  apply bind_ok_inv in H. destruct H as (n & Hn & H).
  apply bind_ok_inv in H. destruct H as (toolpath & Hplan & H).
  apply bind_ok_inv in H. destruct H as (N & HN & H).
  destruct (N <? 1)%Z eqn:Hfinish; [discriminate |].
  apply Z.ltb_ge in Hfinish.
  apply bind_ok_inv in H. destruct H as (begin_out & Hbegin & _).
  unfold ThreadMill.post_begin in Hbegin.
  apply bind_ok_inv in Hbegin. destruct Hbegin as (rpm & Hrpm & _).
  apply py_int_some in Hn. apply py_int_some in HN.
  exists thread, tool, toolpath, n, N, rpm. repeat split; assumption.
Qed.

Lemma thread_mill_main_runs (major minor depth start tpi : string)
    (diameter flutes speed feed : string)
    (number_of_passes finish_passes : string)
    (thread : ThreadMill.ScrewThread.t F) (tool : ThreadMill.CuttingTool.t F)
    (toolpath : ThreadMill.BodyDetails.t F) (n N rpm : Z) :
  ThreadMill.ScrewThread.input_thread_info major minor depth start tpi
  = Ok thread ->
  ThreadMill.CuttingTool.input_tool_info diameter flutes speed feed = Ok tool ->
  int_of_str number_of_passes = Some n ->
  ThreadMill.BodyDetails.init (ThreadMill.ScrewThread.map PFloat thread)
    (ThreadMill.CuttingTool.map PFloat tool) n = Ok toolpath ->
  int_of_str finish_passes = Some N ->
  (1 <= N)%Z ->
  fround_int (ThreadMill.CuttingTool.rpm tool) = Ok rpm ->
  ThreadMill.main major minor depth start tpi diameter flutes speed feed
    number_of_passes finish_passes
  = Ok ["S" ++ str_of_int rpm ++ " M3" ++ nl ++ nl;
        ThreadMill.post_body toolpath thread N (lit 200 1);
        ThreadMill.post_end].
Proof.
  intros Hthread Htool Hn Hplan HN Hfinish Hrpm.
  unfold ThreadMill.main. rewrite Hthread, Htool. cbn [bind].
  unfold py_int. rewrite Hn, HN. cbn [bind]. rewrite Hplan. cbn [bind].
  apply Z.ltb_ge in Hfinish. rewrite Hfinish.
  unfold ThreadMill.post_begin. rewrite Hrpm. reflexivity.
Qed.

(** The steps of the dictionary-based [main] that ran when it returns,
    and the converse. *)
Lemma tmill_main_steps (threads : TmillDict.Thread.t string)
    (tool : TmillDict.Tool.t string) (number_of_passes finish_passes : string)
    (file : list string) :
  TmillDict.main threads tool number_of_passes finish_passes = Ok file ->
  exists (thread_info : TmillDict.Thread.t F) (tool_info : TmillDict.Tool.t F)
         (passes : list F) (N rpm : Z),
    TmillDict.get_thread_info threads = Ok thread_info
    /\ TmillDict.get_tool_info tool = Ok tool_info
    /\ (TmillDict.Tool.tool_diameter tool_info
        >? TmillDict.Thread.minor_diameter thread_info)%py = false
    /\ TmillDict.get_pass_percentages number_of_passes = Ok passes
    /\ int_of_str finish_passes = Some N
    /\ (1 <= N)%Z
    /\ Forall
         (fun radius =>
            (radius * lit 20 1 + TmillDict.Tool.tool_diameter tool_info
             == lit 0 1)%py = false)
         (TmillDict.get_toolpath_radii thread_info passes
            (TmillDict.Tool.tool_diameter tool_info))
    /\ (TmillDict.Tool.tool_diameter tool_info == lit 0 1)%py = false
    /\ fround_int
         (TmillDict.Tool.speed tool_info * lit 382 2
          / TmillDict.Tool.tool_diameter tool_info)%py
       = Ok rpm
    /\ (TmillDict.Thread.threads_per_inch thread_info == lit 0 1)%py = false.
Proof.
  unfold TmillDict.main. intros H.
  apply bind_ok_inv in H. destruct H as (thread_info & Hthread & H).
  apply bind_ok_inv in H. destruct H as (tool_info & Htool & H).
  destruct (TmillDict.Tool.tool_diameter tool_info
            >? TmillDict.Thread.minor_diameter thread_info)%py eqn:Hfit;
    [discriminate |].
  apply bind_ok_inv in H. destruct H as (passes & Hpasses & H).
  apply bind_ok_inv in H. destruct H as (N & HN & H).
  destruct (N <? 1)%Z eqn:Hfinish; [discriminate |].
  apply Z.ltb_ge in Hfinish.
  apply bind_ok_inv in H. destruct H as (feed_adjust & Hadjust & H).
  apply bind_ok_inv in H. destruct H as (speed & Hspeed & H).
  apply bind_ok_inv in H. destruct H as (rpm & Hrpm & H).
  apply bind_ok_inv in H. destruct H as (pitch & Hpitch & _).
  unfold TmillDict.get_feed_adjustment in Hadjust.
  apply (for_each_div_ok_inv
           (fun adjust => (adjust * lit 20 1)%py)
           (fun adjust =>
              (adjust * lit 20 1
               + TmillDict.Tool.tool_diameter tool_info)%py)) in Hadjust.
  destruct Hadjust as [Hdiv _].
  apply py_div_ok_inv in Hspeed. destruct Hspeed as [Hdz ->].
  apply py_div_ok_inv in Hpitch. destruct Hpitch as [Hez _].
  apply py_int_some in HN.
  exists thread_info, tool_info, passes, N, rpm.
  repeat split; assumption.
Qed.

Lemma tmill_main_runs (threads : TmillDict.Thread.t string)
    (tool : TmillDict.Tool.t string) (number_of_passes finish_passes : string)
    (thread_info : TmillDict.Thread.t F) (tool_info : TmillDict.Tool.t F)
    (passes : list F) (N rpm : Z) :
  TmillDict.get_thread_info threads = Ok thread_info ->
  TmillDict.get_tool_info tool = Ok tool_info ->
  (TmillDict.Tool.tool_diameter tool_info
   >? TmillDict.Thread.minor_diameter thread_info)%py = false ->
  TmillDict.get_pass_percentages number_of_passes = Ok passes ->
  int_of_str finish_passes = Some N ->
  (1 <= N)%Z ->
  Forall
    (fun radius =>
       (radius * lit 20 1 + TmillDict.Tool.tool_diameter tool_info
        == lit 0 1)%py = false)
    (TmillDict.get_toolpath_radii thread_info passes
       (TmillDict.Tool.tool_diameter tool_info)) ->
  (TmillDict.Tool.tool_diameter tool_info == lit 0 1)%py = false ->
  fround_int
    (TmillDict.Tool.speed tool_info * lit 382 2
     / TmillDict.Tool.tool_diameter tool_info)%py
  = Ok rpm ->
  (TmillDict.Thread.threads_per_inch thread_info == lit 0 1)%py = false ->
  exists file,
    TmillDict.main threads tool number_of_passes finish_passes = Ok file.
Proof.
  intros Hthread Htool Hfit Hpasses HN Hfinish Hdiv Hdz Hrpm Hez.
  unfold TmillDict.main. rewrite Hthread, Htool. cbn [bind].
  rewrite Hfit, Hpasses. cbn [bind]. unfold py_int. rewrite HN. cbn [bind].
  apply Z.ltb_ge in Hfinish. rewrite Hfinish.
  unfold TmillDict.get_feed_adjustment.
  rewrite (for_each_div_runs
             (fun adjust => (adjust * lit 20 1)%py)
             (fun adjust =>
                (adjust * lit 20 1
                 + TmillDict.Tool.tool_diameter tool_info)%py) Hdiv).
  cbn [bind]. rewrite py_div_runs by exact Hdz. cbn [bind]. rewrite Hrpm.
  cbn [bind]. rewrite py_div_runs by exact Hez. cbn [bind].
  rewrite body_loop_enumerate.
  - cbn [bind]. eexists. reflexivity.
  - unfold TmillDict.get_lead_radii. apply length_map.
  - apply length_map.
Qed.

(** What [input_thread_info] and [input_tool_info] return, in terms of the
    lines read: the numbers read, the derived attribute, and the tests
    that failed. *)
Lemma input_thread_info_sound (major minor depth start tpi : string)
    (thread : ThreadMill.ScrewThread.t F) :
  ThreadMill.ScrewThread.input_thread_info major minor depth start tpi
  = Ok thread ->
  float_of_str major = Some (ThreadMill.ScrewThread.major_diameter thread)
  /\ float_of_str minor = Some (ThreadMill.ScrewThread.minor_diameter thread)
  /\ float_of_str depth = Some (ThreadMill.ScrewThread.depth thread)
  /\ float_of_str start = Some (ThreadMill.ScrewThread.start_plane thread)
  /\ float_of_str tpi = Some (ThreadMill.ScrewThread.tpi thread)
  /\ (ThreadMill.ScrewThread.tpi thread == lit 0 1)%py = false
  /\ ThreadMill.ScrewThread.pitch thread
     = (lit 10 1 / ThreadMill.ScrewThread.tpi thread)%py
  /\ (ThreadMill.ScrewThread.major_diameter thread <=? lit 0 1)%py = false
  /\ (ThreadMill.ScrewThread.minor_diameter thread <=? lit 0 1)%py = false
  /\ (ThreadMill.ScrewThread.depth thread <=? lit 0 1)%py = false
  /\ (ThreadMill.ScrewThread.tpi thread <=? lit 0 1)%py = false
  /\ (ThreadMill.ScrewThread.pitch thread <=? lit 0 1)%py = false
  /\ (ThreadMill.ScrewThread.minor_diameter thread
      >=? ThreadMill.ScrewThread.major_diameter thread)%py = false.
Proof.
  unfold ThreadMill.ScrewThread.input_thread_info. intros H.
  apply bind_ok_inv in H. destruct H as (z & Hz & H).
  apply bind_ok_inv in H. destruct H as (pitch & Hpitch & H).
  apply thread_validate_ok in H.
  destruct H as (Hmap & Pa & Pb & Pc & Pe & Pp & Hcmp).
  destruct thread as [a b c d e f].
  pose proof (f_equal (@ThreadMill.ScrewThread.major_diameter _) Hmap) as Ea.
  pose proof (f_equal (@ThreadMill.ScrewThread.minor_diameter _) Hmap) as Eb.
  pose proof (f_equal (@ThreadMill.ScrewThread.depth _) Hmap) as Ec.
  pose proof (f_equal (@ThreadMill.ScrewThread.start_plane _) Hmap) as Ed.
  pose proof (f_equal (@ThreadMill.ScrewThread.tpi _) Hmap) as Ee.
  pose proof (f_equal (@ThreadMill.ScrewThread.pitch _) Hmap) as Ef.
  clear Hmap.
  cbn [ThreadMill.ScrewThread.map ThreadMill.ScrewThread.major_diameter
       ThreadMill.ScrewThread.minor_diameter ThreadMill.ScrewThread.depth
       ThreadMill.ScrewThread.start_plane ThreadMill.ScrewThread.tpi
       ThreadMill.ScrewThread.pitch] in *.
  apply py_float_str in Ea, Eb, Ec, Ed, Ee, Hz.
  cbn [py_float] in Ef. apply Ok_inj in Ef. subst f.
  rewrite Hz in Ee. injection Ee as ->.
  apply py_div_ok_inv in Hpitch. destruct Hpitch as [Hez ->].
  repeat split; assumption.
Qed.

Lemma input_thread_info_complete (major minor depth start tpi : string)
    (a b c d e : F) :
  float_of_str major = Some a ->
  float_of_str minor = Some b ->
  float_of_str depth = Some c ->
  float_of_str start = Some d ->
  float_of_str tpi = Some e ->
  (e == lit 0 1)%py = false ->
  (a <=? lit 0 1)%py = false ->
  (b <=? lit 0 1)%py = false ->
  (c <=? lit 0 1)%py = false ->
  (e <=? lit 0 1)%py = false ->
  (lit 10 1 / e <=? lit 0 1)%py = false ->
  (b >=? a)%py = false ->
  ThreadMill.ScrewThread.input_thread_info major minor depth start tpi
  = Ok (ThreadMill.ScrewThread.mk a b c d e (lit 10 1 / e)%py).
Proof.
  intros Ea Eb Ec Ed Ee Hez Pa Pb Pc Pe Pp Hcmp.
  unfold ThreadMill.ScrewThread.input_thread_info.
  cbn [py_float]. rewrite Ee. cbn [bind].
  rewrite py_div_runs by exact Hez. cbn [bind].
  apply thread_validate_complete;
    cbn [ThreadMill.ScrewThread.major_diameter
         ThreadMill.ScrewThread.minor_diameter ThreadMill.ScrewThread.depth
         ThreadMill.ScrewThread.start_plane ThreadMill.ScrewThread.tpi
         ThreadMill.ScrewThread.pitch]; try assumption.
  unfold ThreadMill.ScrewThread.map.
  cbn [ThreadMill.ScrewThread.major_diameter
       ThreadMill.ScrewThread.minor_diameter ThreadMill.ScrewThread.depth
       ThreadMill.ScrewThread.start_plane ThreadMill.ScrewThread.tpi
       ThreadMill.ScrewThread.pitch py_float].
  rewrite Ea, Eb, Ec, Ed, Ee. reflexivity.
Qed.

Lemma input_tool_info_sound (diameter flutes speed feed : string)
    (tool : ThreadMill.CuttingTool.t F) :
  ThreadMill.CuttingTool.input_tool_info diameter flutes speed feed = Ok tool ->
  float_of_str diameter = Some (ThreadMill.CuttingTool.diameter tool)
  /\ float_of_str flutes = Some (ThreadMill.CuttingTool.flutes tool)
  /\ float_of_str speed = Some (ThreadMill.CuttingTool.speed tool)
  /\ float_of_str feed = Some (ThreadMill.CuttingTool.feed tool)
  /\ (ThreadMill.CuttingTool.diameter tool == lit 0 1)%py = false
  /\ ThreadMill.CuttingTool.rpm tool
     = (ThreadMill.CuttingTool.speed tool * lit 382 2
        / ThreadMill.CuttingTool.diameter tool)%py
  /\ (ThreadMill.CuttingTool.diameter tool <=? lit 0 1)%py = false
  /\ (ThreadMill.CuttingTool.flutes tool <=? lit 0 1)%py = false
  /\ (ThreadMill.CuttingTool.speed tool <=? lit 0 1)%py = false
  /\ (ThreadMill.CuttingTool.feed tool <=? lit 0 1)%py = false
  /\ (ThreadMill.CuttingTool.rpm tool <=? lit 0 1)%py = false.
Proof.
  unfold ThreadMill.CuttingTool.input_tool_info. intros H.
  apply bind_ok_inv in H. destruct H as (s & Hs & H).
  apply bind_ok_inv in H. destruct H as (d & Hd & H).
  apply bind_ok_inv in H. destruct H as (rpm & Hrpm & H).
  apply tool_validate_ok in H.
  destruct H as (Hmap & Qd & Qf & Qs & Qe & Qr).
  destruct tool as [a b c f r].
  pose proof (f_equal (@ThreadMill.CuttingTool.diameter _) Hmap) as Ea.
  pose proof (f_equal (@ThreadMill.CuttingTool.flutes _) Hmap) as Eb.
  pose proof (f_equal (@ThreadMill.CuttingTool.speed _) Hmap) as Ec.
  pose proof (f_equal (@ThreadMill.CuttingTool.feed _) Hmap) as Ef.
  pose proof (f_equal (@ThreadMill.CuttingTool.rpm _) Hmap) as Er.
  clear Hmap.
  cbn [ThreadMill.CuttingTool.map ThreadMill.CuttingTool.diameter
       ThreadMill.CuttingTool.flutes ThreadMill.CuttingTool.speed
       ThreadMill.CuttingTool.feed ThreadMill.CuttingTool.rpm] in *.
  apply py_float_str in Ea, Eb, Ec, Ef, Hs, Hd.
  cbn [py_float] in Er. apply Ok_inj in Er. subst r.
  rewrite Hs in Ec. injection Ec as ->.
  rewrite Hd in Ea. injection Ea as ->.
  apply py_div_ok_inv in Hrpm. destruct Hrpm as [Hdz ->].
  repeat split; assumption.
Qed.

Lemma input_tool_info_complete (diameter flutes speed feed : string)
    (a b c f : F) :
  float_of_str diameter = Some a ->
  float_of_str flutes = Some b ->
  float_of_str speed = Some c ->
  float_of_str feed = Some f ->
  (a == lit 0 1)%py = false ->
  (a <=? lit 0 1)%py = false ->
  (b <=? lit 0 1)%py = false ->
  (c <=? lit 0 1)%py = false ->
  (f <=? lit 0 1)%py = false ->
  (c * lit 382 2 / a <=? lit 0 1)%py = false ->
  ThreadMill.CuttingTool.input_tool_info diameter flutes speed feed
  = Ok (ThreadMill.CuttingTool.mk a b c f (c * lit 382 2 / a)%py).
Proof.
  intros Ea Eb Ec Ef Haz Qa Qb Qc Qf Qr.
  unfold ThreadMill.CuttingTool.input_tool_info.
  cbn [py_float]. rewrite Ec, Ea. cbn [bind].
  rewrite py_div_runs by exact Haz. cbn [bind].
  apply tool_validate_complete;
    cbn [ThreadMill.CuttingTool.diameter ThreadMill.CuttingTool.flutes
         ThreadMill.CuttingTool.speed ThreadMill.CuttingTool.feed
         ThreadMill.CuttingTool.rpm]; try assumption.
  unfold ThreadMill.CuttingTool.map.
  cbn [ThreadMill.CuttingTool.diameter ThreadMill.CuttingTool.flutes
       ThreadMill.CuttingTool.speed ThreadMill.CuttingTool.feed
       ThreadMill.CuttingTool.rpm py_float].
  rewrite Ea, Eb, Ec, Ef. reflexivity.
Qed.

(** The two programs on the same eleven lines. *)
Lemma programs_compared (major minor depth start tpi : string)
    (diameter flutes speed feed : string)
    (number_of_passes finish_passes : string) :
  lt_le_law F ->
  ((exists writes,
       ThreadMill.main major minor depth start tpi diameter flutes speed feed
         number_of_passes finish_passes = Ok writes)
   <-> (exists file,
          TmillDict.main (TmillDict.Thread.mk major minor depth start tpi)
            (TmillDict.Tool.mk diameter flutes speed feed) number_of_passes
            finish_passes = Ok file)
       /\ exists a b e s d : F,
            float_of_str major = Some a
            /\ float_of_str minor = Some b
            /\ float_of_str tpi = Some e
            /\ float_of_str speed = Some s
            /\ float_of_str diameter = Some d
            /\ (b >=? a)%py = false
            /\ (lit 10 1 / e <=? lit 0 1)%py = false
            /\ (s * lit 382 2 / d <=? lit 0 1)%py = false).
Proof.
  intros Hlaw. split.
  - intros [writes H].
    apply thread_mill_main_steps in H.
    destruct H as (thread & tool & toolpath & n & N & rpm & Hthread & Htool
                   & Hn & Hinit & HN & HN1 & Hrpm).
    pose proof Hthread as Hs. apply input_thread_info_sound in Hs.
    destruct Hs as (Ea & Eb & Ec & Ed & Ee & Hez & Hpitch & Pa & Pb & Pc
                    & Pe & Pp & Hcmp).
    pose proof Htool as Ht. apply input_tool_info_sound in Ht.
    destruct Ht as (Fa & Fb & Fc & Ff & Hdz & Hr & Qa & Qb & Qc & Qf & Qr).
    pose proof Hthread as Hself. apply input_thread_info_validated in Hself.
    destruct Hself as [self Hself]. apply thread_revalidate in Hself.
    pose proof Htool as Hself'. apply input_tool_info_validated in Hself'.
    destruct Hself' as [self' Hself']. apply tool_revalidate in Hself'.
    destruct (body_details_init_eq _ _ _ Hinit Hself Hself')
      as (passes & rates & Hfit & Hpasses & Hrates & _).
    pose proof (calc_feed_rate_ok_inv _ _ Hrates) as Hdiv.
    pose proof (calc_pass_percentages_range _ Hpasses) as Hrange.
    destruct thread as [a b c d0 e p], tool as [d fl sp fe rp].
    cbn [ThreadMill.ScrewThread.major_diameter
         ThreadMill.ScrewThread.minor_diameter ThreadMill.ScrewThread.depth
         ThreadMill.ScrewThread.start_plane ThreadMill.ScrewThread.tpi
         ThreadMill.ScrewThread.pitch ThreadMill.CuttingTool.diameter
         ThreadMill.CuttingTool.flutes ThreadMill.CuttingTool.speed
         ThreadMill.CuttingTool.feed ThreadMill.CuttingTool.rpm] in *.
    subst p rp. split.
    + apply (@tmill_main_runs _ _ number_of_passes finish_passes
               (TmillDict.Thread.mk a b c d0 e) (TmillDict.Tool.mk d fl sp fe)
               passes N rpm);
        cbn [TmillDict.Thread.major_diameter TmillDict.Thread.minor_diameter
             TmillDict.Thread.thread_depth TmillDict.Thread.starting_plane
             TmillDict.Thread.threads_per_inch TmillDict.Tool.tool_diameter
             TmillDict.Tool.number_of_flutes TmillDict.Tool.speed
             TmillDict.Tool.feed]; try assumption.
      * apply get_thread_info_complete;
          cbn [TmillDict.Thread.major_diameter TmillDict.Thread.minor_diameter
               TmillDict.Thread.thread_depth TmillDict.Thread.starting_plane
               TmillDict.Thread.threads_per_inch]; try assumption.
        destruct (b >? a)%py eqn:E; [| reflexivity].
        apply Hlaw in E. congruence.
      * apply get_tool_info_complete;
          cbn [TmillDict.Tool.tool_diameter TmillDict.Tool.number_of_flutes
               TmillDict.Tool.speed TmillDict.Tool.feed]; assumption.
      * rewrite (get_pass_percentages_eq number_of_passes Hn Hrange).
        exact Hpasses.
    + exists a, b, e, sp, d. repeat split; assumption.
  - intros [[file H] (a & b & e & s & d & Ea & Eb & Ee & Es & Ed & Hcmp & Pp
                      & Qr)].
    apply tmill_main_steps in H.
    destruct H as (thread_info & tool_info & passes & N & rpm & Hthread
                   & Htool & Hfit & Hpasses & HN & HN1 & Hdiv & Hdz & Hrpm
                   & Hez).
    apply get_thread_info_sound in Hthread.
    destruct Hthread as (Ea' & Eb' & Ec' & Ed' & Ee' & Pa & Pb & Pc & Pe & _).
    apply get_tool_info_sound in Htool.
    destruct Htool as (Fa & Fb & Fc & Ff & Qa & Qb & Qc & Qf).
    destruct thread_info as [a' b' c' d0 e'], tool_info as [d' fl sp fe].
    cbn [TmillDict.Thread.major_diameter TmillDict.Thread.minor_diameter
         TmillDict.Thread.thread_depth TmillDict.Thread.starting_plane
         TmillDict.Thread.threads_per_inch TmillDict.Tool.tool_diameter
         TmillDict.Tool.number_of_flutes TmillDict.Tool.speed
         TmillDict.Tool.feed] in *.
    rewrite Ea in Ea'. injection Ea' as <-.
    rewrite Eb in Eb'. injection Eb' as <-.
    rewrite Ee in Ee'. injection Ee' as <-.
    rewrite Es in Fc. injection Fc as <-.
    rewrite Ed in Fa. injection Fa as <-.
    assert (Hth : ThreadMill.ScrewThread.input_thread_info major minor depth
                    start tpi
                  = Ok (ThreadMill.ScrewThread.mk a b c' d0 e
                          (lit 10 1 / e)%py))
      by (apply input_thread_info_complete; assumption).
    assert (Htl : ThreadMill.CuttingTool.input_tool_info diameter flutes speed
                    feed
                  = Ok (ThreadMill.CuttingTool.mk d fl s fe
                          (s * lit 382 2 / d)%py))
      by (apply input_tool_info_complete; assumption).
    pose proof Hth as Hself. apply input_thread_info_validated in Hself.
    destruct Hself as [self Hself]. apply thread_revalidate in Hself.
    pose proof Htl as Hself'. apply input_tool_info_validated in Hself'.
    destruct Hself' as [self' Hself']. apply tool_revalidate in Hself'.
    pose proof Hpasses as Hn. apply get_pass_percentages_ok in Hn.
    destruct Hn as (n & Hn & Hrange & _). apply py_int_some in Hn.
    rewrite (get_pass_percentages_eq number_of_passes Hn Hrange) in Hpasses.
    rewrite get_toolpath_radii_same in Hdiv.
    eexists.
    eapply (@thread_mill_main_runs major minor depth start tpi diameter flutes
             speed feed number_of_passes finish_passes _ _ _ n N rpm Hth Htl
             Hn);
      [| exact HN | exact HN1 | exact Hrpm].
    apply (@body_details_init_runs _ _ _ _ _ n _ _ passes Hself Hself');
      [exact Hfit | exact Hpasses | exact Hdiv].
Qed.

End Outcomes.

(** * The outcomes in binary64 *)

Section Binary64Outcomes.
Local Open Scope string_scope.

(** In binary64 [round] raises [OverflowError] on an infinity and
    [ValueError] on a NaN. *)
Lemma binary64_round_int_raises (x : float) (e : exn) :
  fround_int x = Raise e -> e = OverflowError \/ exists msg, e = ValueError msg.
Proof.
  cbn [fround_int Binary64.arith]. unfold Binary64.round_int.
  destruct (Prim2SF x); intros H; try discriminate; injection H as <-;
    [left; reflexivity | right; eexists; reflexivity].
Qed.

(** The comparisons of binary64 obey the law of order. *)
Lemma binary64_lt_le : lt_le_law float.
Proof.
  intros x y. cbn [fltb fleb Binary64.arith].
  rewrite ltb_spec, leb_spec. unfold SFltb, SFleb.
  destruct (SFcompare (Prim2SF x) (Prim2SF y)) as [[| |] |];
    intros H; try discriminate; reflexivity.
Qed.




End Binary64Outcomes.


(** * The texts written *)

Section Texts.
Context {F : Type} {A : Arith F} {P : Parse F} {Sh : Print F}.
Local Open Scope string_scope.

(** The two programs write the same text around the numbers: the spindle
    line and the trailer are the same, and a motion block of [post_body] is
    the eight writes of [write_body] joined, as soon as the feed word is
    the same text (the class-based program rounds its feed rate to four
    decimals, the dictionary program to two). *)
Theorem programs_share_the_block_layout :
  (forall (rpm : F) (n : Z),
      fround_int rpm = Ok n ->
      ThreadMill.post_begin rpm = Ok (join (TmillDict.write_begin n)))
  /\ ThreadMill.post_end = join TmillDict.write_end
  /\ (forall lead_arc feed adjust fast_feed top_plane start_z radius lead_z
             pitch rate : F,
        str_of_float (fround rate 4)
        = str_of_float (fround (feed * adjust)%py 2) ->
        ThreadMill.motion_block (str_of_float top_plane)
          (str_of_float (fround pitch 4)) fast_feed start_z lead_z radius
          lead_arc rate
        = join (TmillDict.write_body lead_arc feed adjust fast_feed top_plane
                  start_z radius lead_z pitch)).
Proof.
  split; [| split].
  - intros rpm n Hn. unfold ThreadMill.post_begin, TmillDict.write_begin.
    rewrite Hn. cbn [bind join fold_right].
    rewrite !append_assoc, append_empty_r. reflexivity.
  - unfold ThreadMill.post_end, TmillDict.write_end. cbn [join fold_right].
    rewrite !append_assoc, append_empty_r. reflexivity.
  - intros lead_arc feed adjust fast_feed top_plane start_z radius lead_z
      pitch rate Hfeed.
    unfold ThreadMill.motion_block, TmillDict.write_body.
    cbn [join fold_right]. rewrite Hfeed.
    rewrite !append_assoc, append_empty_r. reflexivity.
Qed.

(** [post_body] on any toolpath and any count: a count of finishing passes
    of one or less, zero and negative counts included, adds no block; with
    no pass planned the text is empty whatever the count; and the blocks
    are as many as the shortest of the three lists, since the loop runs
    over their [zip]. *)
Theorem post_body_edge_cases (toolpath : ThreadMill.BodyDetails.t F)
    (thread : ThreadMill.ScrewThread.t F) (rapid_feed : F) :
  (forall N : Z,
      (N <= 1)%Z ->
      ThreadMill.post_body toolpath thread N rapid_feed
      = join (planned_blocks toolpath thread rapid_feed))
  /\ (ThreadMill.BodyDetails.radii toolpath = [] ->
      forall N : Z, ThreadMill.post_body toolpath thread N rapid_feed = "")
  /\ List.length (planned_blocks toolpath thread rapid_feed)
     = Nat.min (List.length (ThreadMill.BodyDetails.radii toolpath))
         (Nat.min (List.length (ThreadMill.BodyDetails.lead_arcs toolpath))
            (List.length (ThreadMill.BodyDetails.feed toolpath))).
Proof.
  split; [| split].
  - intros N HN. rewrite post_body_blocks. unfold with_finish.
    replace (Z.to_nat (N - 1)) with 0%nat by lia.
    cbn [repeat]. rewrite app_nil_r. reflexivity.
  - intros Hempty N. rewrite post_body_blocks.
    unfold with_finish, planned_blocks. rewrite Hempty.
    cbn [combine List.map app last].
    induction (Z.to_nat (N - 1)) as [| k IH]; [reflexivity |].
    cbn [repeat join fold_right String.append]. exact IH.
  - unfold planned_blocks. rewrite length_map, !length_combine. reflexivity.
Qed.

Lemma input_thread_info_again (major minor depth start tpi : string)
    (thread : ThreadMill.ScrewThread.t F) :
  ThreadMill.ScrewThread.input_thread_info major minor depth start tpi
  = Ok thread ->
  float_of_str (str_of_float (ThreadMill.ScrewThread.major_diameter thread))
  = Some (ThreadMill.ScrewThread.major_diameter thread) ->
  float_of_str (str_of_float (ThreadMill.ScrewThread.minor_diameter thread))
  = Some (ThreadMill.ScrewThread.minor_diameter thread) ->
  float_of_str (str_of_float (ThreadMill.ScrewThread.depth thread))
  = Some (ThreadMill.ScrewThread.depth thread) ->
  float_of_str (str_of_float (ThreadMill.ScrewThread.start_plane thread))
  = Some (ThreadMill.ScrewThread.start_plane thread) ->
  float_of_str (str_of_float (ThreadMill.ScrewThread.tpi thread))
  = Some (ThreadMill.ScrewThread.tpi thread) ->
  ThreadMill.ScrewThread.input_thread_info
    (str_of_float (ThreadMill.ScrewThread.major_diameter thread))
    (str_of_float (ThreadMill.ScrewThread.minor_diameter thread))
    (str_of_float (ThreadMill.ScrewThread.depth thread))
    (str_of_float (ThreadMill.ScrewThread.start_plane thread))
    (str_of_float (ThreadMill.ScrewThread.tpi thread))
  = Ok thread.
Proof.
  unfold ThreadMill.ScrewThread.input_thread_info.
  intros H Ra Rb Rc Rd Re.
  apply bind_ok_inv in H. destruct H as (z & Hz & H).
  apply bind_ok_inv in H. destruct H as (pitch & Hpitch & H).
  apply thread_validate_ok in H.
  destruct H as (Hmap & Ha & Hb & Hc & He & Hf & Hcmp).
  pose proof (f_equal (@ThreadMill.ScrewThread.tpi _) Hmap) as Ee.
  pose proof (f_equal (@ThreadMill.ScrewThread.pitch _) Hmap) as Ef.
  cbn [ThreadMill.ScrewThread.map ThreadMill.ScrewThread.tpi
       ThreadMill.ScrewThread.pitch] in Ee, Ef.
  rewrite Hz in Ee. apply Ok_inj in Ee. subst z.
  cbn [py_float] in Ef. apply Ok_inj in Ef. subst pitch.
  cbn [py_float]. rewrite Re. cbn [bind]. rewrite Hpitch. cbn [bind].
  apply thread_validate_complete; try assumption.
  destruct thread as [a b c d e f].
  unfold ThreadMill.ScrewThread.map.
  cbn [ThreadMill.ScrewThread.major_diameter
       ThreadMill.ScrewThread.minor_diameter ThreadMill.ScrewThread.depth
       ThreadMill.ScrewThread.start_plane ThreadMill.ScrewThread.tpi
       ThreadMill.ScrewThread.pitch py_float] in *.
  rewrite Ra, Rb, Rc, Rd, Re. reflexivity.
Qed.

Lemma input_tool_info_again (diameter flutes speed feed : string)
    (tool : ThreadMill.CuttingTool.t F) :
  ThreadMill.CuttingTool.input_tool_info diameter flutes speed feed = Ok tool ->
  float_of_str (str_of_float (ThreadMill.CuttingTool.diameter tool))
  = Some (ThreadMill.CuttingTool.diameter tool) ->
  float_of_str (str_of_float (ThreadMill.CuttingTool.flutes tool))
  = Some (ThreadMill.CuttingTool.flutes tool) ->
  float_of_str (str_of_float (ThreadMill.CuttingTool.speed tool))
  = Some (ThreadMill.CuttingTool.speed tool) ->
  float_of_str (str_of_float (ThreadMill.CuttingTool.feed tool))
  = Some (ThreadMill.CuttingTool.feed tool) ->
  ThreadMill.CuttingTool.input_tool_info
    (str_of_float (ThreadMill.CuttingTool.diameter tool))
    (str_of_float (ThreadMill.CuttingTool.flutes tool))
    (str_of_float (ThreadMill.CuttingTool.speed tool))
    (str_of_float (ThreadMill.CuttingTool.feed tool))
  = Ok tool.
Proof.
  unfold ThreadMill.CuttingTool.input_tool_info.
  intros H Ra Rb Rc Rf.
  apply bind_ok_inv in H. destruct H as (s & Hs & H).
  apply bind_ok_inv in H. destruct H as (d & Hd & H).
  apply bind_ok_inv in H. destruct H as (rpm & Hrpm & H).
  apply tool_validate_ok in H.
  destruct H as (Hmap & Ha & Hb & Hc & Hf & Hr).
  pose proof (f_equal (@ThreadMill.CuttingTool.diameter _) Hmap) as Ea.
  pose proof (f_equal (@ThreadMill.CuttingTool.speed _) Hmap) as Ec.
  pose proof (f_equal (@ThreadMill.CuttingTool.rpm _) Hmap) as Er.
  cbn [ThreadMill.CuttingTool.map ThreadMill.CuttingTool.diameter
       ThreadMill.CuttingTool.speed ThreadMill.CuttingTool.rpm] in Ea, Ec, Er.
  rewrite Hd in Ea. apply Ok_inj in Ea. subst d.
  rewrite Hs in Ec. apply Ok_inj in Ec. subst s.
  cbn [py_float] in Er. apply Ok_inj in Er. subst rpm.
  cbn [py_float]. rewrite Rc, Ra. cbn [bind]. rewrite Hrpm. cbn [bind].
  apply tool_validate_complete; try assumption.
  destruct tool as [a b c f r].
  unfold ThreadMill.CuttingTool.map.
  cbn [ThreadMill.CuttingTool.diameter ThreadMill.CuttingTool.flutes
       ThreadMill.CuttingTool.speed ThreadMill.CuttingTool.feed
       ThreadMill.CuttingTool.rpm py_float] in *.
  rewrite Ra, Rb, Rc, Rf. reflexivity.
Qed.

Lemma main_config_inv (g_code_name : string)
    (major minor depth start tpi : string)
    (diameter flutes speed feed : string)
    (number_of_passes finish_passes : string) (lines : list string) :
  ThreadMill.main_config g_code_name major minor depth start tpi diameter
    flutes speed feed number_of_passes finish_passes = Ok lines ->
  exists (thread : ThreadMill.ScrewThread.t F) (tool : ThreadMill.CuttingTool.t F),
    ThreadMill.ScrewThread.input_thread_info major minor depth start tpi
    = Ok thread
    /\ ThreadMill.CuttingTool.input_tool_info diameter flutes speed feed
       = Ok tool
    /\ lines
       = ThreadMill.write_config_file g_code_name thread tool number_of_passes
           finish_passes.
Proof.
  unfold ThreadMill.main_config. intros H.
  apply bind_ok_inv in H. destruct H as (thread & Hthread & H).
  apply bind_ok_inv in H. destruct H as (tool & Htool & H).
  apply bind_ok_inv in H. destruct H as (n & _ & H).
  apply bind_ok_inv in H. destruct H as (toolpath & _ & H).
  apply bind_ok_inv in H. destruct H as (N & _ & H).
  destruct (N <? 1)%Z; [discriminate |].
  apply Ok_inj in H. exists thread, tool. repeat split; try assumption.
  symmetry. exact H.
Qed.

(** The configuration file of the class-based program holds what it takes
    to repeat the run: twelve lines, the name given for the g-code file,
    then the nine numbers as [str] prints the validated [float]s (the
    derived pitch and rpm are not saved), then the two counts as they were
    typed.  When [float] reads each printed number back as the same
    number, a run on the nine saved lines and the two counts gives what
    the run on the original lines gave. *)
Theorem config_file_reproduces_the_run (g_code_name : string)
    (major minor depth start tpi : string)
    (diameter flutes speed feed : string)
    (number_of_passes finish_passes : string) (lines : list string) :
  ThreadMill.main_config g_code_name major minor depth start tpi diameter
    flutes speed feed number_of_passes finish_passes = Ok lines ->
  exists (thread : ThreadMill.ScrewThread.t F) (tool : ThreadMill.CuttingTool.t F),
    ThreadMill.ScrewThread.input_thread_info major minor depth start tpi
    = Ok thread
    /\ ThreadMill.CuttingTool.input_tool_info diameter flutes speed feed
       = Ok tool
    /\ lines
       = List.map (fun line => line ++ nl)
           [ g_code_name;
             str_of_float (ThreadMill.ScrewThread.major_diameter thread);
             str_of_float (ThreadMill.ScrewThread.minor_diameter thread);
             str_of_float (ThreadMill.ScrewThread.depth thread);
             str_of_float (ThreadMill.ScrewThread.start_plane thread);
             str_of_float (ThreadMill.ScrewThread.tpi thread);
             str_of_float (ThreadMill.CuttingTool.diameter tool);
             str_of_float (ThreadMill.CuttingTool.flutes tool);
             str_of_float (ThreadMill.CuttingTool.speed tool);
             str_of_float (ThreadMill.CuttingTool.feed tool);
             number_of_passes;
             finish_passes ]
    /\ (Forall (fun x => float_of_str (str_of_float x) = Some x)
          [ ThreadMill.ScrewThread.major_diameter thread;
            ThreadMill.ScrewThread.minor_diameter thread;
            ThreadMill.ScrewThread.depth thread;
            ThreadMill.ScrewThread.start_plane thread;
            ThreadMill.ScrewThread.tpi thread;
            ThreadMill.CuttingTool.diameter tool;
            ThreadMill.CuttingTool.flutes tool;
            ThreadMill.CuttingTool.speed tool;
            ThreadMill.CuttingTool.feed tool ] ->
        ThreadMill.main
          (str_of_float (ThreadMill.ScrewThread.major_diameter thread))
          (str_of_float (ThreadMill.ScrewThread.minor_diameter thread))
          (str_of_float (ThreadMill.ScrewThread.depth thread))
          (str_of_float (ThreadMill.ScrewThread.start_plane thread))
          (str_of_float (ThreadMill.ScrewThread.tpi thread))
          (str_of_float (ThreadMill.CuttingTool.diameter tool))
          (str_of_float (ThreadMill.CuttingTool.flutes tool))
          (str_of_float (ThreadMill.CuttingTool.speed tool))
          (str_of_float (ThreadMill.CuttingTool.feed tool))
          number_of_passes finish_passes
        = ThreadMill.main major minor depth start tpi diameter flutes speed
            feed number_of_passes finish_passes).
Proof.
  intros H. apply main_config_inv in H.
  destruct H as (thread & tool & Hthread & Htool & ->).
  exists thread, tool.
  split; [exact Hthread |]. split; [exact Htool |]. split; [reflexivity |].
  intros Hread.
  repeat match goal with
         | Hf : Forall _ (_ :: _) |- _ =>
             let Hx := fresh "R" in
             let Hr := fresh "Hrest" in
             apply Forall_cons_iff in Hf; destruct Hf as [Hx Hr]
         end.
  unfold ThreadMill.main.
  rewrite (input_thread_info_again _ _ _ _ _ Hthread) by assumption.
  rewrite (input_tool_info_again _ _ _ _ Htool) by assumption.
  rewrite Hthread, Htool. reflexivity.
Qed.

Lemma get_thread_info_again (threads : TmillDict.Thread.t string)
    (info : TmillDict.Thread.t F) :
  TmillDict.get_thread_info threads = Ok info ->
  float_of_str (str_of_float (TmillDict.Thread.major_diameter info))
  = Some (TmillDict.Thread.major_diameter info) ->
  float_of_str (str_of_float (TmillDict.Thread.minor_diameter info))
  = Some (TmillDict.Thread.minor_diameter info) ->
  float_of_str (str_of_float (TmillDict.Thread.thread_depth info))
  = Some (TmillDict.Thread.thread_depth info) ->
  float_of_str (str_of_float (TmillDict.Thread.starting_plane info))
  = Some (TmillDict.Thread.starting_plane info) ->
  float_of_str (str_of_float (TmillDict.Thread.threads_per_inch info))
  = Some (TmillDict.Thread.threads_per_inch info) ->
  TmillDict.get_thread_info
    (TmillDict.Thread.mk
       (str_of_float (TmillDict.Thread.major_diameter info))
       (str_of_float (TmillDict.Thread.minor_diameter info))
       (str_of_float (TmillDict.Thread.thread_depth info))
       (str_of_float (TmillDict.Thread.starting_plane info))
       (str_of_float (TmillDict.Thread.threads_per_inch info)))
  = Ok info.
Proof.
  intros H Ra Rb Rc Rd Re. apply get_thread_info_sound in H.
  destruct H as (_ & _ & _ & _ & _ & Ha & Hb & Hc & He & Hcmp).
  apply get_thread_info_complete; assumption.
Qed.

Lemma get_tool_info_again (tool : TmillDict.Tool.t string)
    (info : TmillDict.Tool.t F) :
  TmillDict.get_tool_info tool = Ok info ->
  float_of_str (str_of_float (TmillDict.Tool.tool_diameter info))
  = Some (TmillDict.Tool.tool_diameter info) ->
  float_of_str (str_of_float (TmillDict.Tool.number_of_flutes info))
  = Some (TmillDict.Tool.number_of_flutes info) ->
  float_of_str (str_of_float (TmillDict.Tool.speed info))
  = Some (TmillDict.Tool.speed info) ->
  float_of_str (str_of_float (TmillDict.Tool.feed info))
  = Some (TmillDict.Tool.feed info) ->
  TmillDict.get_tool_info
    (TmillDict.Tool.mk
       (str_of_float (TmillDict.Tool.tool_diameter info))
       (str_of_float (TmillDict.Tool.number_of_flutes info))
       (str_of_float (TmillDict.Tool.speed info))
       (str_of_float (TmillDict.Tool.feed info)))
  = Ok info.
Proof.
  intros H Ra Rb Rc Rd. apply get_tool_info_sound in H.
  destruct H as (_ & _ & _ & _ & Ha & Hb & Hc & Hd).
  apply get_tool_info_complete; assumption.
Qed.

(** The configuration file of the dictionary program is written once the
    g-code is complete, and holds what it takes to repeat the run: its own
    name, the nine numbers as [str] prints the [float]s of the two
    dictionaries, and the two counts as they were typed.  When [float]
    reads each printed number back as the same number, a run on the saved
    lines writes the same g-code. *)
Theorem dictionary_config_file_reproduces_the_run (config_name : string)
    (threads : TmillDict.Thread.t string) (tool : TmillDict.Tool.t string)
    (number_of_passes finish_passes : string) (lines : list string) :
  TmillDict.main_config config_name threads tool number_of_passes
    finish_passes = Ok lines ->
  exists (thread_info : TmillDict.Thread.t F) (tool_info : TmillDict.Tool.t F)
         (g_code : list string),
    TmillDict.get_thread_info threads = Ok thread_info
    /\ TmillDict.get_tool_info tool = Ok tool_info
    /\ TmillDict.main threads tool number_of_passes finish_passes = Ok g_code
    /\ lines
       = List.map (fun line => line ++ nl)
           [ config_name;
             str_of_float (TmillDict.Thread.major_diameter thread_info);
             str_of_float (TmillDict.Thread.minor_diameter thread_info);
             str_of_float (TmillDict.Thread.thread_depth thread_info);
             str_of_float (TmillDict.Thread.starting_plane thread_info);
             str_of_float (TmillDict.Thread.threads_per_inch thread_info);
             str_of_float (TmillDict.Tool.tool_diameter tool_info);
             str_of_float (TmillDict.Tool.number_of_flutes tool_info);
             str_of_float (TmillDict.Tool.speed tool_info);
             str_of_float (TmillDict.Tool.feed tool_info);
             number_of_passes;
             finish_passes ]
    /\ (Forall (fun x => float_of_str (str_of_float x) = Some x)
          [ TmillDict.Thread.major_diameter thread_info;
            TmillDict.Thread.minor_diameter thread_info;
            TmillDict.Thread.thread_depth thread_info;
            TmillDict.Thread.starting_plane thread_info;
            TmillDict.Thread.threads_per_inch thread_info;
            TmillDict.Tool.tool_diameter tool_info;
            TmillDict.Tool.number_of_flutes tool_info;
            TmillDict.Tool.speed tool_info;
            TmillDict.Tool.feed tool_info ] ->
        TmillDict.main
          (TmillDict.Thread.mk
             (str_of_float (TmillDict.Thread.major_diameter thread_info))
             (str_of_float (TmillDict.Thread.minor_diameter thread_info))
             (str_of_float (TmillDict.Thread.thread_depth thread_info))
             (str_of_float (TmillDict.Thread.starting_plane thread_info))
             (str_of_float (TmillDict.Thread.threads_per_inch thread_info)))
          (TmillDict.Tool.mk
             (str_of_float (TmillDict.Tool.tool_diameter tool_info))
             (str_of_float (TmillDict.Tool.number_of_flutes tool_info))
             (str_of_float (TmillDict.Tool.speed tool_info))
             (str_of_float (TmillDict.Tool.feed tool_info)))
          number_of_passes finish_passes
        = Ok g_code).
Proof.
  unfold TmillDict.main_config. intros H.
  apply bind_ok_inv in H. destruct H as (thread_info & Hthread & H).
  apply bind_ok_inv in H. destruct H as (tool_info & Htool & H).
  apply bind_ok_inv in H. destruct H as (g_code & Hmain & H).
  apply Ok_inj in H. subst lines.
  exists thread_info, tool_info, g_code.
  split; [exact Hthread |]. split; [exact Htool |]. split; [exact Hmain |].
  split; [reflexivity |].
  intros Hread.
  repeat match goal with
         | Hf : Forall _ (_ :: _) |- _ =>
             let Hx := fresh "R" in
             let Hr := fresh "Hrest" in
             apply Forall_cons_iff in Hf; destruct Hf as [Hx Hr]
         end.
  rewrite <- Hmain. unfold TmillDict.main.
  rewrite (@get_thread_info_again threads thread_info Hthread) by assumption.
  rewrite (@get_tool_info_again tool tool_info Htool) by assumption.
  rewrite Hthread, Htool. reflexivity.
Qed.

End Texts.


(** * The facts above on concrete input *)

Section MoreRuns.
Local Open Scope Q_scope.
Local Open Scope string_scope.

Lemma validating_again_changes_nothing_witness :
  ThreadMill.ScrewThread.validate
    (ThreadMill.ScrewThread.map PFloat
       (thread_values (F := Q) (thread_of 50020 50000)))
  = Ok (thread_values (thread_of 50020 50000)).
Proof.
  refine (proj1 (@validating_again_changes_nothing Q _ _)
            (thread_of 50020 50000) _ _).
  vm_compute. reflexivity.
Defined.

Lemma zero_threads_per_inch_raises_zero_division_witness :
  ThreadMill.main (F := Q) "0.5" "0.4" "0.5" "0.1" "0" "0.25" "4" "100" "0.001"
    "2" "1"
  = Raise ZeroDivisionError.
Proof.
  refine (proj2 (@zero_threads_per_inch_raises_zero_division Q _ _ _)
            _ _ _ _ _ _ _ _ _ _ _ (0 # 1) _ _); reflexivity.
Defined.

Lemma zero_tool_diameter_raises_zero_division_witness :
  ThreadMill.main (F := Q) "0.5" "0.4" "0.5" "0.1" "20" "0.0" "4" "100" "0.001"
    "2" "1"
  = Raise ZeroDivisionError.
Proof.
  refine (proj2 (@zero_tool_diameter_raises_zero_division Q _ _ _)
            _ _ _ _ _ _ _ _ _ _ _
            (ThreadMill.ScrewThread.mk (5 # 10) (4 # 10) (5 # 10) (1 # 10)
               (20 # 1) ((10 # 10) / (20 # 1)))
            (100 # 1) (0 # 10) _ _ _ _); reflexivity.
Defined.

Lemma config_file_reproduces_the_run_witness :
  exists (thread : ThreadMill.ScrewThread.t Q)
         (tool : ThreadMill.CuttingTool.t Q),
    ThreadMill.main_config "thread.nc" "0.5" "0.4" "0.5" "0.1" "20.0" "0.25"
      "4.0" "100.0" "0.001" "2" "1"
    = Ok (ThreadMill.write_config_file "thread.nc" thread tool "2" "1")
    /\ ThreadMill.main
         (str_of_float (ThreadMill.ScrewThread.major_diameter thread))
         (str_of_float (ThreadMill.ScrewThread.minor_diameter thread))
         (str_of_float (ThreadMill.ScrewThread.depth thread))
         (str_of_float (ThreadMill.ScrewThread.start_plane thread))
         (str_of_float (ThreadMill.ScrewThread.tpi thread))
         (str_of_float (ThreadMill.CuttingTool.diameter tool))
         (str_of_float (ThreadMill.CuttingTool.flutes tool))
         (str_of_float (ThreadMill.CuttingTool.speed tool))
         (str_of_float (ThreadMill.CuttingTool.feed tool))
         "2" "1"
       = ThreadMill.main "0.5" "0.4" "0.5" "0.1" "20.0" "0.25" "4.0" "100.0"
           "0.001" "2" "1".
Proof.
  assert (Hconfig :
            ThreadMill.main_config (F := Q) "thread.nc" "0.5" "0.4" "0.5" "0.1"
              "20.0" "0.25" "4.0" "100.0" "0.001" "2" "1"
            = Ok match ThreadMill.main_config (F := Q) "thread.nc" "0.5" "0.4"
                         "0.5" "0.1" "20.0" "0.25" "4.0" "100.0" "0.001" "2"
                         "1" with
                 | Ok lines => lines
                 | Raise _ => []
                 end)
    by (vm_compute; reflexivity).
  destruct (@config_file_reproduces_the_run Q Exact.arith Exact.parse
              Exact.print "thread.nc" "0.5" "0.4" "0.5" "0.1" "20.0" "0.25"
              "4.0" "100.0" "0.001" "2" "1" _ Hconfig)
    as (thread & tool & Hthread & Htool & _ & Hrun).
  vm_compute in Hthread. vm_compute in Htool.
  injection Hthread as <-. injection Htool as <-.
  eexists _, _. split; [| apply Hrun].
  - vm_compute. reflexivity.
  - repeat constructor.
Defined.

Lemma dictionary_config_file_reproduces_the_run_witness :
  exists g_code : list string,
    TmillDict.main (F := Q)
      (TmillDict.Thread.mk "0.5" "0.4" "0.5" "0.1" "20.0")
      (TmillDict.Tool.mk "0.25" "4.0" "100.0" "0.001") "2" "1"
    = Ok g_code
    /\ List.length g_code = 20%nat.
Proof.
  assert (Hconfig :
            TmillDict.main_config (F := Q) "thread.cfg"
              (TmillDict.Thread.mk "0.5" "0.4" "0.5" "0.1" "20.0")
              (TmillDict.Tool.mk "0.25" "4.0" "100.0" "0.001") "2" "1"
            = Ok match TmillDict.main_config (F := Q) "thread.cfg"
                         (TmillDict.Thread.mk "0.5" "0.4" "0.5" "0.1" "20.0")
                         (TmillDict.Tool.mk "0.25" "4.0" "100.0" "0.001") "2"
                         "1" with
                 | Ok lines => lines
                 | Raise _ => []
                 end)
    by (vm_compute; reflexivity).
  destruct (@dictionary_config_file_reproduces_the_run Q Exact.arith
              Exact.parse Exact.print "thread.cfg"
              (TmillDict.Thread.mk "0.5" "0.4" "0.5" "0.1" "20.0")
              (TmillDict.Tool.mk "0.25" "4.0" "100.0" "0.001") "2" "1" _
              Hconfig)
    as (thread_info & tool_info & g_code & Hthread & Htool & Hmain & _ & Hrun).
  vm_compute in Hthread. vm_compute in Htool.
  injection Hthread as <-. injection Htool as <-.
  assert (Hread : TmillDict.main (F := Q)
                    (TmillDict.Thread.mk "0.5" "0.4" "0.5" "0.1" "20.0")
                    (TmillDict.Tool.mk "0.25" "4.0" "100.0" "0.001") "2" "1"
                  = Ok g_code).
  { apply Hrun. repeat constructor. }
  exists g_code. split; [exact Hread |].
  vm_compute in Hread. injection Hread as <-. reflexivity.
Defined.

End MoreRuns.
